(** * grader/run.py: submission packaging and container lifecycle

    A shallow embedding of [run.py] (functions [grade] and
    [create_container]) together with the parts of the Python runtime,
    the file system and the Docker client that the two functions call.

    Strings are byte strings ([string] of the Standard Library).  The two
    regular expressions of the program only look at the bytes of [_submit],
    [.], [/] and the line feed, none of which occurs inside a multi-byte
    UTF-8 sequence, so matching on bytes agrees with matching on code
    points. *)

From Stdlib Require Import String Ascii List Bool Arith NArith Lia.
Import ListNotations.

Open Scope string_scope.
Open Scope list_scope.

(** String concatenation (Python's [+] on [str] and the effect of
    [format]); [++] is kept for lists. *)
Notation "a +++ b" := (String.append a b) (right associativity, at level 60).

(* ================================================================= *)
(** ** Python strings and [os.path] *)

Module Py.

(** The characters the program tests for. *)
Definition slash : ascii := "/"%char.
Definition dot : ascii := "."%char.
Definition LF : ascii := ascii_of_nat 10.
Definition dquote : ascii := ascii_of_nat 34.

Definition str1 (c : ascii) : string := String c EmptyString.

(** [s[1:]] *)
Definition slice_from1 (s : string) : string :=
  match s with
  | EmptyString => EmptyString
  | String _ t => t
  end.

(** ['/' in s] *)
Fixpoint has_slash (s : string) : bool :=
  match s with
  | EmptyString => false
  | String c t => Ascii.eqb c slash || has_slash t
  end.

(** [s.endswith('/')] *)
Fixpoint ends_with_slash (s : string) : bool :=
  match s with
  | EmptyString => false
  | String c EmptyString => Ascii.eqb c slash
  | String _ t => ends_with_slash t
  end.

(** [posixpath.basename]: [i = p.rfind('/') + 1; return p[i:]]. *)
Fixpoint basename (p : string) : string :=
  match p with
  | EmptyString => EmptyString
  | String c t =>
      if has_slash t then basename t
      else if Ascii.eqb c slash then t
      else p
  end.

(** [posixpath.join(a, b)] for two arguments: an absolute [b] replaces
    [a]; otherwise a separator is inserted unless [a] is empty or
    already ends with one. *)
Definition join (a b : string) : string :=
  match b with
  | String c _ =>
      if Ascii.eqb c slash then b
      else if (String.eqb a EmptyString || ends_with_slash a)%bool then a +++ b
      else a +++ str1 slash +++ b
  | EmptyString =>
      if (String.eqb a EmptyString || ends_with_slash a)%bool then a
      else a +++ str1 slash
  end.

(** [p.split('/')] *)
Fixpoint split_slash (s : string) : list string :=
  match s with
  | EmptyString => [EmptyString]
  | String c t =>
      if Ascii.eqb c slash then EmptyString :: split_slash t
      else match split_slash t with
           | h :: r => String c h :: r
           | [] => [str1 c]
           end
  end.

End Py.

(* ================================================================= *)
(** ** Regular expressions ([re.sub] with an empty replacement) *)

Module Re.

(** The fragment of Python's pattern language that [run.py] uses:
    literals, alternation, sequencing, a greedy [+] over a character
    class and the end anchor [$]. *)
Inductive regex : Type :=
| Lit (s : string)
| Alt (a b : regex)
| Seq (a b : regex)
| Plus (cls : ascii -> bool)
| Eol.

(** [strip_prefix l s] is [Some r] when [s = l ++ r]. *)
Fixpoint strip_prefix (l s : string) : option string :=
  match l with
  | EmptyString => Some s
  | String a l' =>
      match s with
      | String b s' => if Ascii.eqb a b then strip_prefix l' s' else None
      | EmptyString => None
      end
  end.

(** Greedy repetition of a character class, zero or more times, with
    backtracking: the longest run is tried first. *)
Fixpoint star_class (cls : ascii -> bool) (s : string)
         (k : string -> option string) : option string :=
  match s with
  | String c t =>
      if cls c then
        match star_class cls t k with
        | Some r => Some r
        | None => k s
        end
      else k s
  | EmptyString => k s
  end.

(** Without [re.MULTILINE], [$] matches at the end of the string and
    just before a line feed that ends the string. *)
Definition at_eol (s : string) : bool :=
  match s with
  | EmptyString => true
  | String c EmptyString => Ascii.eqb c Py.LF
  | _ => false
  end.

(** Backtracking matcher in continuation-passing style.  [rmatch r s k]
    matches [r] at the start of [s] and hands the rest of the subject to
    [k]; alternatives are tried left to right, as Python does. *)
Fixpoint rmatch (r : regex) (s : string)
         (k : string -> option string) : option string :=
  match r with
  | Lit l =>
      match strip_prefix l s with
      | Some rest => k rest
      | None => None
      end
  | Alt a b =>
      match rmatch a s k with
      | Some x => Some x
      | None => rmatch b s k
      end
  | Seq a b => rmatch a s (fun rest => rmatch b rest k)
  | Plus cls =>
      match s with
      | String c t => if cls c then star_class cls t k else None
      | EmptyString => None
      end
  | Eol => if at_eol s then k s else None
  end.

(** Length of the match of [r] that starts at the first character of
    [s], if there is one. *)
Definition match_len (r : regex) (s : string) : option nat :=
  match rmatch r s Some with
  | Some rest => Some (String.length s - String.length rest)
  | None => None
  end.

(** [re.sub(r, '', s)]: every non-overlapping match, found left to
    right, is deleted.  [skip] counts the characters of the current
    match that are still to be dropped.  An empty match deletes
    nothing, so it is treated like no match. *)
Fixpoint sub_go (r : regex) (skip : nat) (s : string) : string :=
  match s with
  | EmptyString => EmptyString
  | String c t =>
      match skip with
      | S n => sub_go r n t
      | O =>
          match match_len r s with
          | Some (S n) => sub_go r n t
          | _ => String c (sub_go r 0 t)
          end
      end
  end.

Definition sub_empty (r : regex) (s : string) : string := sub_go r 0 s.

Definition not_slash (c : ascii) : bool := negb (Ascii.eqb c Py.slash).

(** [r'_submit$'] (run.py, line 37) *)
Definition re_submit : regex := Seq (Lit "_submit") Eol.

(** [r'(_submit|\.[^\/]+)$'] (run.py, line 57) *)
Definition re_user : regex :=
  Seq (Alt (Lit "_submit") (Seq (Lit ".") (Plus not_slash))) Eol.

End Re.

(** The display name of a submission (run.py, lines 55-57). *)
Definition display_name (file : string) : string :=
  Re.sub_empty Re.re_user (Py.basename file).

(** The container name (run.py, line 61): ["{0}_{1}".format(...)]. *)
Definition container_name (folder file : string) : string :=
  Py.basename folder +++ "_" +++ display_name file.


(* ================================================================= *)
(** ** Exceptions and results *)

(** A raised Python exception: its class name and [str(e)]. *)
Inductive Exn : Type :=
| Exception (cls : string) (message : string).

Definition str_of_exn (e : Exn) : string :=
  match e with Exception _ m => m end.

Inductive result (A : Type) : Type :=
| Ok (a : A)
| Raise (e : Exn).
Arguments Ok {A} a.
Arguments Raise {A} e.

(* ================================================================= *)
(** ** The file system *)

Module Fs.

(** What a regular file holds: a gzip stream (given by the bytes it
    decompresses to) or anything else. *)
Inductive content : Type :=
| Gzip (payload : string)
| Plain (bytes : string).

(** A directory tree without links; a directory lists its entries in the
    order [scandir] reports them. *)
#[warnings="-register-all"]
Inductive node : Type :=
| File (c : content)
| Dir (entries : list (string * node)).

Record t : Type := mk { root : node; cwd : list string }.

Fixpoint assoc (x : string) (es : list (string * node)) : option node :=
  match es with
  | [] => None
  | (y, n) :: rest => if String.eqb x y then Some n else assoc x rest
  end.

(** Follow a list of plain entry names down from [n]. *)
Fixpoint lookup_path (n : node) (p : list string) : option node :=
  match p with
  | [] => Some n
  | x :: rest =>
      match n with
      | Dir es =>
          match assoc x es with
          | Some m => lookup_path m rest
          | None => None
          end
      | File _ => None
      end
  end.

Definition is_abs (p : string) : bool :=
  match p with
  | String c _ => Ascii.eqb c Py.slash
  | EmptyString => false
  end.

Definition is_cur (c : string) : bool :=
  (String.eqb c EmptyString || String.eqb c ".")%bool.

(** Path resolution as the kernel does it: every component is looked up
    in the directory reached so far ([stack], innermost first); an empty
    component and [.] stay, [..] goes up and stays at the root. *)
Fixpoint walk_comps (rt : node) (stack : list string) (comps : list string)
  : option (list string) :=
  match comps with
  | [] => Some (rev stack)
  | c :: rest =>
      match lookup_path rt (rev stack) with
      | Some (Dir es) =>
          if is_cur c then walk_comps rt stack rest
          else if String.eqb c ".." then walk_comps rt (tl stack) rest
          else match assoc c es with
               | Some _ => walk_comps rt (c :: stack) rest
               | None => None
               end
      | _ => None
      end
  end.

Definition realpath (fs : t) (p : string) : option (list string) :=
  if String.eqb p EmptyString then None
  else walk_comps (root fs) (if is_abs p then [] else rev (cwd fs))
                  (Py.split_slash p).

Definition stat (fs : t) (p : string) : option node :=
  match realpath fs p with
  | Some q => lookup_path (root fs) q
  | None => None
  end.

(** [os.path.isdir] and [os.path.isfile] *)
Definition isdir (fs : t) (p : string) : bool :=
  match stat fs p with
  | Some (Dir _) => true
  | _ => false
  end.

Definition isfile (fs : t) (p : string) : bool :=
  match stat fs p with
  | Some (File _) => true
  | _ => false
  end.

Definition is_dir_entry (e : string * node) : bool :=
  match snd e with Dir _ => true | File _ => false end.

Definition dir_names (es : list (string * node)) : list string :=
  map fst (filter is_dir_entry es).

Definition file_names (es : list (string * node)) : list string :=
  map fst (filter (fun e => negb (is_dir_entry e)) es).

(** The first triple [os.walk(top)] yields, if it yields one:
    [(top, dirnames, filenames)] of the directory itself.  A [top] that
    cannot be scanned yields nothing. *)
Definition walk_first (fs : t) (top : string)
  : option (string * list string * list string) :=
  match stat fs top with
  | Some (Dir es) => Some (top, dir_names es, file_names es)
  | _ => None
  end.

(** [posixpath.normpath] of an absolute path, on components: purely
    lexical. *)
Fixpoint norm_comps (acc : list string) (comps : list string) : list string :=
  match comps with
  | [] => rev acc
  | c :: rest =>
      if is_cur c then norm_comps acc rest
      else if String.eqb c ".." then norm_comps (tl acc) rest
      else norm_comps (c :: acc) rest
  end.

(** [os.path.abspath], as the list of components below the root. *)
Definition abspath (fs : t) (p : string) : list string :=
  norm_comps [] ((if is_abs p then [] else cwd fs) ++ Py.split_slash p).

(** [gzip.open(os.path.abspath(p)).read()].  What is raised for a file
    that is no gzip stream is an [OSError] (from Python 3.8 on, of its
    subclass [BadGzipFile]) whose message begins with the text given
    here. *)
Definition gzip_read (fs : t) (p : string) : result string :=
  match lookup_path (root fs) (abspath fs p) with
  | Some (File (Gzip d)) => Ok d
  | Some (File (Plain _)) => Raise (Exception "OSError" "Not a gzipped file")
  | Some (Dir _) => Raise (Exception "IsADirectoryError" "Is a directory")
  | None => Raise (Exception "FileNotFoundError" "No such file or directory")
  end.

(** A directory holds one entry per name; deleting a name leaves no
    entry of that name. *)
Definition remove_assoc (x : string) (es : list (string * node))
  : list (string * node) :=
  filter (fun e => negb (String.eqb x (fst e))) es.

Fixpoint set_assoc (x : string) (m : node) (es : list (string * node))
  : list (string * node) :=
  match es with
  | [] => []
  | (y, n) :: rest =>
      if String.eqb x y then (y, m) :: rest else (y, n) :: set_assoc x m rest
  end.

(** Unlink the regular file at [p] below [n]. *)
Fixpoint remove_path (n : node) (p : list string) : option node :=
  match p, n with
  | [x], Dir es =>
      match assoc x es with
      | Some (File _) => Some (Dir (remove_assoc x es))
      | _ => None
      end
  | x :: rest, Dir es =>
      match assoc x es with
      | Some m =>
          match remove_path m rest with
          | Some m' => Some (Dir (set_assoc x m' es))
          | None => None
          end
      | None => None
      end
  | _, _ => None
  end.

(** [os.remove] *)
Definition remove (fs : t) (p : string) : result t :=
  match realpath fs p with
  | Some q =>
      match remove_path (root fs) q with
      | Some r => Ok (mk r (cwd fs))
      | None => Raise (Exception "OSError" "Cannot remove")
      end
  | None => Raise (Exception "FileNotFoundError" "No such file or directory")
  end.

End Fs.

(* ================================================================= *)
(** ** The Docker client *)

Module Docker.

(** One element of the list [cli.containers(all=True)] returns: the keys
    ['Id'], ['Names'] and ['Image'] of the dictionary.  Ids are opaque
    tokens to the program and are numbered here. *)
Record container : Type :=
  mkContainer { Id : nat; Names : list string; Image : string }.

(** The part of a host configuration the program sets: the memory
    limit, in bytes. *)
Record host_config : Type := mkHostConfig { Memory : option N }.

(** The keyword arguments of [cli.create_container]. *)
Record create_args : Type :=
  mkCreateArgs {
      ca_image : string;
      ca_host_config : host_config;
      ca_network_disabled : bool;
      ca_name : string;
      ca_detach : bool;
      ca_tty : bool;
      ca_command : string }.

(** The calls to the daemon; [CallList] is [cli.containers(all=True)]. *)
Inductive call : Type :=
| CallList
| CallRemove (id : nat) (force : bool)
| CallCreate (a : create_args)
| CallPut (container : nat) (path data : string).

(** The daemon: the containers it knows, the number of calls it has
    served, and which call fails at which time for reasons outside the
    program (connection loss, a busy container, a broken archive). *)
Record daemon : Type :=
  mkDaemon {
      containers : list container;
      clock : nat;
      fault : nat -> call -> option Exn }.

Definition tick (d : daemon) (cs : list container) : daemon :=
  mkDaemon cs (S (clock d)) (fault d).

Definition has_id (id : nat) (cs : list container) : bool :=
  existsb (fun c => Nat.eqb (Id c) id) cs.

Definition name_in_use (n : string) (cs : list container) : bool :=
  existsb (fun c => existsb (String.eqb n) (Names c)) cs.

Definition fresh_id (cs : list container) : nat :=
  S (list_max (map Id cs)).

(** [cli.containers(all=True)]: every container, running or not; the
    call changes none of them. *)
Definition list_containers (d : daemon) : result (list container) * daemon :=
  match fault d (clock d) CallList with
  | Some e => (Raise e, tick d (containers d))
  | None => (Ok (containers d), tick d (containers d))
  end.

(** [cli.remove_container(id, force=...)] *)
Definition remove_container (id : nat) (force : bool) (d : daemon)
  : result unit * daemon :=
  match fault d (clock d) (CallRemove id force) with
  | Some e => (Raise e, tick d (containers d))
  | None =>
      if has_id id (containers d) then
        (Ok tt,
         tick d (filter (fun c => negb (Nat.eqb (Id c) id)) (containers d)))
      else (Raise (Exception "NotFound" "No such container"),
            tick d (containers d))
  end.

(** [cli.create_container(...)]: the daemon reports the new container
    under its name behind a slash. *)
Definition create_container (a : create_args) (d : daemon)
  : result nat * daemon :=
  match fault d (clock d) (CallCreate a) with
  | Some e => (Raise e, tick d (containers d))
  | None =>
      let reported := Py.str1 Py.slash +++ ca_name a in
      if name_in_use reported (containers d) then
        (Raise (Exception "APIError" "Conflict"), tick d (containers d))
      else
        let id := fresh_id (containers d) in
        (Ok id,
         tick d (containers d
                 ++ [mkContainer id [reported] (ca_image a)]))
  end.

(** [cli.put_archive(container=id, path=..., data=...)] *)
Definition put_archive (id : nat) (path data : string) (d : daemon)
  : result unit * daemon :=
  match fault d (clock d) (CallPut id path data) with
  | Some e => (Raise e, tick d (containers d))
  | None =>
      if has_id id (containers d) then (Ok tt, tick d (containers d))
      else (Raise (Exception "NotFound" "No such container"),
            tick d (containers d))
  end.

Definition digit (c : ascii) : option N :=
  let n := N_of_ascii c in
  if ((48 <=? n) && (n <=? 57))%N then Some (n - 48)%N else None.

(** The unit table of docker-py's [parse_bytes]. *)
Definition byte_unit (c : ascii) : option N :=
  if Ascii.eqb c "b"%char then Some 1%N
  else if Ascii.eqb c "k"%char then Some 1024%N
  else if Ascii.eqb c "m"%char then Some (1024 * 1024)%N
  else if Ascii.eqb c "g"%char then Some (1024 * 1024 * 1024)%N
  else None.

(** [parse_bytes] on a decimal number followed by one unit letter. *)
Fixpoint parse_bytes_go (acc : N) (s : string) : option N :=
  match s with
  | EmptyString => None
  | String c EmptyString =>
      match byte_unit c with
      | Some u => Some (acc * u)%N
      | None => None
      end
  | String c t =>
      match digit c with
      | Some v => parse_bytes_go (10 * acc + v)%N t
      | None => None
      end
  end.

(** [cli.create_host_config(mem_limit=...)] *)
Definition create_host_config (mem_limit : string) : host_config :=
  mkHostConfig (parse_bytes_go 0 mem_limit).

End Docker.

(* ================================================================= *)
(** ** The world, the trace and the monad of the program *)

Record world : Type :=
  mkWorld { w_fs : Fs.t; w_docker : Docker.daemon }.

(** What the program does to its surroundings, in order: lines printed,
    files read, written and deleted, calls to the Docker client. *)
Inductive event : Type :=
| EPrint (line : string)
| EMakeGzip (src : string) (name : option string) (res : result string)
| EWalk (top : string) (found : bool)
| EGzipRead (path : string) (res : result string)
| EContainers (res : result unit)
| ERemove (id : nat) (force : bool) (res : result unit)
| ECreate (a : Docker.create_args) (res : result nat)
| EPut (container : nat) (path data : string) (res : result unit)
| EOsRemove (path : string) (res : result unit).

Definition M (A : Type) : Type := world -> result A * world * list event.

Definition ret {A : Type} (a : A) : M A := fun w => (Ok a, w, []).

Definition raise {A : Type} (e : Exn) : M A := fun w => (Raise e, w, []).

Definition bind {A B : Type} (m : M A) (f : A -> M B) : M B :=
  fun w =>
    match m w with
    | (Ok a, w1, t1) =>
        match f a w1 with
        | (r, w2, t2) => (r, w2, t1 ++ t2)
        end
    | (Raise e, w1, t1) => (Raise e, w1, t1)
    end.

(** [try: m  except Exception as e: ...]: the outcome of [m] as a value. *)
Definition attempt {A : Type} (m : M A) : M (result A) :=
  fun w =>
    match m w with
    | (r, w1, t1) => (Ok r, w1, t1)
    end.

Declare Scope prog_scope.
Delimit Scope prog_scope with prog.
Notation "x <- m ;; k" := (bind m (fun x => k))
  (at level 100, m at next level, right associativity) : prog_scope.
Notation "m ;;; k" := (bind m (fun _ => k))
  (at level 100, right associativity) : prog_scope.
Open Scope prog_scope.

Definition trace_of {A : Type} (x : result A * world * list event) : list event :=
  snd x.
Definition world_of {A : Type} (x : result A * world * list event) : world :=
  snd (fst x).
Definition result_of {A : Type} (x : result A * world * list event) : result A :=
  fst (fst x).

(** *** Primitive actions *)

Definition print (line : string) : M unit :=
  fun w => (Ok tt, w, [EPrint line]).

Definition os_path_isdir (p : string) : M bool :=
  fun w => (Ok (Fs.isdir (w_fs w) p), w, []).

Definition os_path_isfile (p : string) : M bool :=
  fun w => (Ok (Fs.isfile (w_fs w) p), w, []).

(** [next(os.walk(top))] *)
Definition next_os_walk (top : string) : M (string * list string * list string) :=
  fun w =>
    match Fs.walk_first (w_fs w) top with
    | Some x => (Ok x, w, [EWalk top true])
    | None => (Raise (Exception "StopIteration" EmptyString), w, [EWalk top false])
    end.

Definition gzip_open_read (p : string) : M string :=
  fun w =>
    let r := Fs.gzip_read (w_fs w) p in
    (r, w, [EGzipRead p r]).

Definition os_remove (p : string) : M unit :=
  fun w =>
    match Fs.remove (w_fs w) p with
    | Ok fs' => (Ok tt, mkWorld fs' (w_docker w), [EOsRemove p (Ok tt)])
    | Raise e => (Raise e, w, [EOsRemove p (Raise e)])
    end.

(** Whether a call has failed, and how. *)
Definition void {A : Type} (r : result A) : result unit :=
  match r with
  | Ok _ => Ok tt
  | Raise e => Raise e
  end.

Definition cli_containers : M (list Docker.container) :=
  fun w =>
    match Docker.list_containers (w_docker w) with
    | (r, d) => (r, mkWorld (w_fs w) d, [EContainers (void r)])
    end.

Definition cli_remove_container (id : nat) (force : bool) : M unit :=
  fun w =>
    match Docker.remove_container id force (w_docker w) with
    | (r, d) => (r, mkWorld (w_fs w) d, [ERemove id force r])
    end.

Definition cli_create_container (a : Docker.create_args) : M nat :=
  fun w =>
    match Docker.create_container a (w_docker w) with
    | (r, d) => (r, mkWorld (w_fs w) d, [ECreate a r])
    end.

Definition cli_put_archive (id : nat) (path data : string) : M unit :=
  fun w =>
    match Docker.put_archive id path data (w_docker w) with
    | (r, d) => (r, mkWorld (w_fs w) d, [EPut id path data r])
    end.

(* ================================================================= *)
(** ** The program *)

(** The namespace [argparse] hands to [grade]. *)
Record args : Type :=
  mkArgs { folder : string; image : string; extra : option string }.

(** The two messages of the lookup (run.py, lines 70-72 and 79-80). *)
Definition mismatch_msg (name : string) : string :=
  "  Container already exists for " +++ Py.str1 Py.dquote +++ name
  +++ Py.str1 Py.dquote
  +++ " and it doesn't appear to match the provided image. Skipping assignment".

Definition remove_failed_msg (e : Exn) : string :=
  "  Failed to remove. " +++ str_of_exn e +++ "." +++ Py.str1 Py.LF
  +++ "  Skipping assignment.".

(** [container_name[1:] == name] (run.py, line 67) *)
Definition name_matches (container_name name : string) : bool :=
  String.eqb (Py.slice_from1 container_name) name.

(** How a loop of [create_container] is left: by running off its end or
    by [break], after which the function goes on; or by [return]. *)
Inductive flow : Type :=
| GoOn
| Returned.

(** The inner loop (run.py, lines 66-82) over the names of one container. *)
Fixpoint scan_names (c : Docker.container) (name image : string)
         (names : list string) : M flow :=
  match names with
  | [] => ret GoOn
  | container_name :: rest =>
      if name_matches container_name name then
        if negb (String.eqb (Docker.Image c) image) then
          print (mismatch_msg name) ;;;
          ret Returned
        else
          print "  Removing old container" ;;;
          r <- attempt (cli_remove_container (Docker.Id c) true) ;;
          match r with
          | Raise e =>
              print (remove_failed_msg e) ;;;
              ret Returned
          | Ok _ => ret GoOn
          end
      else scan_names c name image rest
  end.

(** The outer loop (run.py, line 65) over the containers listed. *)
Fixpoint scan_containers (name image : string)
         (cs : list Docker.container) : M flow :=
  match cs with
  | [] => ret GoOn
  | c :: rest =>
      f <- scan_names c name image (Docker.Names c) ;;
      match f with
      | Returned => ret Returned
      | GoOn => scan_containers name image rest
      end
  end.

(** The arguments of the one [cli.create_container] call of the program
    (run.py, lines 84-88). *)
Definition new_container_args (image name : string) : Docker.create_args :=
  let hostconf := Docker.create_host_config "64m" in
  Docker.mkCreateArgs image hostconf true name true true "/bin/bash".

(** [create_container(cli, folder, file, image, extra)]; the client is
    part of the world. *)
Definition create_container (folder file image : string)
           (extra : option string) : M unit :=
  let user := Py.basename file in
  let user := Re.sub_empty Re.re_user user in
  print (user +++ ":") ;;;
  let name := Py.basename folder +++ "_" +++ user in
  containers <- cli_containers ;;
  f <- scan_containers name image containers ;;
  match f with
  | Returned => ret tt
  | GoOn =>
      id <- cli_create_container (new_container_args image name) ;;
      print "  Extracting assignment" ;;;
      g <- gzip_open_read file ;;
      cli_put_archive id "/home/" g ;;;
      match extra with
      | Some x =>
          print "  Extracting extra file" ;;;
          g <- gzip_open_read x ;;
          cli_put_archive id "/home/" g
      | None => ret tt
      end ;;;
      print "  Container created"
  end.

(** The last loop of [grade] (run.py, lines 47-48). *)
Fixpoint remove_all (cleanup : list string) : M unit :=
  match cleanup with
  | [] => ret tt
  | f :: rest => os_remove f ;;; remove_all rest
  end.

Section Grade.

(** [utils.make_gzip(path, name=None)]: the module [utils] is not part
    of the sources at hand.  The function packs [path] into a gzip
    archive and returns the path of the archive; all that is fixed here
    is that it works on the file system and may raise. *)
Variable make_gzip : string -> option string -> Fs.t -> result string * Fs.t.

(** [mimetypes.guess_type(p)[1] == 'gzip']: decided by the standard
    library's suffix tables from the name alone. *)
Variable gzip_encoded : string -> bool.

Definition call_make_gzip (path : string) (name : option string) : M string :=
  fun w =>
    match make_gzip path name (w_fs w) with
    | (r, fs') => (r, mkWorld fs' (w_docker w), [EMakeGzip path name r])
    end.

(** The scan (run.py, lines 30-32). *)
Definition scan (top : string) : M (string * list string * list string) :=
  x <- next_os_walk top ;;
  match x with
  | (dirpath, dirnames, filenames) =>
      ret (dirpath, map (Py.join dirpath) dirnames,
           map (Py.join dirpath) filenames)
  end.

(** The loop over the directories (run.py, lines 35-39); the list
    [cleanup] is threaded through. *)
Fixpoint grade_folders (dirpath image : string) (extra : option string)
         (dirnames : list string) (cleanup : list string) : M (list string) :=
  match dirnames with
  | [] => ret cleanup
  | folder :: rest =>
      let name := Re.sub_empty Re.re_submit (Py.basename folder) in
      x <- call_make_gzip folder (Some name) ;;
      let cleanup := cleanup ++ [x] in
      create_container dirpath x image extra ;;;
      grade_folders dirpath image extra rest cleanup
  end.

(** The loop over the files (run.py, lines 42-44). *)
Fixpoint grade_files (dirpath image : string) (extra : option string)
         (filenames : list string) : M unit :=
  match filenames with
  | [] => ret tt
  | filename :: rest =>
      create_container dirpath filename image extra ;;;
      grade_files dirpath image extra rest
  end.

(** [grade] from line 29 on, with the value of [args.extra] and of
    [cleanup] that the checks above have left. *)
Definition grade_batch (a : args) (extra : option string)
           (cleanup : list string) : M unit :=
  x <- scan (folder a) ;;
  match x with
  | (dirpath, dirnames, filenames) =>
      cleanup <- grade_folders dirpath (image a) extra dirnames cleanup ;;
      grade_files dirpath (image a) extra filenames ;;;
      print "Cleaning up temporary files" ;;;
      remove_all cleanup
  end.

(** [grade(args, cli)] *)
Definition grade (a : args) : M unit :=
  isd <- os_path_isdir (folder a) ;;
  if negb isd then
    print "Must provide a valid folder of assignments"
  else
    match extra a with
    | Some e =>
        isf <- os_path_isfile e ;;
        if negb isf then
          print "Extra argument must be a valid file."
        else
          d <- os_path_isdir e ;;
          if (d || negb (gzip_encoded e))%bool then
            print "Creating temporary gzip file for extra" ;;;
            x <- call_make_gzip e None ;;
            grade_batch a (Some x) [x]
          else grade_batch a (Some e) []
    | None => grade_batch a None []
    end.

End Grade.


(* ================================================================= *)
(** ** Observations on runs *)

(** Running the same action [n] times in a row. *)
Fixpoint rerun (n : nat) (m : M unit) : M unit :=
  match n with
  | O => ret tt
  | S k => m ;;; rerun k m
  end.

(** The archives [make_gzip] has returned, in order. *)
Fixpoint gzip_outputs (t : list event) : list string :=
  match t with
  | [] => []
  | EMakeGzip _ _ (Ok p) :: rest => p :: gzip_outputs rest
  | _ :: rest => gzip_outputs rest
  end.

(** The exception with which a call has failed, for the calls whose
    failure nothing in the program catches: packing, scanning, listing
    the containers, reading an archive, creating a container, copying
    into it, deleting a file.  The removal of a container is the one
    call inside [try]. *)
Definition uncaught (ev : event) : option Exn :=
  match ev with
  | EMakeGzip _ _ (Raise e) => Some e
  | EContainers (Raise e) => Some e
  | EWalk _ false => Some (Exception "StopIteration" EmptyString)
  | EGzipRead _ (Raise e) => Some e
  | ECreate _ (Raise e) => Some e
  | EPut _ _ _ (Raise e) => Some e
  | EOsRemove _ (Raise e) => Some e
  | _ => None
  end.

Definition is_os_remove (ev : event) : bool :=
  match ev with
  | EOsRemove _ _ => true
  | _ => false
  end.

Definition is_wrap_of_extra (ev : event) : bool :=
  match ev with
  | EMakeGzip _ None _ => true
  | _ => false
  end.

(** The line with which [create_container] gives a submission up. *)
Definition skip_line (name line : string) : Prop :=
  line = mismatch_msg name \/ exists e, line = remove_failed_msg e.

(** A trace that ends with such a line. *)
Definition ends_skipped (name : string) (t : list event) : Prop :=
  exists t0 line, t = t0 ++ [EPrint line] /\ skip_line name line.

(** Some name of the container, as the daemon reports it, matches. *)
Definition has_name (name : string) (c : Docker.container) : bool :=
  existsb (fun n => name_matches n name) (Docker.Names c).

(** What follows the creation of container [id] when nothing fails: the
    submission's archive [file], then the extra archive [x], both
    unpacked into [/home/]. *)
Definition materialized (id : nat) (file x d1 d2 : string) : list event :=
  [ EPrint "  Extracting assignment";
    EGzipRead file (Ok d1);
    EPut id "/home/" d1 (Ok tt);
    EPrint "  Extracting extra file";
    EGzipRead x (Ok d2);
    EPut id "/home/" d2 (Ok tt);
    EPrint "  Container created" ].

Fixpoint has_dot (s : string) : bool :=
  match s with
  | EmptyString => false
  | String c t => (Ascii.eqb c Py.dot || has_dot t)%bool
  end.

(** A name that can be an entry of a directory. *)
Definition entry_name (x : string) : bool :=
  (negb (Py.has_slash x) && negb (Fs.is_cur x) && negb (String.eqb x ".."))%bool.

(** What the inner loop does with one container: nothing when no name
    matches; otherwise the first matching name decides, and every
    matching name leads to the same steps. *)
Definition visit (c : Docker.container) (name image : string) : M flow :=
  if has_name name c then
    if negb (String.eqb (Docker.Image c) image) then
      print (mismatch_msg name) ;;;
      ret Returned
    else
      print "  Removing old container" ;;;
      r <- attempt (cli_remove_container (Docker.Id c) true) ;;
      match r with
      | Raise e =>
          print (remove_failed_msg e) ;;;
          ret Returned
      | Ok _ => ret GoOn
      end
  else ret GoOn.

(** The four calls of [create_container] whose failure it lets through:
    listing the containers, creating the container, reading an archive,
    copying it in. *)
Definition submission_failure (ev : event) (e : Exn) : Prop :=
  match ev with
  | EContainers (Raise e')
  | ECreate _ (Raise e') | EGzipRead _ (Raise e') | EPut _ _ _ (Raise e') => e' = e
  | _ => False
  end.

(** Successful deletions of the paths of a list, in order. *)
Definition removals (l : list string) : list event :=
  map (fun p => EOsRemove p (Ok tt)) l.

(** How the last loop of [grade] ends on the list [cleanup]: every path
    is deleted, and then no path occurs twice; or the deletion of one
    fails and ends the run. *)
Definition cleanup_outcome (cleanup : list string) (r : result unit)
           (t : list event) : Prop :=
  (r = Ok tt /\ t = removals cleanup /\ NoDup cleanup) \/
  (exists l1 p l2 e,
      cleanup = l1 ++ p :: l2 /\ r = Raise e /\
      t = removals l1 ++ [EOsRemove p (Raise e)]).

(** How a run ends that has passed the checks of its arguments with the
    list [cleanup0]: it deletes nothing before the last loop; either it
    is cut short before that loop by an exception, or the loop works on
    [cleanup0] and the archives [make_gzip] has returned since. *)
Definition batch_outcome (cleanup0 : list string) (r : result unit)
           (t : list event) : Prop :=
  exists t1 t2,
    t = t1 ++ t2 /\
    Forall (fun ev => is_os_remove ev = false) t1 /\
    ((t2 = [] /\ exists e, r = Raise e) \/
     (exists t_rm,
         t2 = EPrint "Cleaning up temporary files" :: t_rm /\
         cleanup_outcome (cleanup0 ++ gzip_outputs t1) r t_rm)).

(** Neither packing nor deleting. *)
Definition quiet (ev : event) : Prop :=
  match ev with
  | EMakeGzip _ _ _ | EOsRemove _ _ => False
  | _ => True
  end.

(** In [t], every container that has been created gets the submission's
    archive and then the archive [x], and nothing in between. *)
Definition applied (x : string) (t : list event) : Prop :=
  forall l1 l2 ca id,
    t = l1 ++ ECreate ca (Ok id) :: l2 ->
    exists file d1 d2 l3, l2 = materialized id file x d1 d2 ++ l3.

Definition no_create (ev : event) : Prop :=
  match ev with
  | ECreate _ _ => False
  | _ => True
  end.

(* ================================================================= *)
(** ** Notions used in the statements and proofs *)

(** Every event of every run of [m] satisfies [P]. *)
Definition emits {A : Type} (P : event -> Prop) (m : M A) : Prop :=
  forall w, Forall P (trace_of (m w)).

(** What the lookup may emit: lines, and forced removals. *)
Definition lookup_event (ev : event) : Prop :=
  match ev with
  | EPrint _ => True
  | ERemove _ force _ => force = true
  | _ => False
  end.

(** What one call of [create_container] may emit. *)
Definition submission_event (image name : string) (ev : event) : Prop :=
  match ev with
  | EPrint _ | EContainers _ | EGzipRead _ _ => True
  | ERemove _ force _ => force = true
  | ECreate a _ => a = new_container_args image name
  | EPut _ path _ _ => path = "/home/"
  | EMakeGzip _ _ _ | EWalk _ _ | EOsRemove _ _ => False
  end.

(** [Q] holds of the empty trace and of a trace put together from two
    traces of which it holds. *)
Definition piecewise (Q : list event -> Prop) : Prop :=
  Q [] /\ forall t1 t2, Q t1 -> Q t2 -> Q (t1 ++ t2).

(** [Q] holds of the trace of every run of [m]; with [ok = true], of
    every run that returns normally. *)
Definition always {A : Type} (ok : bool) (Q : list event -> Prop) (m : M A) : Prop :=
  forall w, (ok = true -> exists a, result_of (m w) = Ok a) -> Q (trace_of (m w)).

(** What a run of [grade] may emit. *)
Definition batch_event (a : args) (ev : event) : Prop :=
  match ev with
  | EPrint _ | EContainers _ | EGzipRead _ _ | EOsRemove _ _ => True
  | EWalk top _ => top = folder a
  | ERemove _ force _ => force = true
  | ECreate ca _ =>
      exists file, ca = new_container_args (image a) (container_name (folder a) file)
  | EPut _ path _ _ => path = "/home/"
  | EMakeGzip src None _ => extra a = Some src
  | EMakeGzip src (Some nm) _ => nm = Re.sub_empty Re.re_submit (Py.basename src)
  end.

(** The result of a call that has not failed. *)
Definition fine {A : Type} (ok : bool) (r : result A) : Prop :=
  ok = true -> exists a, r = Ok a.

(** The outcomes of visiting one container. *)
Inductive visited (c : Docker.container) (name image : string) (w : world)
  : result flow * world * list event -> Prop :=
| visited_other :
    has_name name c = false ->
    visited c name image w (Ok GoOn, w, [])
| visited_mismatch :
    has_name name c = true -> Docker.Image c <> image ->
    visited c name image w (Ok Returned, w, [EPrint (mismatch_msg name)])
| visited_removed d' :
    has_name name c = true -> Docker.Image c = image ->
    Docker.remove_container (Docker.Id c) true (w_docker w) = (Ok tt, d') ->
    visited c name image w
            (Ok GoOn, mkWorld (w_fs w) d',
             [EPrint "  Removing old container";
              ERemove (Docker.Id c) true (Ok tt)])
| visited_stuck d' e :
    has_name name c = true -> Docker.Image c = image ->
    Docker.remove_container (Docker.Id c) true (w_docker w) = (Raise e, d') ->
    visited c name image w
            (Ok Returned, mkWorld (w_fs w) d',
             [EPrint "  Removing old container";
              ERemove (Docker.Id c) true (Raise e);
              EPrint (remove_failed_msg e)]).

Definition conts (w : world) : list Docker.container :=
  Docker.containers (w_docker w).

(** The world after the daemon has been asked for its containers: the
    daemon has served one more call. *)
Definition listed (w : world) : world :=
  mkWorld (w_fs w) (Docker.tick (w_docker w) (conts w)).

(** The daemon answers when it is asked for its containers in [w]. *)
Definition lists (w : world) : Prop :=
  Docker.fault (w_docker w) (Docker.clock (w_docker w)) Docker.CallList = None.

(** The daemon answers whenever it is asked for its containers. *)
Definition always_lists (w : world) : Prop :=
  forall time, Docker.fault (w_docker w) time Docker.CallList = None.

(** What the lookup emits: lines, and forced removals of containers it
    was given that carry the name under the image asked for. *)
Definition lookup_removal (name image : string) (cs : list Docker.container)
           (ev : event) : Prop :=
  match ev with
  | EPrint _ => True
  | ERemove id force _ =>
      force = true /\
      exists c, In c cs /\ Docker.Id c = id /\ has_name name c = true /\
                Docker.Image c = image
  | _ => False
  end.

(** The events of a submission that is given up. *)
Definition spares (c : Docker.container) (ev : event) : Prop :=
  match ev with
  | ECreate _ _ | EPut _ _ _ _ => False
  | ERemove id _ _ => id <> Docker.Id c
  | _ => True
  end.

(** A run of [m] that raises has just made a call that failed in the way
    [U] allows. *)
Definition aborts_by {A : Type} (U : event -> Exn -> Prop) (m : M A) : Prop :=
  forall w e, result_of (m w) = Raise e ->
              exists t0 ev, trace_of (m w) = t0 ++ [ev] /\ U ev e.

(** How a run ends in which no failure is caught: it returns, and no
    call has failed uncaught; or it raises the exception of the call it
    has made last, and no call has failed before that one. *)
Definition ends_at_failure {A : Type} (r : result A) (t : list event) : Prop :=
  match r with
  | Ok _ => Forall (fun ev => uncaught ev = None) t
  | Raise e =>
      exists t0 ev,
        t = t0 ++ [ev] /\
        Forall (fun ev0 => uncaught ev0 = None) t0 /\
        uncaught ev = Some e
  end.

Definition fails_fast {A : Type} (m : M A) : Prop :=
  forall w, ends_at_failure (result_of (m w)) (trace_of (m w)).

(** What [create_container] does once the lookup has let it go on
    (run.py, lines 84-99). *)
Definition creation (file image name : string) (extra : option string) : M unit :=
  id <- cli_create_container (new_container_args image name) ;;
  print "  Extracting assignment" ;;;
  g <- gzip_open_read file ;;
  cli_put_archive id "/home/" g ;;;
  match extra with
  | Some x =>
      print "  Extracting extra file" ;;;
      g <- gzip_open_read x ;;
      cli_put_archive id "/home/" g
  | None => ret tt
  end ;;;
  print "  Container created".

(** Every run of [m] that returns normally has printed [line] last. *)
Definition ok_ends {A : Type} (line : string) (m : M A) : Prop :=
  forall w, (exists a, result_of (m w) = Ok a) ->
            exists t0, trace_of (m w) = t0 ++ [EPrint line].

Definition never_raises {A : Type} (m : M A) : Prop :=
  forall w, exists a, result_of (m w) = Ok a.

Definition uncaught_with (ev : event) (e : Exn) : Prop := uncaught ev = Some e.

(** What can be reached after a deletion could be reached before it: a
    file is the same file, a directory has lost entries at most. *)
Definition reaches_less (n' n : Fs.node) (s : list string) : Prop :=
  match Fs.lookup_path n' s with
  | Some (Fs.File c) => Fs.lookup_path n s = Some (Fs.File c)
  | Some (Fs.Dir es') =>
      exists es, Fs.lookup_path n s = Some (Fs.Dir es) /\
                 forall x, Fs.assoc x es' <> None -> Fs.assoc x es <> None
  | None => True
  end.

Definition removable (fs : Fs.t) (p : string) : Prop :=
  exists fs', Fs.remove fs p = Ok fs'.

(** The container [c] is known to the daemon, and under its id no
    other. *)
Definition guarded (c : Docker.container) (w : world) : Prop :=
  In c (conts w) /\
  forall c2, In c2 (conts w) -> Docker.Id c2 = Docker.Id c -> c2 = c.

(** Calls that neither remove the container [c] nor copy into it. *)
Definition leaves (c : Docker.container) (ev : event) : Prop :=
  match ev with
  | ERemove id _ _ | EPut id _ _ _ => id <> Docker.Id c
  | _ => True
  end.

(** Every run of [m] from a world in which [I] holds ends in such a
    world and emits only events that satisfy [P]. *)
Definition keeps {A : Type} (I : world -> Prop) (P : event -> Prop) (m : M A) : Prop :=
  forall w, I w -> I (world_of (m w)) /\ Forall P (trace_of (m w)).


(* ================================================================= *)
(** ** A reference platform and sample batches *)

Module Sample.

(** A stand-in for [utils.make_gzip]: the archive of [path] is written
    to [/tmp/<name>.tar.gz], where [name] defaults to the base name of
    [path]. *)
Definition make_gzip (path : string) (name : option string) (fs : Fs.t)
  : result string * Fs.t :=
  let nm := match name with
            | Some n => n
            | None => Py.basename path
            end +++ ".tar.gz" in
  match Fs.stat fs path, Fs.root fs with
  | Some _, Fs.Dir es =>
      match Fs.assoc "tmp" es with
      | Some (Fs.Dir ts) =>
          let ts' := ts ++ [(nm, Fs.File (Fs.Gzip ("tar of " +++ path)))] in
          (Ok ("/tmp/" +++ nm),
           Fs.mk (Fs.Dir (Fs.set_assoc "tmp" (Fs.Dir ts') es)) (Fs.cwd fs))
      | _ => (Raise (Exception "OSError" "No temporary directory"), fs)
      end
  | _, _ => (Raise (Exception "FileNotFoundError" path), fs)
  end.

Fixpoint ends_with_gz (s : string) : bool :=
  match s with
  | EmptyString => false
  | String c t => (String.eqb s ".gz" || ends_with_gz t)%bool
  end.

(** A stand-in for the suffix tables of [mimetypes]. *)
Definition gzip_encoded (p : string) : bool := ends_with_gz p.

(** [grade] on this platform. *)
Abbreviation run := (grade make_gzip gzip_encoded).

(** The batch folder [HW8] of two submissions, a plain extra file, an
    extra directory and an extra archive. *)
Definition tree : Fs.node :=
  Fs.Dir
    [ ("tmp", Fs.Dir []);
      ("HW8", Fs.Dir
         [ ("alice_submit", Fs.Dir [("main.c", Fs.File (Fs.Plain "int main;"))]);
           ("bob.tar.gz", Fs.File (Fs.Gzip "tar of bob")) ]);
      ("notes.txt", Fs.File (Fs.Plain "read me"));
      ("shared", Fs.Dir [("lib.h", Fs.File (Fs.Plain "#pragma once"))]);
      ("shared.tar.gz", Fs.File (Fs.Gzip "tar of shared")) ].

Definition disk : Fs.t := Fs.mk tree [].

Definition no_fault : nat -> Docker.call -> option Exn := fun _ _ => None.

Definition empty_host : world :=
  mkWorld disk (Docker.mkDaemon [] 0 no_fault).

(** A second batch, [HW9]: a directory and two files, the first of
    which is not a gzip archive. *)
Definition tree9 : Fs.node :=
  Fs.Dir
    [ ("tmp", Fs.Dir []);
      ("HW9", Fs.Dir
         [ ("alice_submit", Fs.Dir [("main.c", Fs.File (Fs.Plain "int main;"))]);
           ("carol.zip", Fs.File (Fs.Plain "PK"));
           ("dave.tar.gz", Fs.File (Fs.Gzip "tar of dave")) ]);
      ("notes.txt", Fs.File (Fs.Plain "read me")) ].

Definition host9 : world :=
  mkWorld (Fs.mk tree9 []) (Docker.mkDaemon [] 0 no_fault).

(** A host on which the name of the first submission is taken by a
    container of another image. *)
Definition foreign : Docker.container :=
  Docker.mkContainer 7 ["/HW8_alice"] "other-image".

Definition occupied_host : world :=
  mkWorld disk (Docker.mkDaemon [foreign] 0 no_fault).

(** A host with a container of an earlier run that cannot be removed. *)
Definition stale : Docker.container :=
  Docker.mkContainer 3 ["/HW8_bob"] "course-hw8".

Definition remove_fails : nat -> Docker.call -> option Exn :=
  fun _ c =>
    match c with
    | Docker.CallRemove _ _ => Some (Exception "APIError" "container is busy")
    | _ => None
    end.

Definition stuck_host : world :=
  mkWorld disk (Docker.mkDaemon [stale] 0 remove_fails).

End Sample.

(* ================================================================= *)
(** ** Further observations on runs *)

(** The number of times the daemon has been asked for its containers. *)
Fixpoint listings (t : list event) : nat :=
  match t with
  | [] => 0
  | EContainers _ :: rest => S (listings rest)
  | _ :: rest => listings rest
  end.

(** The paths handed to [make_gzip] together with a name, in order. *)
Fixpoint packed (t : list event) : list string :=
  match t with
  | [] => []
  | EMakeGzip src (Some _) _ :: rest => src :: packed rest
  | _ :: rest => packed rest
  end.

(** No call to the daemon fails for a reason of its own. *)
Definition fault_free (w : world) : Prop :=
  forall time call, Docker.fault (w_docker w) time call = None.

(** The container the daemon makes for [name] from [image]. *)
Definition made (id : nat) (image name : string) : Docker.container :=
  Docker.mkContainer id [Py.str1 Py.slash +++ name] image.

(** Every creation in [t] is for the container name of the archive that
    [make_gzip] has returned last before it. *)
Definition named_after_archive (dirpath image : string) (t : list event) : Prop :=
  forall l1 l2 ca r,
    t = l1 ++ ECreate ca r :: l2 ->
    exists outs p,
      gzip_outputs l1 = outs ++ [p] /\
      ca = new_container_args image (container_name dirpath p).

(** The extra archive, if there is one, can be read. *)
Definition extra_readable (fs : Fs.t) (extra : option string) : Prop :=
  match extra with
  | Some x => exists d, Fs.gzip_read fs x = Ok d
  | None => True
  end.

(** A host on which the container of [bob] is left by an earlier run and
    nothing fails. *)
Definition rerun_host : world :=
  mkWorld Sample.disk (Docker.mkDaemon [Sample.stale] 0 Sample.no_fault).

Definition not_listing (ev : event) : Prop :=
  match ev with
  | EContainers _ => False
  | _ => True
  end.

(** A host whose daemon cannot be reached when it is asked for its
    containers. *)
Definition unreachable : nat -> Docker.call -> option Exn :=
  fun _ c =>
    match c with
    | Docker.CallList => Some (Exception "ConnectionError" "Connection aborted.")
    | _ => None
    end.

Definition offline_host : world :=
  mkWorld Sample.disk (Docker.mkDaemon [] 0 unreachable).

(* ================================================================= *)
(** * The assignment models ([grader/models]) *)

(** ** More of [os] *)

Module Os.

Inductive errno : Type :=
| ENOENT
| ENOTDIR
| EEXIST
| EISDIR.

(** The subclass of [OSError] that Python raises for an error number,
    with the text of [strerror]. *)
Definition OSError (e : errno) : Exn :=
  match e with
  | ENOENT => Exception "FileNotFoundError" "No such file or directory"
  | ENOTDIR => Exception "NotADirectoryError" "Not a directory"
  | EEXIST => Exception "FileExistsError" "File exists"
  | EISDIR => Exception "IsADirectoryError" "Is a directory"
  end.

(** [os.path.exists] *)
Definition path_exists (fs : Fs.t) (p : string) : bool :=
  match Fs.stat fs p with
  | Some _ => true
  | None => false
  end.

(** Where the resolution of [p] starts. *)
Definition start (fs : Fs.t) (p : string) : list string :=
  if Fs.is_abs p then [] else rev (Fs.cwd fs).

(** Path resolution as in [Fs.walk_comps], telling why it fails: a
    component is looked up in something that is not a directory, or it
    is not there. *)
Fixpoint resolve (rt : Fs.node) (stack comps : list string)
  : errno + list string :=
  match comps with
  | [] => inr (rev stack)
  | c :: rest =>
      match Fs.lookup_path rt (rev stack) with
      | Some (Fs.Dir es) =>
          if Fs.is_cur c then resolve rt stack rest
          else if String.eqb c ".." then resolve rt (tl stack) rest
          else match Fs.assoc c es with
               | Some _ => resolve rt (c :: stack) rest
               | None => inl ENOENT
               end
      | Some (Fs.File _) => inl ENOTDIR
      | None => inl ENOENT
      end
  end.

(** The components of a path from its last one backwards, without the
    empty ones that slashes at its end give. *)
Fixpoint drop_empty (rcomps : list string) : list string :=
  match rcomps with
  | [] => []
  | c :: rest =>
      if String.eqb c EmptyString then drop_empty rest else rcomps
  end.

(** Put [m] in the place of the node at [q] below [n]. *)
Fixpoint put_node (n : Fs.node) (q : list string) (m : Fs.node)
  : option Fs.node :=
  match q with
  | [] => Some m
  | y :: q' =>
      match n with
      | Fs.Dir es =>
          match Fs.assoc y es with
          | Some c =>
              match put_node c q' m with
              | Some c' => Some (Fs.Dir (Fs.set_assoc y c' es))
              | None => None
              end
          | None => None
          end
      | Fs.File _ => None
      end
  end.

(** [os.mkdir(p)]: the directory that is to hold the new one is
    resolved; the last component must be a name that is not taken
    there.  The new directory is empty and comes last in the listing. *)
Definition mkdir (fs : Fs.t) (p : string) : result Fs.t :=
  if String.eqb p EmptyString then Raise (OSError ENOENT)
  else
    match drop_empty (rev (Py.split_slash p)) with
    | [] => Raise (OSError EEXIST)
    | last :: rparent =>
        match resolve (Fs.root fs) (start fs p) (rev rparent) with
        | inl e => Raise (OSError e)
        | inr q =>
            match Fs.lookup_path (Fs.root fs) q with
            | Some (Fs.Dir es) =>
                if (Fs.is_cur last || String.eqb last "..")%bool
                then Raise (OSError EEXIST)
                else
                  match Fs.assoc last es with
                  | Some _ => Raise (OSError EEXIST)
                  | None =>
                      match put_node (Fs.root fs) q
                                     (Fs.Dir (es ++ [(last, Fs.Dir [])])) with
                      | Some r => Ok (Fs.mk r (Fs.cwd fs))
                      | None => Raise (OSError ENOENT)
                      end
                  end
            | Some (Fs.File _) => Raise (OSError ENOTDIR)
            | None => Raise (OSError ENOENT)
            end
        end
    end.

(** [with open(p, 'w') as f: f.write(s)]: the file is made, or emptied
    if it is there, and then holds [s]. *)
Definition write_text (fs : Fs.t) (p s : string) : result Fs.t :=
  if String.eqb p EmptyString then Raise (OSError ENOENT)
  else
    match drop_empty (rev (Py.split_slash p)) with
    | [] => Raise (OSError EISDIR)
    | last :: rparent =>
        match resolve (Fs.root fs) (start fs p) (rev rparent) with
        | inl e => Raise (OSError e)
        | inr q =>
            match Fs.lookup_path (Fs.root fs) q with
            | Some (Fs.Dir es) =>
                if (Py.ends_with_slash p || Fs.is_cur last
                    || String.eqb last "..")%bool
                then Raise (OSError EISDIR)
                else
                  let new := Fs.File (Fs.Plain s) in
                  match Fs.assoc last es with
                  | Some (Fs.Dir _) => Raise (OSError EISDIR)
                  | Some (Fs.File _) =>
                      match put_node (Fs.root fs) q
                                     (Fs.Dir (Fs.set_assoc last new es)) with
                      | Some r => Ok (Fs.mk r (Fs.cwd fs))
                      | None => Raise (OSError ENOENT)
                      end
                  | None =>
                      match put_node (Fs.root fs) q
                                     (Fs.Dir (es ++ [(last, new)])) with
                      | Some r => Ok (Fs.mk r (Fs.cwd fs))
                      | None => Raise (OSError ENOENT)
                      end
                  end
            | Some (Fs.File _) => Raise (OSError ENOTDIR)
            | None => Raise (OSError ENOENT)
            end
        end
    end.

End Os.

(** ** Computations on the file system *)

(** The models neither print nor talk to the daemon: what they do is
    on the file system, and they may raise. *)
Definition F (A : Type) : Type := Fs.t -> result A * Fs.t.

Definition pure {A : Type} (a : A) : F A := fun fs => (Ok a, fs).

Definition throw {A : Type} (e : Exn) : F A := fun fs => (Raise e, fs).

Definition andthen {A B : Type} (m : F A) (f : A -> F B) : F B :=
  fun fs =>
    match m fs with
    | (Ok a, fs1) => f a fs1
    | (Raise e, fs1) => (Raise e, fs1)
    end.

(** [try: m / except cls: handler] *)
Definition except {A : Type} (m : F A) (cls : string) (handler : F A) : F A :=
  fun fs =>
    match m fs with
    | (Ok a, fs1) => (Ok a, fs1)
    | (Raise (Exception c msg), fs1) =>
        if String.eqb c cls then handler fs1
        else (Raise (Exception c msg), fs1)
    end.

Declare Scope fs_scope.
Delimit Scope fs_scope with fs.
Notation "x <- m ;; k" := (andthen m (fun x => k))
  (at level 100, m at next level, right associativity) : fs_scope.
Notation "m ;;; k" := (andthen m (fun _ => k))
  (at level 100, right associativity) : fs_scope.

Definition os_path_exists (p : string) : F bool :=
  fun fs => (Ok (Os.path_exists fs p), fs).

Definition os_mkdir (p : string) : F unit :=
  fun fs =>
    match Os.mkdir fs p with
    | Ok fs1 => (Ok tt, fs1)
    | Raise e => (Raise e, fs)
    end.

Definition open_w_write (p s : string) : F unit :=
  fun fs =>
    match Os.write_text fs p s with
    | Ok fs1 => (Ok tt, fs1)
    | Raise e => (Raise e, fs)
    end.

(** ** What the models use of other modules *)

(** The calls into GitPython.  A repository object stands for the
    repository on the disk it was opened on. *)
Class GitPython : Type :=
  { Repo : Type;
    (** [git.Repo.clone_from(url, to_path)] *)
    Repo_clone_from : string -> string -> F Repo;
    (** [git.Repo.init(path)] *)
    Repo_init : string -> F Repo;
    (** [git.Repo(path)] *)
    Repo_open : string -> F Repo;
    (** [repo.index.add(items)] *)
    index_add : Repo -> list string -> F unit;
    (** [repo.index.commit(message)] *)
    index_commit : Repo -> string -> F unit }.

(** The class [AssignmentConfig] of the module [config], which is not
    part of the sources at hand: making the default configuration of a
    new gradesheet, loading the configuration of a gradesheet, and the
    attribute [file_path]. *)
Class ConfigModule : Type :=
  { AssignmentConfig : Type;
    (** [AssignmentConfig.new(path, assignment_name)] *)
    AssignmentConfig_new : string -> string -> F AssignmentConfig;
    (** [AssignmentConfig(path)] *)
    AssignmentConfig_load : string -> F AssignmentConfig;
    file_path : AssignmentConfig -> string }.

(** What the models read of a [Grader]: the directory of its
    assignments and its configuration, a dictionary; the values are
    given as [format] prints them. *)
Record Grader : Type :=
  mkGrader { assignment_dir : string; config : list (string * string) }.

(** [d[key]] *)
Fixpoint getitem (d : list (string * string)) (key : string) : result string :=
  match d with
  | [] => Raise (Exception "KeyError" ("'" +++ key +++ "'"))
  | (k, v) :: rest => if String.eqb k key then Ok v else getitem rest key
  end.

(** The truth value of an optional string: [None] and the empty string
    are false. *)
Definition truthy (s : option string) : bool :=
  match s with
  | Some x => negb (String.eqb x EmptyString)
  | None => false
  end.

(** ** [gradesheet.py] *)

Module GradeSheet.

Definition GradeSheetException (msg : string) : Exn :=
  Exception "GradeSheetException" msg.

Definition SUB_DIR : string := "gradesheet".

Section WithModules.

Context {git : GitPython} {cfg : ConfigModule}.

(** [GradeSheet.from_repo(gradesheet_path, repo_url)] (lines 40-60);
    logging leaves no mark here. *)
Definition from_repo (gradesheet_path repo_url : string) : F unit :=
  (except (Repo_clone_from repo_url gradesheet_path ;;; pure tt)
          "GitCommandError"
          (throw (GradeSheetException ("Could not clone " +++ repo_url))))%fs.

(** [GradeSheet.new(gradesheet_path, assignment_name)] (lines 62-87) *)
Definition new (gradesheet_path assignment_name : string) : F unit :=
  (let path := gradesheet_path in
   repo <- Repo_init path ;;
   config <- AssignmentConfig_new path assignment_name ;;
   let dockerfile_path := Py.join path "Dockerfile" in
   open_w_write dockerfile_path ("# Dockerfile for " +++ assignment_name) ;;;
   index_add repo [file_path config; dockerfile_path] ;;;
   index_commit repo "Add default assignment.yml and Dockerfile" ;;;
   pure tt)%fs.

(** A gradesheet object; its attribute [assignment], which points back
    to the assignment that holds the gradesheet, is left out. *)
Record t : Type :=
  mk { path : string; config : AssignmentConfig; repository : Repo }.

Definition dockerfile_path (path : string) : string :=
  Py.join path "Dockerfile".

(** [GradeSheet(assignment)] (lines 94-113); of the assignment it reads
    [gradesheet_path] and nothing else, which is what it is given
    here. *)
Definition __init__ (assignment_gradesheet_path : string) : F t :=
  (let path := assignment_gradesheet_path in
   config <- AssignmentConfig_load path ;;
   repository <- Repo_open path ;;
   e <- os_path_exists (dockerfile_path path) ;;
   if negb e then
     throw (GradeSheetException "GradeSheet repo has no Dockerfile!")
   else pure (mk path config repository))%fs.

End WithModules.

End GradeSheet.

(** ** [assignment.py] *)

Module Assignment.

Definition AssignmentException (msg : string) : Exn :=
  Exception "AssignmentException" msg.

Definition SUB_DIR : string := "assignments".

(** The class [[A-Za-z0-9_.-]]. *)
Definition name_char (c : ascii) : bool :=
  let n := nat_of_ascii c in
  (Nat.leb 65 n && Nat.leb n 90 || Nat.leb 97 n && Nat.leb n 122
   || Nat.leb 48 n && Nat.leb n 57
   || Ascii.eqb c "_" || Ascii.eqb c "." || Ascii.eqb c "-")%bool.

Definition NAME_RE_pattern : string := "^[A-Za-z0-9_.-]+$".

(** [re.compile(r"^[A-Za-z0-9_.-]+$")]: the anchor [^] holds where
    [match] starts, at the first character. *)
Definition NAME_RE : Re.regex := Re.Seq (Re.Plus name_char) Re.Eol.

(** The truth value of [NAME_RE.match(s)]. *)
Definition NAME_RE_match (s : string) : bool :=
  match Re.rmatch NAME_RE s Some with
  | Some _ => true
  | None => false
  end.

Section WithModules.

Context {git : GitPython} {cfg : ConfigModule}.

(** An assignment object; [gradesheet] is set by the last line of
    [__init__]. *)
Record t : Type :=
  mk { path : string;
       name : string;
       grader : Grader;
       gradesheet : option GradeSheet.t }.

(** The property [image_tag] (lines 110-115) *)
Definition image_tag (self : t) : result string :=
  match getitem (config (grader self)) "course-id" with
  | Raise e => Raise e
  | Ok course_id =>
      match getitem (config (grader self)) "course-name" with
      | Raise e => Raise e
      | Ok course_name =>
          Ok (course_id +++ "-" +++ course_name +++ "-" +++ name self)
      end
  end.

Definition submissions_path (self : t) : string :=
  Py.join (path self) "submissions".

Definition results_path (self : t) : string :=
  Py.join (path self) "results".

Definition gradesheet_path (self : t) : string :=
  Py.join (path self) GradeSheet.SUB_DIR.

(** [Assignment(grader, assignment_name)] (lines 132-166) *)
Definition __init__ (grader : Grader) (assignment_name : string) : F t :=
  (let self := mk (Py.join (assignment_dir grader) assignment_name)
                  assignment_name grader None in
   e <- os_path_exists (path self) ;;
   if negb e then throw (AssignmentException "Assignment path doesn't exist")
   else
   e <- os_path_exists (submissions_path self) ;;
   if negb e then throw (AssignmentException "Submission path doesn't exist")
   else
   e <- os_path_exists (results_path self) ;;
   if negb e then throw (AssignmentException "Results path doesn't exist")
   else
   e <- os_path_exists (gradesheet_path self) ;;
   if negb e then throw (AssignmentException "GradeSheet path doesn't exist")
   else
   g <- GradeSheet.__init__ (gradesheet_path self) ;;
   pure (mk (path self) (name self) grader (Some g)))%fs.

(** [Assignment.new(grader, assignment_name, gradesheet_repo)]
    (lines 41-108) *)
Definition new (grader : Grader) (assignment_name : string)
           (gradesheet_repo : option string) : F t :=
  (let path := Py.join (assignment_dir grader) assignment_name in
   e <- os_path_exists (assignment_dir grader) ;;
   if negb e then
     throw (AssignmentException (assignment_dir grader +++ " does not exist"))
   else
   e <- os_path_exists path ;;
   if e then throw (AssignmentException (path +++ " exists"))
   else
   if negb (NAME_RE_match assignment_name) then
     throw (AssignmentException
              ("Bad assignment name " +++ assignment_name +++ ". "
               +++ "Must match " +++ NAME_RE_pattern))
   else
   os_mkdir path ;;;
   os_mkdir (Py.join path "submissions") ;;;
   os_mkdir (Py.join path "results") ;;;
   let gradesheet_path := Py.join path GradeSheet.SUB_DIR in
   match gradesheet_repo with
   | Some url =>
       if truthy gradesheet_repo
       then GradeSheet.from_repo gradesheet_path url
       else GradeSheet.new gradesheet_path assignment_name
   | None => GradeSheet.new gradesheet_path assignment_name
   end ;;;
   __init__ grader assignment_name)%fs.

End WithModules.

End Assignment.

(** ** Observations on names *)

(** Every character of [s] is in the class. *)
Fixpoint all_in (cls : ascii -> bool) (s : string) : bool :=
  match s with
  | EmptyString => true
  | String c t => (cls c && all_in cls t)%bool
  end.

(** ['-' in s] *)
Fixpoint has_hyphen (s : string) : bool :=
  match s with
  | EmptyString => false
  | String c t => (Ascii.eqb c "-" || has_hyphen t)%bool
  end.

(** ** Observations on file systems *)

(** What is found at a path is still found there, as a directory if it
    was one and as the same file if it was a file. *)
Definition same_kind (a b : option Fs.node) : Prop :=
  match a with
  | Some (Fs.Dir _) => exists es, b = Some (Fs.Dir es)
  | Some (Fs.File c) => b = Some (Fs.File c)
  | None => True
  end.

Definition grows (rt rt' : Fs.node) : Prop :=
  forall p, same_kind (Fs.lookup_path rt p) (Fs.lookup_path rt' p).

(** ** A sample course *)

Module Course.

(** A stand-in for GitPython on a machine without network: a clone
    fails, the other calls leave the files alone; a repository is known
    by its path. *)
Definition offline_git : GitPython :=
  {| Repo := string;
     Repo_clone_from := fun url _ =>
       throw (Exception "GitCommandError" ("unable to access " +++ url));
     Repo_init := fun path => (os_mkdir path ;;; pure path)%fs;
     Repo_open := fun path => pure path;
     index_add := fun _ _ => pure tt;
     index_commit := fun _ _ => pure tt |}.

(** A stand-in for the module [config]: the configuration of a
    gradesheet is the file [assignment.yml] in it. *)
Definition yaml_config : ConfigModule :=
  {| AssignmentConfig := string;
     AssignmentConfig_new := fun path name =>
       (let p := Py.join path "assignment.yml" in
        open_w_write p ("assignment-name: " +++ name) ;;; pure p)%fs;
     AssignmentConfig_load := fun path => pure (Py.join path "assignment.yml");
     file_path := fun c => c |}.

(** The directory of a grader with one assignment, [hw0], and the
    grader's own configuration file. *)
Definition disk : Fs.t :=
  Fs.mk (Fs.Dir
           [ ("assignments",
              Fs.Dir [("hw0", Fs.Dir [("submissions", Fs.Dir []);
                                      ("results", Fs.Dir [])])]);
             ("grader.yml", Fs.File (Fs.Plain "course-id: cs101")) ])
        [].

Definition grader : Grader :=
  mkGrader "assignments" [("course-id", "cs101"); ("course-name", "intro")].

(** A grader whose directory of assignments is given as the
    configuration file. *)
Definition misdirected : Grader :=
  mkGrader "grader.yml" [("course-id", "cs101"); ("course-name", "intro")].

Definition hw1 : @Assignment.t offline_git yaml_config :=
  Assignment.mk "assignments/hw1" "hw1" grader None.

(** A second grader of the same course, with its assignments in
    another directory, and its assignment [hw1]. *)
Definition second_grader : Grader :=
  mkGrader "elsewhere" [("course-name", "intro"); ("course-id", "cs101")].

Definition second_hw1 : @Assignment.t offline_git yaml_config :=
  Assignment.mk "elsewhere/hw1" "hw1" second_grader None.

End Course.

(* ================================================================= *)
(** * Properties *)

(** ** Strings *)

Lemma append_assoc (a b c : string) : (a +++ b) +++ c = a +++ b +++ c.
Proof. induction a; simpl; congruence. Qed.

Lemma length_append (a b : string) :
  String.length (a +++ b) = String.length a + String.length b.
Proof. induction a; simpl; congruence. Qed.

Lemma has_slash_append (a b : string) :
  Py.has_slash (a +++ b) = (Py.has_slash a || Py.has_slash b)%bool.
Proof.
  induction a as [|c a IH]; simpl; [reflexivity|].
  rewrite IH. apply orb_assoc.
Qed.

Lemma has_dot_append (a b : string) :
  has_dot (a +++ b) = (has_dot a || has_dot b)%bool.
Proof.
  induction a as [|c a IH]; simpl; [reflexivity|].
  rewrite IH. apply orb_assoc.
Qed.

Lemma basename_no_slash (p : string) : Py.has_slash (Py.basename p) = false.
Proof.
  induction p as [|c t IH]; simpl; [reflexivity|].
  destruct (Py.has_slash t) eqn:Ht; [exact IH|].
  destruct (Ascii.eqb c Py.slash) eqn:Hc; simpl; [exact Ht|].
  rewrite Hc, Ht. reflexivity.
Qed.

(** ** The matcher *)

Lemma strip_prefix_sound (l s r : string) :
  Re.strip_prefix l s = Some r -> s = l +++ r.
Proof.
  revert s; induction l as [|a l IH]; intros s H; simpl in *.
  - congruence.
  - destruct s as [|b s]; [discriminate|].
    destruct (Ascii.eqb a b) eqn:E; [|discriminate].
    apply Ascii.eqb_eq in E. subst b. f_equal. auto.
Qed.

Lemma at_eol_inv (s : string) :
  Re.at_eol s = true -> s = EmptyString \/ s = Py.str1 Py.LF.
Proof.
  destruct s as [|c [|d s]]; simpl; intros H; auto; [|discriminate].
  apply Ascii.eqb_eq in H. subst c. auto.
Qed.

(** The class [[^/]+] runs to the end of a subject without a slash. *)
Lemma star_class_to_end (t : string) (k : string -> option string) (x : string) :
  Py.has_slash t = false -> k EmptyString = Some x ->
  Re.star_class Re.not_slash t k = Some x.
Proof.
  induction t as [|c t IH]; simpl; intros Hs Hk; [exact Hk|].
  apply orb_false_elim in Hs. destruct Hs as [Hc Ht].
  unfold Re.not_slash at 1. rewrite Hc. simpl.
  rewrite (IH Ht Hk). reflexivity.
Qed.

(** At a dot that is followed by at least one character the pattern
    matches up to the end. *)
Lemma re_user_at_dot (ext : string) :
  ext <> EmptyString -> Py.has_slash ext = false ->
  Re.match_len Re.re_user (String Py.dot ext) = Some (S (String.length ext)).
Proof.
  intros Hne Hs. unfold Re.match_len, Re.re_user. simpl.
  destruct ext as [|c t]; [congruence|].
  simpl in Hs. apply orb_false_elim in Hs. destruct Hs as [Hc Ht].
  unfold Re.not_slash at 1. rewrite Hc. simpl.
  rewrite (star_class_to_end t _ EmptyString Ht); [|reflexivity].
  simpl. reflexivity.
Qed.

(** Anywhere else the pattern matches only a subject that is [_submit],
    possibly before a final line feed. *)
Lemma strip_dot_other (c : ascii) (t : string) :
  Ascii.eqb c Py.dot = false -> Re.strip_prefix "." (String c t) = None.
Proof.
  intros Hc. cbn [Re.strip_prefix].
  change "."%char with Py.dot. rewrite Ascii.eqb_sym, Hc. reflexivity.
Qed.

Lemma re_user_elsewhere (c : ascii) (t : string) :
  Ascii.eqb c Py.dot = false ->
  Re.match_len Re.re_user (String c t) <> None ->
  String c t = "_submit" \/ String c t = "_submit" +++ Py.str1 Py.LF.
Proof.
  intros Hc H. unfold Re.match_len, Re.re_user in H.
  cbn [Re.rmatch] in H. rewrite (strip_dot_other c t Hc) in H.
  destruct (Re.strip_prefix "_submit" (String c t)) as [rest|] eqn:Hp;
    [|congruence].
  apply strip_prefix_sound in Hp.
  destruct (Re.at_eol rest) eqn:He; [|congruence].
  apply at_eol_inv in He. destruct He; subst rest; rewrite Hp; auto.
Qed.

Lemma sub_go_skip (r : Re.regex) (s : string) (n : nat) :
  String.length s <= n -> Re.sub_go r n s = EmptyString.
Proof.
  revert n; induction s as [|c s IH]; intros n H; simpl in *; [reflexivity|].
  destruct n; [lia|]. apply IH. lia.
Qed.

Lemma sub_go_no_match (r : Re.regex) (c : ascii) (t : string) :
  Re.match_len r (String c t) = None ->
  Re.sub_go r 0 (String c t) = String c (Re.sub_go r 0 t).
Proof. intros H. simpl Re.sub_go. rewrite H. reflexivity. Qed.

(** Everything from the first dot on is deleted, when something follows
    that dot. *)
Lemma sub_user_dot (pre ext : string) :
  has_dot pre = false -> ext <> EmptyString -> Py.has_slash ext = false ->
  Re.sub_empty Re.re_user (pre +++ "." +++ ext) = pre.
Proof.
  intros Hd Hne Hs. unfold Re.sub_empty.
  induction pre as [|c pre IH].
  - change (EmptyString +++ "." +++ ext) with (String Py.dot ext).
    simpl Re.sub_go. rewrite (re_user_at_dot ext Hne Hs).
    apply sub_go_skip. lia.
  - simpl in Hd. apply orb_false_elim in Hd. destruct Hd as [Hc Hd].
    change (String c pre +++ "." +++ ext) with (String c (pre +++ "." +++ ext)).
    rewrite sub_go_no_match; [rewrite (IH Hd); reflexivity|].
    destruct (Re.match_len Re.re_user (String c (pre +++ "." +++ ext))) eqn:E;
      [|reflexivity].
    exfalso.
    assert (Hdot : has_dot (String c (pre +++ "." +++ ext)) = true).
    { simpl. rewrite has_dot_append. simpl. rewrite orb_true_r. apply orb_true_r. }
    destruct (re_user_elsewhere c (pre +++ "." +++ ext) Hc) as [H|H];
      [congruence | rewrite H in Hdot; discriminate .. ].
Qed.

(** Without a dot, a final [_submit] is deleted. *)
Lemma sub_user_submit (pre : string) :
  has_dot pre = false ->
  Re.sub_empty Re.re_user (pre +++ "_submit") = pre.
Proof.
  intros Hd. unfold Re.sub_empty.
  induction pre as [|c pre IH]; [reflexivity|].
  simpl in Hd. apply orb_false_elim in Hd. destruct Hd as [Hc Hd].
  change (String c pre +++ "_submit") with (String c (pre +++ "_submit")).
  rewrite sub_go_no_match; [rewrite (IH Hd); reflexivity|].
  destruct (Re.match_len Re.re_user (String c (pre +++ "_submit"))) eqn:E;
    [|reflexivity].
  exfalso.
  destruct (re_user_elsewhere c (pre +++ "_submit") Hc) as [H|H];
    [congruence | | ].
  - apply (f_equal String.length) in H. simpl in H.
    rewrite length_append in H. simpl in H. lia.
  - pose proof (f_equal String.length H) as HL. simpl in HL.
    rewrite length_append in HL. simpl in HL.
    destruct pre; [|simpl in HL; lia].
    simpl in H. unfold Py.str1, Py.LF in H. simpl in H. discriminate.
Qed.

(** Without a dot and without a final [_submit], nothing is deleted. *)
Lemma sub_user_other (b : string) :
  has_dot b = false ->
  (forall pre, b <> pre +++ "_submit") ->
  (forall pre, b <> pre +++ "_submit" +++ Py.str1 Py.LF) ->
  Re.sub_empty Re.re_user b = b.
Proof.
  unfold Re.sub_empty.
  induction b as [|c b IH]; intros Hd H1 H2; [reflexivity|].
  simpl in Hd. apply orb_false_elim in Hd. destruct Hd as [Hc Hd].
  rewrite sub_go_no_match.
  - rewrite IH; auto.
    + intros pre E. apply (H1 (String c pre)). rewrite E. reflexivity.
    + intros pre E. apply (H2 (String c pre)). rewrite E. reflexivity.
  - destruct (Re.match_len Re.re_user (String c b)) eqn:E; [|reflexivity].
    exfalso.
    destruct (re_user_elsewhere c b Hc) as [H|H]; [congruence | | ].
    + apply (H1 EmptyString). exact H.
    + apply (H2 EmptyString). exact H.
Qed.

(** ** Runs *)

Lemma emits_ret {A : Type} (P : event -> Prop) (a : A) : emits P (ret a).
Proof. intros w. constructor. Qed.

Lemma emits_bind {A B : Type} (P : event -> Prop) (m : M A) (f : A -> M B) :
  emits P m -> (forall a, emits P (f a)) -> emits P (bind m f).
Proof.
  intros Hm Hf w. unfold bind. specialize (Hm w).
  destruct (m w) as [[[a|e] w1] t1]; simpl in *; [|exact Hm].
  specialize (Hf a w1). destruct (f a w1) as [[r w2] t2]; simpl in *.
  apply Forall_app; split; assumption.
Qed.

Lemma emits_attempt {A : Type} (P : event -> Prop) (m : M A) :
  emits P m -> emits P (attempt m).
Proof.
  intros Hm w. unfold attempt. specialize (Hm w).
  destruct (m w) as [[r w1] t1]; exact Hm.
Qed.

Lemma emits_print (P : event -> Prop) (l : string) :
  P (EPrint l) -> emits P (print l).
Proof. intros H w. repeat constructor. exact H. Qed.

Lemma emits_containers (P : event -> Prop) :
  (forall r, P (EContainers r)) -> emits P cli_containers.
Proof.
  intros H w. unfold cli_containers.
  destruct (Docker.list_containers (w_docker w)) as [r d].
  repeat constructor. apply H.
Qed.

Lemma emits_remove_container (P : event -> Prop) (id : nat) (force : bool) :
  (forall r, P (ERemove id force r)) -> emits P (cli_remove_container id force).
Proof.
  intros H w. unfold cli_remove_container.
  destruct (Docker.remove_container id force (w_docker w)) as [r d].
  repeat constructor. apply H.
Qed.

Lemma emits_create (P : event -> Prop) (a : Docker.create_args) :
  (forall r, P (ECreate a r)) -> emits P (cli_create_container a).
Proof.
  intros H w. unfold cli_create_container.
  destruct (Docker.create_container a (w_docker w)) as [r d].
  repeat constructor. apply H.
Qed.

Lemma emits_put (P : event -> Prop) (id : nat) (path data : string) :
  (forall r, P (EPut id path data r)) -> emits P (cli_put_archive id path data).
Proof.
  intros H w. unfold cli_put_archive.
  destruct (Docker.put_archive id path data (w_docker w)) as [r d].
  repeat constructor. apply H.
Qed.

Lemma emits_gzip_read (P : event -> Prop) (p : string) :
  (forall r, P (EGzipRead p r)) -> emits P (gzip_open_read p).
Proof. intros H w. repeat constructor. apply H. Qed.

Lemma emits_weaken {A : Type} (P Q : event -> Prop) (m : M A) :
  (forall ev, P ev -> Q ev) -> emits P m -> emits Q m.
Proof. intros H Hm w. eapply Forall_impl; [exact H | apply Hm]. Qed.

Lemma scan_names_emits (c : Docker.container) (name image : string)
      (names : list string) :
  emits lookup_event (scan_names c name image names).
Proof.
  induction names as [|n rest IH]; simpl; [apply emits_ret|].
  destruct (name_matches n name); [|exact IH].
  destruct (negb (Docker.Image c =? image)%string).
  - apply emits_bind; [apply emits_print; exact I | intros; apply emits_ret].
  - apply emits_bind; [apply emits_print; exact I | intros _].
    apply emits_bind.
    + apply emits_attempt, emits_remove_container. intros; reflexivity.
    + intros [u|e]; [apply emits_ret|].
      apply emits_bind; [apply emits_print; exact I | intros; apply emits_ret].
Qed.

Lemma scan_containers_emits (name image : string) (cs : list Docker.container) :
  emits lookup_event (scan_containers name image cs).
Proof.
  induction cs as [|c rest IH]; simpl; [apply emits_ret|].
  apply emits_bind; [apply scan_names_emits|].
  intros [|]; [exact IH | apply emits_ret].
Qed.

Lemma create_container_emits (folder file image : string) (extra : option string) :
  emits (submission_event image (container_name folder file))
        (create_container folder file image extra).
Proof.
  unfold create_container.
  apply emits_bind; [apply emits_print; exact I | intros _].
  apply emits_bind; [apply emits_containers; intros; exact I | intros cs].
  apply emits_bind.
  - eapply emits_weaken; [|apply scan_containers_emits].
    intros [] H; simpl in *; auto; contradiction.
  - intros [|]; [|apply emits_ret].
    apply emits_bind; [apply emits_create; reflexivity | intros id].
    apply emits_bind; [apply emits_print; exact I | intros _].
    apply emits_bind; [apply emits_gzip_read; intros; exact I | intros g].
    apply emits_bind; [apply emits_put; reflexivity | intros _].
    apply emits_bind; [|intros _; apply emits_print; exact I].
    destruct extra as [x|]; [|apply emits_ret].
    apply emits_bind; [apply emits_print; exact I | intros _].
    apply emits_bind; [apply emits_gzip_read; intros; exact I | intros g'].
    apply emits_put; reflexivity.
Qed.

Lemma In_trace {A : Type} (P : event -> Prop) (m : M A) (w : world) (ev : event) :
  emits P m -> In ev (trace_of (m w)) -> P ev.
Proof. intros H Hin. exact (proj1 (Forall_forall P _) (H w) ev Hin). Qed.

(** *** Properties of traces that hold piecewise *)

Lemma piecewise_Forall (P : event -> Prop) : piecewise (Forall P).
Proof.
  split; [constructor|]. intros t1 t2 H1 H2. apply Forall_app. auto.
Qed.

Lemma emits_always {A : Type} (ok : bool) (P : event -> Prop) (m : M A) :
  emits P m -> always ok (Forall P) m.
Proof. intros H w _. apply H. Qed.

Lemma always_emits {A : Type} (P : event -> Prop) (m : M A) :
  always false (Forall P) m -> emits P m.
Proof. intros H w. apply H. discriminate. Qed.

Lemma always_ret {A : Type} (ok : bool) (Q : list event -> Prop) (a : A) :
  piecewise Q -> always ok Q (ret a).
Proof. intros [H0 _] w _. exact H0. Qed.

Lemma always_bind {A B : Type} (ok : bool) (Q : list event -> Prop)
      (m : M A) (f : A -> M B) :
  piecewise Q -> always ok Q m -> (forall a, always ok Q (f a)) ->
  always ok Q (bind m f).
Proof.
  intros [_ Happ] Hm Hf w. specialize (Hm w). unfold bind.
  destruct (m w) as [[[a|e] w1] t1]; cbn in *.
  - specialize (Hf a w1). destruct (f a w1) as [[r w2] t2]; cbn in *.
    intros Hok. apply Happ.
    + apply Hm. intros _. eauto.
    + apply Hf. exact Hok.
  - intros Hok. apply Hm. intros E. destruct (Hok E) as [b Hb]. discriminate.
Qed.

Lemma always_bind_post {A B : Type} (ok : bool) (Q : list event -> Prop)
      (R : A -> Prop) (m : M A) (f : A -> M B) :
  piecewise Q -> always ok Q m ->
  (forall w a, result_of (m w) = Ok a -> R a) ->
  (forall a, R a -> always ok Q (f a)) ->
  always ok Q (bind m f).
Proof.
  intros [_ Happ] Hm HR Hf w. specialize (Hm w). specialize (HR w). unfold bind.
  destruct (m w) as [[[a|e] w1] t1]; cbn in *.
  - specialize (Hf a (HR a eq_refl) w1).
    destruct (f a w1) as [[r w2] t2]; cbn in *.
    intros Hok. apply Happ.
    + apply Hm. intros _. eauto.
    + apply Hf. exact Hok.
  - intros Hok. apply Hm. intros E. destruct (Hok E) as [b Hb]. discriminate.
Qed.

Lemma always_print (ok : bool) (Q : list event -> Prop) (l : string) :
  Q [EPrint l] -> always ok Q (print l).
Proof. intros H w _. exact H. Qed.

Lemma always_pure {A : Type} (ok : bool) (Q : list event -> Prop) (m : M A) :
  piecewise Q -> (forall w, trace_of (m w) = []) -> always ok Q m.
Proof. intros [H0 _] H w _. rewrite H. exact H0. Qed.

Section GradeEvents.

Variable make_gzip : string -> option string -> Fs.t -> result string * Fs.t.
Variable gzip_encoded : string -> bool.

Variable ok : bool.
Variable Q : list event -> Prop.
Hypothesis Q_piecewise : piecewise Q.

Lemma always_call_make_gzip (src : string) (nm : option string) :
  (forall r, fine ok r -> Q [EMakeGzip src nm r]) ->
  always ok Q (call_make_gzip make_gzip src nm).
Proof.
  intros H w. unfold call_make_gzip.
  destruct (make_gzip src nm (w_fs w)) as [r fs']. cbn.
  intros Hok. apply H. exact Hok.
Qed.

Lemma always_os_remove (p : string) :
  (forall r, fine ok r -> Q [EOsRemove p r]) -> always ok Q (os_remove p).
Proof.
  intros H w. unfold os_remove.
  destruct (Fs.remove (w_fs w) p); cbn; intros Hok; apply H; intros E.
  - eauto.
  - destruct (Hok E). discriminate.
Qed.

Lemma always_walk (top : string) :
  (forall b, (ok = true -> b = true) -> Q [EWalk top b]) ->
  always ok Q (next_os_walk top).
Proof.
  intros H w. unfold next_os_walk.
  destruct (Fs.walk_first (w_fs w) top); cbn; intros Hok; apply H; intros E.
  - reflexivity.
  - destruct (Hok E). discriminate.
Qed.

(** The scan hands back the folder it was given as [dirpath]. *)
Lemma scan_dirpath (top : string) (w : world) (x : string * list string * list string) :
  result_of (scan top w) = Ok x -> fst (fst x) = top.
Proof.
  unfold scan, bind, next_os_walk, Fs.walk_first.
  destruct (Fs.stat (w_fs w) top) as [[c|es]|]; simpl; try discriminate.
  intros H. inversion H. reflexivity.
Qed.

Lemma always_scan (top : string) :
  (forall b, (ok = true -> b = true) -> Q [EWalk top b]) ->
  always ok Q (scan top).
Proof.
  intros H. unfold scan.
  apply always_bind; [exact Q_piecewise | apply always_walk, H |].
  intros [[dp ds] fs]. apply always_ret, Q_piecewise.
Qed.

Variable a : args.
Variable x : option string.

Hypothesis Q_print : forall l, Q [EPrint l].
Hypothesis Q_walk : forall b, (ok = true -> b = true) -> Q [EWalk (folder a) b].
Hypothesis Q_pack :
  forall src r, fine ok r ->
    Q [EMakeGzip src (Some (Re.sub_empty Re.re_submit (Py.basename src))) r].
Hypothesis Q_delete : forall p r, fine ok r -> Q [EOsRemove p r].
Hypothesis Q_submission :
  forall file, always ok Q (create_container (folder a) file (image a) x).

Lemma always_grade_folders (dirs : list string) (cleanup : list string) :
  always ok Q (grade_folders make_gzip (folder a) (image a) x dirs cleanup).
Proof.
  revert cleanup; induction dirs as [|d rest IH]; intros cleanup; simpl;
    [apply always_ret, Q_piecewise|].
  apply always_bind; [exact Q_piecewise | apply always_call_make_gzip, Q_pack |].
  intros p.
  apply always_bind; [exact Q_piecewise | apply Q_submission | intros _; apply IH].
Qed.

Lemma always_grade_files (files : list string) :
  always ok Q (grade_files (folder a) (image a) x files).
Proof.
  induction files as [|f rest IH]; simpl; [apply always_ret, Q_piecewise|].
  apply always_bind; [exact Q_piecewise | apply Q_submission | intros _; exact IH].
Qed.

Lemma always_remove_all (cleanup : list string) : always ok Q (remove_all cleanup).
Proof.
  induction cleanup as [|p rest IH]; simpl; [apply always_ret, Q_piecewise|].
  apply always_bind;
    [exact Q_piecewise | apply always_os_remove, Q_delete | intros _; exact IH].
Qed.

Lemma always_grade_batch (cleanup : list string) :
  always ok Q (grade_batch make_gzip a x cleanup).
Proof.
  unfold grade_batch.
  apply always_bind_post with (R := fun y => fst (fst y) = folder a).
  - exact Q_piecewise.
  - apply always_scan, Q_walk.
  - intros w y. apply scan_dirpath.
  - intros [[dp ds] fs] Hdp. simpl in Hdp. subst dp.
    apply always_bind; [exact Q_piecewise | apply always_grade_folders | intros cl].
    apply always_bind; [exact Q_piecewise | apply always_grade_files | intros _].
    apply always_bind; [exact Q_piecewise | apply always_print, Q_print | intros _].
    apply always_remove_all.
Qed.

End GradeEvents.

Section GradeAlways.

Variable make_gzip : string -> option string -> Fs.t -> result string * Fs.t.
Variable gzip_encoded : string -> bool.

(** A property that holds piecewise holds of every run of [grade] when
    it holds of each of its steps. *)
Lemma always_grade (Q : list event -> Prop) (a : args) :
  piecewise Q ->
  (forall l, Q [EPrint l]) ->
  (forall b, Q [EWalk (folder a) b]) ->
  (forall src r, extra a = Some src -> Q [EMakeGzip src None r]) ->
  (forall src r,
      Q [EMakeGzip src (Some (Re.sub_empty Re.re_submit (Py.basename src))) r]) ->
  (forall p r, Q [EOsRemove p r]) ->
  (forall file x, always false Q (create_container (folder a) file (image a) x)) ->
  always false Q (grade make_gzip gzip_encoded a).
Proof.
  intros HQ Hprint Hwalk Hwrap Hpack Hdel Hsub.
  assert (Hbatch : forall x cl, always false Q (grade_batch make_gzip a x cl)).
  { intros x cl. apply always_grade_batch; auto. }
  unfold grade.
  apply always_bind; [exact HQ | apply always_pure; [exact HQ | reflexivity] |].
  intros isd. destruct (negb isd); [apply always_print, Hprint|].
  destruct (extra a) as [e|] eqn:He; [|apply Hbatch].
  apply always_bind; [exact HQ | apply always_pure; [exact HQ | reflexivity] |].
  intros isf. destruct (negb isf); [apply always_print, Hprint|].
  apply always_bind; [exact HQ | apply always_pure; [exact HQ | reflexivity] |].
  intros d. destruct (d || negb (gzip_encoded e))%bool; [|apply Hbatch].
  apply always_bind; [exact HQ | apply always_print, Hprint | intros _].
  apply always_bind; [exact HQ | | intros p; apply Hbatch].
  apply always_call_make_gzip. intros r _. apply Hwrap. reflexivity.
Qed.

Lemma create_container_batch_event (a : args) (file : string) (x : option string) :
  emits (batch_event a) (create_container (folder a) file (image a) x).
Proof.
  eapply emits_weaken; [|apply create_container_emits].
  intros [] H; simpl in *; auto; try contradiction.
  exists file. exact H.
Qed.

Lemma grade_emits (a : args) :
  emits (batch_event a) (grade make_gzip gzip_encoded a).
Proof.
  apply always_emits, always_grade.
  - apply piecewise_Forall.
  - intros; repeat constructor.
  - intros; repeat constructor.
  - intros src r He. repeat constructor. exact He.
  - intros; repeat constructor.
  - intros; repeat constructor.
  - intros file x. apply emits_always, create_container_batch_event.
Qed.

End GradeAlways.

Lemma bind_trace {A B : Type} (m : M A) (f : A -> M B) (w : world) :
  trace_of (bind m f w) =
    trace_of (m w) ++ match m w with
                      | (Ok a, w1, _) => trace_of (f a w1)
                      | (Raise _, _, _) => []
                      end.
Proof.
  unfold bind. destruct (m w) as [[[a|e] w1] t1]; cbn.
  - destruct (f a w1) as [[r w2] t2]. reflexivity.
  - symmetry. apply app_nil_r.
Qed.

(** ** The lookup *)

Lemma scan_names_visit_gen (c : Docker.container) (name image : string)
      (names : list string) (w : world) :
  scan_names c name image names w =
    (if existsb (fun n => name_matches n name) names
     then visit (Docker.mkContainer (Docker.Id c) names (Docker.Image c)) name image w
     else (Ok GoOn, w, [])).
Proof.
  induction names as [|n rest IH]; [reflexivity|].
  cbn [scan_names existsb].
  destruct (name_matches n name) eqn:E.
  - unfold visit, has_name. cbn [Docker.Names Docker.Image Docker.Id existsb].
    rewrite E. reflexivity.
  - rewrite IH. cbn [orb].
    destruct (existsb (fun n0 => name_matches n0 name) rest) eqn:Er; [|reflexivity].
    unfold visit, has_name. cbn [Docker.Names Docker.Image Docker.Id existsb].
    rewrite E, Er. reflexivity.
Qed.

Lemma scan_names_visit (c : Docker.container) (name image : string) (w : world) :
  scan_names c name image (Docker.Names c) w = visit c name image w.
Proof.
  rewrite scan_names_visit_gen. destruct c as [i ns im]; cbn.
  unfold visit, has_name. cbn.
  destruct (existsb (fun n => name_matches n name) ns); reflexivity.
Qed.

Lemma scan_containers_cons (name image : string) (c : Docker.container)
      (rest : list Docker.container) (w : world) :
  scan_containers name image (c :: rest) w =
    bind (visit c name image)
         (fun f => match f with
                   | Returned => ret Returned
                   | GoOn => scan_containers name image rest
                   end) w.
Proof.
  cbn [scan_containers]. unfold bind. rewrite scan_names_visit. reflexivity.
Qed.

(** The removal of a container, failed or not, leaves the other
    containers as they are; a failed one leaves them all. *)
Lemma remove_container_fail (id : nat) (force : bool) (d d' : Docker.daemon) (e : Exn) :
  Docker.remove_container id force d = (Raise e, d') ->
  Docker.containers d' = Docker.containers d /\ Docker.fault d' = Docker.fault d.
Proof.
  unfold Docker.remove_container.
  destruct (Docker.fault d (Docker.clock d) (Docker.CallRemove id force)).
  - intros H; inversion H; subst; auto.
  - destruct (Docker.has_id id (Docker.containers d));
      intros H; inversion H; subst; auto.
Qed.

Lemma remove_container_ok (id : nat) (force : bool) (d d' : Docker.daemon) :
  Docker.remove_container id force d = (Ok tt, d') ->
  Docker.containers d' =
    filter (fun c => negb (Nat.eqb (Docker.Id c) id)) (Docker.containers d).
Proof.
  unfold Docker.remove_container.
  destruct (Docker.fault d (Docker.clock d) (Docker.CallRemove id force)).
  - discriminate.
  - destruct (Docker.has_id id (Docker.containers d));
      intros H; inversion H; subst; reflexivity.
Qed.

Lemma visit_cases (c : Docker.container) (name image : string) (w : world) :
  visited c name image w (visit c name image w).
Proof.
  unfold visit.
  destruct (has_name name c) eqn:Hn; [|apply visited_other; exact Hn].
  destruct (String.eqb (Docker.Image c) image) eqn:Hi; cbn [negb].
  - apply String.eqb_eq in Hi.
    unfold bind, print, attempt, cli_remove_container, ret.
    destruct (Docker.remove_container (Docker.Id c) true (w_docker w))
      as [[[]|e] d'] eqn:Hr; cbn.
    + apply visited_removed; assumption.
    + apply visited_stuck; assumption.
  - apply String.eqb_neq in Hi.
    unfold bind, print, ret. cbn. apply visited_mismatch; assumption.
Qed.

(** The lookup never raises, leaves the files alone, adds no container
    and removes only containers it has visited that carry the name and
    the image asked for. *)
Lemma scan_containers_inv (name image : string) (cs : list Docker.container) :
  forall w,
    (exists f, result_of (scan_containers name image cs w) = Ok f) /\
    w_fs (world_of (scan_containers name image cs w)) = w_fs w /\
    (forall c, In c (conts (world_of (scan_containers name image cs w))) ->
               In c (conts w)) /\
    (forall c, In c (conts w) ->
               (forall c2, In c2 cs -> Docker.Id c2 = Docker.Id c ->
                           has_name name c2 = true -> Docker.Image c2 <> image) ->
               In c (conts (world_of (scan_containers name image cs w)))).
Proof.
  induction cs as [|c0 rest IH]; intros w.
  - cbn. repeat split; eauto.
  - rewrite scan_containers_cons. unfold bind.
    destruct (visit_cases c0 name image w) as [Hn | Hn Hi | d' Hn Hi Hr | d' e Hn Hi Hr].
    + specialize (IH w). cbn.
      destruct (scan_containers name image rest w) as [[r w2] t2]; cbn in *.
      destruct IH as (Hf & Hfs & Hsub & Hkeep). repeat split; auto.
    + cbn. repeat split; eauto.
    + specialize (IH (mkWorld (w_fs w) d')). cbn.
      destruct (scan_containers name image rest (mkWorld (w_fs w) d'))
        as [[r w2] t2]; cbn in *.
      destruct IH as (Hf & Hfs & Hsub & Hkeep).
      apply remove_container_ok in Hr. unfold conts in *. cbn in *.
      repeat split; auto.
      * intros c Hc. specialize (Hsub c Hc). rewrite Hr in Hsub.
        apply filter_In in Hsub. tauto.
      * intros c Hc Hok. apply Hkeep; [|intros; apply Hok; auto].
        rewrite Hr. apply filter_In. split; [exact Hc|].
        destruct (Nat.eqb (Docker.Id c) (Docker.Id c0)) eqn:E; [|reflexivity].
        apply Nat.eqb_eq in E. exfalso.
        apply (Hok c0 (or_introl eq_refl)); auto.
    + apply remove_container_fail in Hr. destruct Hr as [Hr _].
      unfold conts. cbn. rewrite Hr. repeat split; eauto.
Qed.

Lemma remove_container_fault (id : nat) (force : bool) (d : Docker.daemon) :
  Docker.fault (snd (Docker.remove_container id force d)) = Docker.fault d.
Proof.
  unfold Docker.remove_container.
  destruct (Docker.fault d (Docker.clock d) (Docker.CallRemove id force));
    [reflexivity|].
  destruct (Docker.has_id id (Docker.containers d)); reflexivity.
Qed.

(** The lookup leaves the daemon's faults as they are. *)
Lemma scan_containers_fault (name image : string) (cs : list Docker.container) :
  forall w,
    Docker.fault (w_docker (world_of (scan_containers name image cs w)))
    = Docker.fault (w_docker w).
Proof.
  induction cs as [|c0 rest IH]; intros w; [reflexivity|].
  rewrite scan_containers_cons. unfold bind.
  destruct (visit_cases c0 name image w) as [Hn | Hn Hi | d' Hn Hi Hr | d' e Hn Hi Hr].
  - specialize (IH w).
    destruct (scan_containers name image rest w) as [[r w2] t2]; exact IH.
  - reflexivity.
  - specialize (IH (mkWorld (w_fs w) d')).
    pose proof (remove_container_fault (Docker.Id c0) true (w_docker w)) as Hf.
    rewrite Hr in Hf. cbn in Hf.
    destruct (scan_containers name image rest (mkWorld (w_fs w) d'))
      as [[r w2] t2]; cbn in *. congruence.
  - pose proof (remove_container_fault (Docker.Id c0) true (w_docker w)) as Hf.
    rewrite Hr in Hf. exact Hf.
Qed.

Lemma ends_skipped_app (name : string) (t1 t2 : list event) :
  ends_skipped name t2 -> ends_skipped name (t1 ++ t2).
Proof.
  intros (t0 & l & E & H). exists (t1 ++ t0), l. subst t2.
  rewrite app_assoc. auto.
Qed.

(** A container that carries the name under another image stops the
    lookup: the function returns, and its last line says so. *)
Lemma scan_containers_skips (name image : string) (cs : list Docker.container) :
  (exists c, In c cs /\ has_name name c = true /\ Docker.Image c <> image) ->
  forall w,
    result_of (scan_containers name image cs w) = Ok Returned /\
    ends_skipped name (trace_of (scan_containers name image cs w)).
Proof.
  induction cs as [|c0 rest IH]; intros (c & Hin & Hn & Hi) w; [destruct Hin|].
  rewrite scan_containers_cons. unfold bind.
  assert (Hrest : forall w', Docker.Image c0 = image \/ has_name name c0 = false ->
             result_of (scan_containers name image rest w') = Ok Returned /\
             ends_skipped name (trace_of (scan_containers name image rest w'))).
  { intros w' H0. apply IH. exists c. repeat split; auto.
    destruct Hin as [E|Hin]; [|exact Hin]. subst c0.
    destruct H0; congruence. }
  destruct (visit_cases c0 name image w) as [Hn0 | Hn0 Hi0 | d' Hn0 Hi0 Hr | d' e Hn0 Hi0 Hr].
  - specialize (Hrest w (or_intror Hn0)).
    destruct (scan_containers name image rest w) as [[r w2] t2]; cbn in *.
    exact Hrest.
  - cbn. split; [reflexivity|].
    exists [], (mismatch_msg name). split; [reflexivity | left; reflexivity].
  - specialize (Hrest (mkWorld (w_fs w) d') (or_introl Hi0)).
    destruct (scan_containers name image rest (mkWorld (w_fs w) d'))
      as [[r w2] t2]; cbn in *.
    destruct Hrest as [Hr2 Hs]. split; [exact Hr2|].
    apply (ends_skipped_app name [_; _] t2 Hs).
  - cbn. split; [reflexivity|].
    exists [EPrint "  Removing old container"; ERemove (Docker.Id c0) true (Raise e)],
      (remove_failed_msg e).
    split; [reflexivity | right; exists e; reflexivity].
Qed.

Lemma lookup_removal_cons (name image : string) (c0 : Docker.container)
      (cs : list Docker.container) (ev : event) :
  lookup_removal name image cs ev -> lookup_removal name image (c0 :: cs) ev.
Proof.
  destruct ev; cbn; auto.
  intros (Hf & c & Hin & H). split; [exact Hf|]. exists c. split; [right|]; auto.
Qed.

Lemma scan_containers_removals (name image : string) (cs : list Docker.container) :
  emits (lookup_removal name image cs) (scan_containers name image cs).
Proof.
  induction cs as [|c0 rest IH]; intros w; [constructor|].
  rewrite scan_containers_cons. unfold bind.
  assert (Hhere : forall r, has_name name c0 = true -> Docker.Image c0 = image ->
            lookup_removal name image (c0 :: rest) (ERemove (Docker.Id c0) true r)).
  { intros r Hn Hi. split; [reflexivity|]. exists c0. cbn. auto. }
  assert (Hrest : forall w', Forall (lookup_removal name image (c0 :: rest))
                                    (trace_of (scan_containers name image rest w'))).
  { intros w'. eapply Forall_impl; [|apply IH]. apply lookup_removal_cons. }
  destruct (visit_cases c0 name image w) as [Hn | Hn Hi | d' Hn Hi Hr | d' e Hn Hi Hr].
  - specialize (Hrest w).
    destruct (scan_containers name image rest w) as [[r w2] t2]; exact Hrest.
  - cbn. repeat constructor.
  - specialize (Hrest (mkWorld (w_fs w) d')).
    destruct (scan_containers name image rest (mkWorld (w_fs w) d'))
      as [[r w2] t2]; unfold trace_of in *; cbn [snd app] in *.
    constructor; [exact I|]. constructor; [apply Hhere; assumption|]. exact Hrest.
  - unfold trace_of; cbn [snd app].
    constructor; [exact I|]. constructor; [apply Hhere; assumption|].
    constructor; [exact I|]. constructor.
Qed.

(** The two outcomes of the listing. *)
Lemma cli_containers_lists (w : world) :
  lists w -> cli_containers w = (Ok (conts w), listed w, [EContainers (Ok tt)]).
Proof.
  unfold lists, cli_containers, Docker.list_containers. intros ->. reflexivity.
Qed.

Lemma cli_containers_fails (w : world) (e : Exn) :
  Docker.fault (w_docker w) (Docker.clock (w_docker w)) Docker.CallList = Some e ->
  cli_containers w = (Raise e, listed w, [EContainers (Raise e)]).
Proof.
  unfold cli_containers, Docker.list_containers. intros ->. reflexivity.
Qed.

(** [create_container] when the listing fails: the exception leaves the
    function. *)
Lemma create_container_unlisted (folder file image : string)
      (extra : option string) (w : world) (e : Exn) :
  Docker.fault (w_docker w) (Docker.clock (w_docker w)) Docker.CallList = Some e ->
  create_container folder file image extra w =
    (Raise e, listed w,
     [EPrint (display_name file +++ ":"); EContainers (Raise e)]).
Proof.
  intros H. unfold create_container.
  unfold bind at 1. cbn [print]. unfold bind at 1.
  rewrite (cli_containers_fails w e H). reflexivity.
Qed.

(** [create_container] when the lookup returns: nothing follows. *)
Lemma create_container_returned (folder file image : string)
      (extra : option string) (w : world) :
  lists w ->
  result_of (scan_containers (container_name folder file) image (conts w) (listed w))
  = Ok Returned ->
  create_container folder file image extra w =
    (Ok tt,
     world_of (scan_containers (container_name folder file) image (conts w) (listed w)),
     EPrint (display_name file +++ ":") :: EContainers (Ok tt) ::
     trace_of (scan_containers (container_name folder file) image (conts w) (listed w))).
Proof.
  intros Hl. unfold create_container.
  unfold bind at 1. cbn [print]. unfold bind at 1.
  rewrite (cli_containers_lists w Hl).
  unfold bind at 1. fold (container_name folder file).
  destruct (scan_containers _ image (conts w) (listed w))
    as [[r w1] t1]; cbn.
  intros ->. unfold ret. cbn. rewrite app_nil_r. reflexivity.
Qed.

(** One run on a submission whose name is taken under another image. *)
Lemma create_container_mismatch (folder file image : string)
      (extra : option string) (w : world) (c : Docker.container) :
  (forall c2, In c2 (conts w) -> Docker.Id c2 = Docker.Id c -> c2 = c) ->
  In c (conts w) ->
  has_name (container_name folder file) c = true ->
  Docker.Image c <> image ->
  exists r w' t,
    create_container folder file image extra w = (r, w', t) /\
    w_fs w' = w_fs w /\
    In c (conts w') /\
    (forall c2, In c2 (conts w') -> In c2 (conts w)) /\
    Docker.fault (w_docker w') = Docker.fault (w_docker w) /\
    Forall (spares c) t /\
    (lists w -> r = Ok tt /\ ends_skipped (container_name folder file) t).
Proof.
  intros Huniq Hin Hn Hi.
  set (name := container_name folder file) in *.
  destruct (Docker.fault (w_docker w) (Docker.clock (w_docker w)) Docker.CallList)
    as [e|] eqn:Hl.
  { rewrite (create_container_unlisted folder file image extra w e Hl).
    eexists _, _, _. split; [reflexivity|].
    split; [reflexivity|]. split; [exact Hin|]. split; [auto|].
    split; [reflexivity|]. split; [repeat constructor|].
    unfold lists. rewrite Hl. discriminate. }
  destruct (scan_containers_skips name image (conts w)
              (ex_intro _ c (conj Hin (conj Hn Hi))) (listed w)) as [Hret Hskip].
  destruct (scan_containers_inv name image (conts w) (listed w))
    as (_ & Hfs & Hsub & Hkeep).
  pose proof (scan_containers_removals name image (conts w) (listed w)) as Hrm.
  pose proof (scan_containers_fault name image (conts w) (listed w)) as Hfault.
  rewrite (create_container_returned folder file image extra w Hl Hret).
  fold name. eexists _, _, _. split; [reflexivity|].
  split; [exact Hfs|]. split; [|split; [exact Hsub|split; [exact Hfault|split]]].
  - apply Hkeep; [exact Hin|].
    intros c2 Hc2 Hid _ Him. rewrite (Huniq c2 Hc2 Hid) in Him. contradiction.
  - repeat (constructor; [exact I|]).
    eapply Forall_impl; [|exact Hrm].
    intros [] H; cbn in *; auto; try contradiction.
    destruct H as (_ & c2 & Hc2 & Hid & _ & Him). intros E. subst id.
    rewrite (Huniq c2 Hc2 E) in Him. contradiction.
  - intros _. split; [reflexivity|].
    apply (ends_skipped_app name [_; _]). exact Hskip.
Qed.

(** ** Containers of another image *)

Lemma keeps_bind_post {A B : Type} (I : world -> Prop) (P : event -> Prop)
      (R : A -> Prop) (m : M A) (f : A -> M B) :
  keeps I P m ->
  (forall w a, I w -> result_of (m w) = Ok a -> R a) ->
  (forall a, R a -> keeps I P (f a)) ->
  keeps I P (bind m f).
Proof.
  intros Hm HR Hf w Hw. unfold bind.
  specialize (Hm w Hw). specialize (HR w).
  destruct (m w) as [[[a|e] w1] t1]; cbn in *; [|exact Hm].
  destruct Hm as [Hw1 Ht1].
  specialize (Hf a (HR a Hw eq_refl) w1 Hw1).
  destruct (f a w1) as [[r w2] t2]; cbn in *.
  destruct Hf as [Hw2 Ht2]. split; [exact Hw2|].
  apply Forall_app. auto.
Qed.

Lemma keeps_bind {A B : Type} (I : world -> Prop) (P : event -> Prop)
      (m : M A) (f : A -> M B) :
  keeps I P m -> (forall a, keeps I P (f a)) -> keeps I P (bind m f).
Proof.
  intros Hm Hf. apply keeps_bind_post with (R := fun _ => True); auto.
Qed.

Lemma keeps_ret {A : Type} (I : world -> Prop) (P : event -> Prop) (a : A) :
  keeps I P (ret a).
Proof. intros w Hw. split; [exact Hw | constructor]. Qed.

Lemma keeps_print (I : world -> Prop) (P : event -> Prop) (l : string) :
  P (EPrint l) -> keeps I P (print l).
Proof. intros H w Hw. split; [exact Hw | repeat constructor; exact H]. Qed.

Section Guarded.

Variable c : Docker.container.

Lemma keeps_same_daemon {A : Type} (m : M A) :
  (forall w, w_docker (world_of (m w)) = w_docker w) ->
  emits (leaves c) m ->
  keeps (guarded c) (leaves c) m.
Proof.
  intros Hd He w Hw. split; [|apply He].
  unfold guarded, conts in *. rewrite Hd. exact Hw.
Qed.

Lemma keeps_gzip_read (p : string) :
  keeps (guarded c) (leaves c) (gzip_open_read p).
Proof.
  apply keeps_same_daemon; [reflexivity | intros w; repeat constructor].
Qed.

Lemma keeps_os_remove (p : string) :
  keeps (guarded c) (leaves c) (os_remove p).
Proof.
  apply keeps_same_daemon.
  - intros w. unfold os_remove. destruct (Fs.remove (w_fs w) p); reflexivity.
  - intros w. unfold os_remove.
    destruct (Fs.remove (w_fs w) p); repeat constructor.
Qed.

Lemma keeps_walk (top : string) :
  keeps (guarded c) (leaves c) (next_os_walk top).
Proof.
  apply keeps_same_daemon.
  - intros w. unfold next_os_walk.
    destruct (Fs.walk_first (w_fs w) top); reflexivity.
  - intros w. unfold next_os_walk.
    destruct (Fs.walk_first (w_fs w) top); repeat constructor.
Qed.

Lemma list_max_ge (l : list nat) (n : nat) : In n l -> n <= list_max l.
Proof.
  intros H.
  pose proof (proj1 (list_max_le l (list_max l)) (Nat.le_refl _)) as HF.
  exact (proj1 (Forall_forall _ _) HF n H).
Qed.

(** A new container gets an id that no known container has. *)
Lemma fresh_id_new (cs : list Docker.container) (c0 : Docker.container) :
  In c0 cs -> Docker.fresh_id cs <> Docker.Id c0.
Proof.
  intros H. unfold Docker.fresh_id.
  assert (Docker.Id c0 <= list_max (map Docker.Id cs)).
  { apply list_max_ge. apply in_map. exact H. }
  lia.
Qed.

Lemma keeps_create (ca : Docker.create_args) :
  keeps (guarded c) (leaves c) (cli_create_container ca).
Proof.
  intros w [Hin Huniq]. unfold cli_create_container, Docker.create_container.
  unfold guarded, conts in *.
  destruct (Docker.fault (w_docker w) (Docker.clock (w_docker w)) (Docker.CallCreate ca)).
  { cbn. repeat split; auto. repeat constructor. }
  destruct (Docker.name_in_use _ (Docker.containers (w_docker w))).
  { cbn. repeat split; auto. repeat constructor. }
  cbn. split; [|repeat constructor]. split.
  - apply in_app_iff. left. exact Hin.
  - intros c2 H2 Hid. apply in_app_iff in H2. destruct H2 as [H2|[<-|[]]]; [auto|].
    exfalso. cbn in Hid. exact (fresh_id_new _ _ Hin Hid).
Qed.

Lemma create_gives_new_id (ca : Docker.create_args) (w : world) (id : nat) :
  guarded c w -> result_of (cli_create_container ca w) = Ok id -> id <> Docker.Id c.
Proof.
  intros [Hin _]. unfold cli_create_container, Docker.create_container, conts in *.
  destruct (Docker.fault (w_docker w) (Docker.clock (w_docker w)) (Docker.CallCreate ca));
    [discriminate|].
  destruct (Docker.name_in_use _ (Docker.containers (w_docker w))); [discriminate|].
  cbn. intros E. inversion E. apply fresh_id_new. exact Hin.
Qed.

Lemma keeps_put (id : nat) (path data : string) :
  id <> Docker.Id c -> keeps (guarded c) (leaves c) (cli_put_archive id path data).
Proof.
  intros Hid w Hw. unfold cli_put_archive, Docker.put_archive.
  unfold guarded, conts in *.
  destruct (Docker.fault (w_docker w) (Docker.clock (w_docker w))
                         (Docker.CallPut id path data)).
  { cbn. split; [exact Hw | repeat constructor; exact Hid]. }
  destruct (Docker.has_id id (Docker.containers (w_docker w)));
    cbn; (split; [exact Hw | repeat constructor; exact Hid]).
Qed.

(** The lookup for an image that is not the image of [c] leaves [c]
    alone. *)
Lemma keeps_lookup (name image : string) (w : world) :
  Docker.Image c <> image ->
  guarded c w ->
  guarded c (world_of (scan_containers name image (conts w) w)) /\
  Forall (leaves c) (trace_of (scan_containers name image (conts w) w)).
Proof.
  intros Hi [Hin Huniq].
  destruct (scan_containers_inv name image (conts w) w) as (_ & _ & Hsub & Hkeep).
  pose proof (scan_containers_removals name image (conts w) w) as Hrm.
  split; [split|].
  - apply Hkeep; [exact Hin|].
    intros c2 Hc2 Hid _ Him. rewrite (Huniq c2 Hc2 Hid) in Him. contradiction.
  - intros c2 Hc2. apply Huniq, Hsub, Hc2.
  - eapply Forall_impl; [|exact Hrm].
    intros [] H; cbn in *; auto; try contradiction.
    destruct H as (_ & c2 & Hc2 & Hid & _ & Him). intros E. subst id.
    rewrite (Huniq c2 Hc2 E) in Him. contradiction.
Qed.

Lemma keeps_bind_at {A B : Type} (I : world -> Prop) (P : event -> Prop)
      (m : M A) (f : A -> M B) (w : world) :
  I (world_of (m w)) /\ Forall P (trace_of (m w)) ->
  (forall a, keeps I P (f a)) ->
  I (world_of (bind m f w)) /\ Forall P (trace_of (bind m f w)).
Proof.
  intros Hm Hf. unfold bind.
  destruct (m w) as [[[a|e] w1] t1]; cbn in *; [|exact Hm].
  destruct Hm as [Hw1 Ht1]. specialize (Hf a w1 Hw1).
  destruct (f a w1) as [[r w2] t2]; cbn in *.
  destruct Hf as [Hw2 Ht2]. split; [exact Hw2|].
  apply Forall_app. auto.
Qed.

Lemma keeps_listing {B : Type} (I : world -> Prop) (P : event -> Prop)
      (f : list Docker.container -> M B) :
  (forall r, P (EContainers r)) ->
  (forall w, I w -> I (listed w)) ->
  (forall w, I w -> I (world_of (f (conts w) w)) /\ Forall P (trace_of (f (conts w) w))) ->
  keeps I P (bind cli_containers f).
Proof.
  intros HP HI Hf w Hw. unfold bind.
  destruct (Docker.fault (w_docker w) (Docker.clock (w_docker w)) Docker.CallList)
    as [e|] eqn:Hl.
  - rewrite (cli_containers_fails w e Hl).
    split; [exact (HI w Hw) | repeat constructor; apply HP].
  - rewrite (cli_containers_lists w Hl).
    specialize (Hf (listed w) (HI w Hw)). change (conts (listed w)) with (conts w) in Hf.
    destruct (f (conts w) (listed w)) as [[r w2] t2]; cbn in *.
    destruct Hf as [Hw2 Ht2]. split; [exact Hw2|].
    constructor; [apply HP | assumption].
Qed.

Lemma keeps_create_container (folder file image : string) (extra : option string) :
  Docker.Image c <> image ->
  keeps (guarded c) (leaves c) (create_container folder file image extra).
Proof.
  intros Hi. unfold create_container.
  apply keeps_bind; [apply keeps_print; exact I | intros _].
  apply keeps_listing; [intros; exact I | intros w Hw; exact Hw |].
  intros w Hw.
  apply keeps_bind_at; [apply keeps_lookup; assumption|].
  intros [|]; [|apply keeps_ret].
  apply keeps_bind_post with (R := fun id => id <> Docker.Id c).
  - apply keeps_create.
  - intros w0 id. apply create_gives_new_id.
  - intros id Hid.
    apply keeps_bind; [apply keeps_print; exact I | intros _].
    apply keeps_bind; [apply keeps_gzip_read | intros g].
    apply keeps_bind; [apply keeps_put; exact Hid | intros _].
    apply keeps_bind; [|intros _; apply keeps_print; exact I].
    destruct extra as [x|]; [|apply keeps_ret].
    apply keeps_bind; [apply keeps_print; exact I | intros _].
    apply keeps_bind; [apply keeps_gzip_read | intros g'].
    apply keeps_put; exact Hid.
Qed.

Variable make_gzip : string -> option string -> Fs.t -> result string * Fs.t.
Variable gzip_encoded : string -> bool.

Lemma keeps_make_gzip (src : string) (nm : option string) :
  keeps (guarded c) (leaves c) (call_make_gzip make_gzip src nm).
Proof.
  apply keeps_same_daemon.
  - intros w. unfold call_make_gzip.
    destruct (make_gzip src nm (w_fs w)); reflexivity.
  - intros w. unfold call_make_gzip.
    destruct (make_gzip src nm (w_fs w)); repeat constructor.
Qed.

Lemma keeps_grade_folders (dirpath image : string) (x : option string)
      (dirs cleanup : list string) :
  Docker.Image c <> image ->
  keeps (guarded c) (leaves c) (grade_folders make_gzip dirpath image x dirs cleanup).
Proof.
  intros Hi. revert cleanup.
  induction dirs as [|d rest IH]; intros cleanup; cbn [grade_folders];
    [apply keeps_ret|].
  apply keeps_bind; [apply keeps_make_gzip | intros p].
  apply keeps_bind; [apply keeps_create_container, Hi | intros _; apply IH].
Qed.

Lemma keeps_grade_files (dirpath image : string) (x : option string)
      (files : list string) :
  Docker.Image c <> image ->
  keeps (guarded c) (leaves c) (grade_files dirpath image x files).
Proof.
  intros Hi. induction files as [|f rest IH]; cbn [grade_files]; [apply keeps_ret|].
  apply keeps_bind; [apply keeps_create_container, Hi | intros _; exact IH].
Qed.

Lemma keeps_remove_all (cleanup : list string) :
  keeps (guarded c) (leaves c) (remove_all cleanup).
Proof.
  induction cleanup as [|p rest IH]; cbn [remove_all]; [apply keeps_ret|].
  apply keeps_bind; [apply keeps_os_remove | intros _; exact IH].
Qed.

Lemma keeps_grade_batch (a : args) (x : option string) (cleanup : list string) :
  Docker.Image c <> image a ->
  keeps (guarded c) (leaves c) (grade_batch make_gzip a x cleanup).
Proof.
  intros Hi. unfold grade_batch, scan.
  apply keeps_bind.
  { apply keeps_bind; [apply keeps_walk | intros [[dp ds] fs]; apply keeps_ret]. }
  intros [[dp ds] fs].
  apply keeps_bind; [apply keeps_grade_folders, Hi | intros cl].
  apply keeps_bind; [apply keeps_grade_files, Hi | intros _].
  apply keeps_bind; [apply keeps_print; exact I | intros _].
  apply keeps_remove_all.
Qed.

(** A run of [grade] leaves a container of another image alone. *)
Lemma keeps_grade (a : args) :
  Docker.Image c <> image a ->
  keeps (guarded c) (leaves c) (grade make_gzip gzip_encoded a).
Proof.
  intros Hi.
  assert (Hpure : forall (p : string) (f : Fs.t -> string -> bool),
             keeps (guarded c) (leaves c)
                   (fun w : world => (Ok (f (w_fs w) p), w, @nil event))).
  { intros p f w Hw. split; [exact Hw | constructor]. }
  unfold grade.
  apply keeps_bind; [apply (Hpure _ Fs.isdir) | intros isd].
  destruct (negb isd); [apply keeps_print; exact I|].
  destruct (extra a) as [e|]; [|apply keeps_grade_batch, Hi].
  apply keeps_bind; [apply (Hpure _ Fs.isfile) | intros isf].
  destruct (negb isf); [apply keeps_print; exact I|].
  apply keeps_bind; [apply (Hpure _ Fs.isdir) | intros d].
  destruct (d || negb (gzip_encoded e))%bool; [|apply keeps_grade_batch, Hi].
  apply keeps_bind; [apply keeps_print; exact I | intros _].
  apply keeps_bind; [apply keeps_make_gzip | intros p].
  apply keeps_grade_batch, Hi.
Qed.

Lemma keeps_rerun (n : nat) (m : M unit) :
  keeps (guarded c) (leaves c) m -> keeps (guarded c) (leaves c) (rerun n m).
Proof.
  intros Hm. induction n as [|n IH]; cbn [rerun]; [apply keeps_ret|].
  apply keeps_bind; [exact Hm | intros _; exact IH].
Qed.

End Guarded.

(** ** C1 *)

(** C1.  A submission whose container name is already carried by a
    container of another image is given up, however often it is run: no
    container is created, nothing is copied into any container, the
    existing container is never the target of a removal and is still
    there afterwards, and the files are untouched; and when the daemon
    answers the listings, each run returns normally and ends with the
    line that reports the skip.  Nor does any number of whole runs of
    [grade] with that image remove the container or copy anything into
    it. *)
Theorem C1_other_image_is_left_alone
        (n : nat) (folder file tag : string) (extra : option string)
        (w : world) (c : Docker.container) :
  (forall c2, In c2 (conts w) -> Docker.Id c2 = Docker.Id c -> c2 = c) ->
  In c (conts w) ->
  has_name (container_name folder file) c = true ->
  Docker.Image c <> tag ->
  In c (conts (world_of (rerun n (create_container folder file tag extra) w))) /\
  w_fs (world_of (rerun n (create_container folder file tag extra) w)) = w_fs w /\
  Forall (spares c) (trace_of (rerun n (create_container folder file tag extra) w)) /\
  (always_lists w ->
   result_of (rerun n (create_container folder file tag extra) w) = Ok tt /\
   exists runs,
     trace_of (rerun n (create_container folder file tag extra) w) = concat runs /\
     length runs = n /\
     Forall (ends_skipped (container_name folder file)) runs) /\
  (forall make_gzip gzip_encoded a k,
      image a = tag ->
      In c (conts (world_of (rerun k (grade make_gzip gzip_encoded a) w))) /\
      Forall (leaves c) (trace_of (rerun k (grade make_gzip gzip_encoded a) w))).
Proof.
  intros Huniq0 Hin0 Hn0 Hi0.
  cut (In c (conts (world_of (rerun n (create_container folder file tag extra) w))) /\
       w_fs (world_of (rerun n (create_container folder file tag extra) w)) = w_fs w /\
       Forall (spares c) (trace_of (rerun n (create_container folder file tag extra) w)) /\
       (always_lists w ->
        result_of (rerun n (create_container folder file tag extra) w) = Ok tt /\
        exists runs,
          trace_of (rerun n (create_container folder file tag extra) w) = concat runs /\
          length runs = n /\
          Forall (ends_skipped (container_name folder file)) runs)).
  { intros (H1 & H2 & H3 & H4). repeat (split; [assumption|]).
    intros make_gzip gzip_encoded a k Ea.
    assert (Hi' : Docker.Image c <> image a) by congruence.
    destruct (keeps_rerun c k _ (keeps_grade c make_gzip gzip_encoded a Hi') w
                          (conj Hin0 Huniq0)) as [[Hin' _] Hev].
    split; assumption. }
  revert Huniq0 Hin0 Hn0 Hi0.
  revert w. induction n as [|n IH]; intros w Huniq Hin Hn Hi.
  - cbn. repeat split; auto. exists []. repeat split; constructor.
  - destruct (create_container_mismatch folder file tag extra w c Huniq Hin Hn Hi)
      as (r1 & w1 & t1 & Hrun & Hfs & Hin1 & Hsub & Hfault & Hsp & Hsk).
    assert (Huniq1 : forall c2, In c2 (conts w1) -> Docker.Id c2 = Docker.Id c -> c2 = c)
      by (intros c2 Hc2; apply Huniq, Hsub, Hc2).
    specialize (IH w1 Huniq1 Hin1 Hn Hi).
    cbn [rerun]. unfold bind. rewrite Hrun.
    destruct r1 as [[]|e1].
    + destruct (rerun n (create_container folder file tag extra) w1)
        as [[r w2] t2]; cbn in *.
      destruct IH as (Hc & Hfs2 & Hsp2 & Hlist).
      split; [exact Hc|]. split; [congruence|].
      split; [apply Forall_app; auto|].
      intros Hal.
      assert (Hal1 : always_lists w1).
      { intros time. rewrite Hfault. apply Hal. }
      destruct (Hlist Hal1) as (Hr & runs & Et & Hlen & Hall).
      destruct (Hsk (Hal _)) as [_ Hskip].
      split; [exact Hr|].
      exists (t1 :: runs). cbn. repeat split; [congruence | congruence |].
      constructor; assumption.
    + cbn. split; [exact Hin1|]. split; [exact Hfs|]. split; [exact Hsp|].
      intros Hal. destruct (Hsk (Hal _)) as [Hr _]. discriminate.
Qed.

(** ** C4 *)

Lemma scan_containers_skip_prefix (name image : string)
      (pre rest : list Docker.container) (w : world) :
  (forall c0, In c0 pre -> has_name name c0 = false) ->
  scan_containers name image (pre ++ rest) w = scan_containers name image rest w.
Proof.
  induction pre as [|c0 pre IH]; intros H; [reflexivity|].
  cbn [app]. rewrite scan_containers_cons. unfold bind, visit.
  rewrite (H c0 (or_introl eq_refl)). cbn.
  rewrite IH by (intros; apply H; right; assumption).
  destruct (scan_containers name image rest w) as [[r w2] t2]. reflexivity.
Qed.

Lemma create_container_unfold (folder file image : string)
      (extra : option string) (w : world) :
  create_container folder file image extra w =
    bind (print (display_name file +++ ":"))
         (fun _ =>
            bind cli_containers
                 (fun cs =>
                    bind (scan_containers (container_name folder file) image cs)
                         (fun f =>
                            match f with
                            | Returned => ret tt
                            | GoOn =>
                                id <- cli_create_container
                                        (new_container_args image (container_name folder file)) ;;
                                print "  Extracting assignment" ;;;
                                g <- gzip_open_read file ;;
                                cli_put_archive id "/home/" g ;;;
                                match extra with
                                | Some x =>
                                    print "  Extracting extra file" ;;;
                                    g <- gzip_open_read x ;;
                                    cli_put_archive id "/home/" g
                                | None => ret tt
                                end ;;;
                                print "  Container created"
                            end))) w.
Proof. reflexivity. Qed.

(** C4.  When the listing gives the containers and the first of them
    that carries the name of the submission was built from the image of
    the run, the first thing done to the daemon after the listing is the
    forced removal of that container.  If the removal fails,
    [create_container] prints the failure and returns normally: no
    container is created, the daemon keeps its containers, and the loop
    over the files goes on with the next file. *)
Theorem C4_failed_removal_gives_up
        (folder file image : string) (extra : option string) (w : world)
        (pre post : list Docker.container) (c : Docker.container)
        (r : result unit) (d' : Docker.daemon) :
  result_of (cli_containers w) = Ok (pre ++ c :: post) ->
  (forall c0, In c0 pre -> has_name (container_name folder file) c0 = false) ->
  has_name (container_name folder file) c = true ->
  Docker.Image c = image ->
  Docker.remove_container (Docker.Id c) true (w_docker (listed w)) = (r, d') ->
  (exists t',
      trace_of (create_container folder file image extra w) =
        EPrint (display_name file +++ ":") :: EContainers (Ok tt) ::
        EPrint "  Removing old container" ::
        ERemove (Docker.Id c) true r :: t') /\
  (forall e, r = Raise e ->
     create_container folder file image extra w =
       (Ok tt, mkWorld (w_fs w) d',
        [ EPrint (display_name file +++ ":"); EContainers (Ok tt);
          EPrint "  Removing old container";
          ERemove (Docker.Id c) true (Raise e);
          EPrint (remove_failed_msg e) ]) /\
     Docker.containers d' = conts w /\
     forall rest,
       grade_files folder image extra (file :: rest) w =
         match grade_files folder image extra rest (mkWorld (w_fs w) d') with
         | (r2, w2, t2) =>
             (r2, w2,
              [ EPrint (display_name file +++ ":"); EContainers (Ok tt);
                EPrint "  Removing old container";
                ERemove (Docker.Id c) true (Raise e);
                EPrint (remove_failed_msg e) ] ++ t2)
         end).
Proof.
  intros Hlist Hpre Hn Hi Hr.
  assert (Hl : lists w /\ conts w = pre ++ c :: post).
  { unfold lists. revert Hlist. unfold cli_containers, Docker.list_containers.
    destruct (Docker.fault (w_docker w) (Docker.clock (w_docker w)) Docker.CallList);
      cbn; [discriminate|].
    intros E. inversion E. auto. }
  destruct Hl as [Hl Hcs].
  assert (Hscan : scan_containers (container_name folder file) image (conts w) (listed w) =
                  bind (visit c (container_name folder file) image)
                       (fun f => match f with
                                 | Returned => ret Returned
                                 | GoOn => scan_containers (container_name folder file) image post
                                 end) (listed w)).
  { rewrite Hcs, scan_containers_skip_prefix by exact Hpre.
    apply scan_containers_cons. }
  assert (Hvisit : visit c (container_name folder file) image (listed w) =
                   match r with
                   | Ok _ => (Ok GoOn, mkWorld (w_fs w) d',
                              [EPrint "  Removing old container";
                               ERemove (Docker.Id c) true r])
                   | Raise e => (Ok Returned, mkWorld (w_fs w) d',
                                 [EPrint "  Removing old container";
                                  ERemove (Docker.Id c) true r;
                                  EPrint (remove_failed_msg e)])
                   end).
  { unfold visit. rewrite Hn. apply String.eqb_eq in Hi. rewrite Hi. cbn [negb].
    unfold bind, print, attempt, cli_remove_container, ret. rewrite Hr.
    destruct r as [[]|e]; reflexivity. }
  assert (Hfail : forall e, r = Raise e ->
            create_container folder file image extra w =
              (Ok tt, mkWorld (w_fs w) d',
               [ EPrint (display_name file +++ ":"); EContainers (Ok tt);
                 EPrint "  Removing old container";
                 ERemove (Docker.Id c) true (Raise e);
                 EPrint (remove_failed_msg e) ])).
  { intros e ->. rewrite create_container_unfold.
    unfold bind at 1. cbn [print]. unfold bind at 1.
    rewrite (cli_containers_lists w Hl).
    unfold bind at 1. rewrite Hscan.
    unfold bind at 1. rewrite Hvisit. reflexivity. }
  split.
  - rewrite create_container_unfold.
    rewrite bind_trace. cbn [print trace_of snd app].
    rewrite bind_trace. rewrite (cli_containers_lists w Hl). cbn [trace_of snd app].
    rewrite bind_trace. rewrite Hscan.
    rewrite bind_trace. rewrite Hvisit.
    destruct r as [u|e]; cbn [trace_of snd app]; eexists; reflexivity.
  - intros e He. split; [exact (Hfail e He)|]. split.
    + subst r. apply remove_container_fail in Hr. apply Hr.
    + intros rest. cbn [grade_files]. unfold bind at 1.
      rewrite (Hfail e He). reflexivity.
Qed.

(** ** C3, C6 and C9 *)

(** C3 (amended).  The display name is the base name of the submission
    path from which one match of the pattern is deleted: everything from
    the first dot on, when something follows that dot; otherwise a final
    [_submit]; otherwise nothing.  So [alice_submit.tar.gz] gives
    [alice_submit], [bob_submit] gives [bob] and [carol.zip] gives
    [carol].  The container name is the base name of the batch folder, an
    underscore and the display name, and it is the name under which
    [create_container] creates the container, whatever the world. *)
Theorem C3_display_name (folder file : string) :
  container_name folder file = Py.basename folder +++ "_" +++ display_name file /\
  (forall image extra w ca r,
      In (ECreate ca r) (trace_of (create_container folder file image extra w)) ->
      Docker.ca_name ca = container_name folder file) /\
  (forall pre ext,
      Py.basename file = pre +++ "." +++ ext -> has_dot pre = false ->
      ext <> EmptyString -> display_name file = pre) /\
  (forall pre,
      Py.basename file = pre +++ "_submit" -> has_dot pre = false ->
      display_name file = pre) /\
  (has_dot (Py.basename file) = false ->
   (forall pre, Py.basename file <> pre +++ "_submit") ->
   (forall pre, Py.basename file <> pre +++ "_submit" +++ Py.str1 Py.LF) ->
   display_name file = Py.basename file) /\
  display_name "alice_submit.tar.gz" = "alice_submit" /\
  display_name "bob_submit" = "bob" /\
  display_name "carol.zip" = "carol".
Proof.
  split; [reflexivity|]. split; [|split; [|split; [|split]]].
  - intros image extra w ca r Hin.
    pose proof (In_trace _ _ w _ (create_container_emits folder file image extra) Hin) as H.
    cbn in H. subst ca. reflexivity.
  - intros pre ext Hb Hd Hne. unfold display_name. rewrite Hb.
    apply sub_user_dot; auto.
    pose proof (basename_no_slash file) as Hs. rewrite Hb in Hs.
    rewrite !has_slash_append in Hs.
    apply orb_false_elim in Hs. destruct Hs as [_ Hs].
    apply orb_false_elim in Hs. apply Hs.
  - intros pre Hb Hd. unfold display_name. rewrite Hb.
    apply sub_user_submit. exact Hd.
  - intros Hd H1 H2. apply sub_user_other; assumption.
  - repeat split; reflexivity.
Qed.

(** C6.  Every container a run of [grade] asks the daemon to create is
    created from the image of the run, with the network disabled, a
    memory limit of 64 MiB, a terminal, the shell as command, and under
    the container name of one of the submissions. *)
Theorem C6_new_container_settings
        (make_gzip : string -> option string -> Fs.t -> result string * Fs.t)
        (gzip_encoded : string -> bool) (a : args) (w : world)
        (ca : Docker.create_args) (r : result nat) :
  In (ECreate ca r) (trace_of (grade make_gzip gzip_encoded a w)) ->
  Docker.ca_image ca = image a /\
  Docker.ca_network_disabled ca = true /\
  Docker.Memory (Docker.ca_host_config ca) = Some (64 * 1024 * 1024)%N /\
  Docker.ca_tty ca = true /\
  Docker.ca_command ca = "/bin/bash" /\
  exists file, Docker.ca_name ca = container_name (folder a) file.
Proof.
  intros Hin.
  pose proof (In_trace _ _ w _ (grade_emits make_gzip gzip_encoded a) Hin) as H.
  cbn in H. destruct H as [file ->].
  repeat split; try reflexivity. exists file. reflexivity.
Qed.




(** ** How runs fail *)

Lemma never_aborts_by {A : Type} (U : event -> Exn -> Prop) (m : M A) :
  never_raises m -> aborts_by U m.
Proof. intros H w e E. destruct (H w) as [a Ha]. congruence. Qed.

Lemma aborts_by_bind {A B : Type} (U : event -> Exn -> Prop)
      (m : M A) (f : A -> M B) :
  aborts_by U m -> (forall a, aborts_by U (f a)) -> aborts_by U (bind m f).
Proof.
  intros Hm Hf w e. unfold bind. specialize (Hm w).
  destruct (m w) as [[[a|e1] w1] t1]; cbn in *.
  - specialize (Hf a w1). destruct (f a w1) as [[r w2] t2]; cbn in *.
    intros E. destruct (Hf e E) as (t0 & ev & -> & HU).
    exists (t1 ++ t0), ev. rewrite app_assoc. auto.
  - intros E. apply Hm. inversion E. reflexivity.
Qed.

Lemma aborts_by_weaken {A : Type} (U V : event -> Exn -> Prop) (m : M A) :
  (forall ev e, U ev e -> V ev e) -> aborts_by U m -> aborts_by V m.
Proof.
  intros H Hm w e E. destruct (Hm w e E) as (t0 & ev & Ht & HU). eauto.
Qed.

Lemma never_raises_ret {A : Type} (a : A) : never_raises (ret a).
Proof. intros w. exists a. reflexivity. Qed.

Lemma never_raises_print (l : string) : never_raises (print l).
Proof. intros w. exists tt. reflexivity. Qed.

Lemma never_raises_bind {A B : Type} (m : M A) (f : A -> M B) :
  never_raises m -> (forall a, never_raises (f a)) -> never_raises (bind m f).
Proof.
  intros Hm Hf w. unfold bind. destruct (Hm w) as [a Ha].
  destruct (m w) as [[r w1] t1]; cbn in *. subst r.
  destruct (Hf a w1) as [b Hb].
  destruct (f a w1) as [[r w2] t2]; cbn in *. eauto.
Qed.

Lemma never_raises_attempt {A : Type} (m : M A) : never_raises (attempt m).
Proof.
  intros w. unfold attempt. destruct (m w) as [[r w1] t1]. eexists. reflexivity.
Qed.

Lemma scan_names_never_raises (c : Docker.container) (name image : string)
      (names : list string) :
  never_raises (scan_names c name image names).
Proof.
  induction names as [|n rest IH]; cbn [scan_names]; [apply never_raises_ret|].
  destruct (name_matches n name); [|exact IH].
  destruct (negb (Docker.Image c =? image)%string).
  - apply never_raises_bind; [apply never_raises_print | intros; apply never_raises_ret].
  - apply never_raises_bind; [apply never_raises_print | intros _].
    apply never_raises_bind; [apply never_raises_attempt|].
    intros [u|e]; [apply never_raises_ret|].
    apply never_raises_bind; [apply never_raises_print | intros; apply never_raises_ret].
Qed.

Lemma scan_containers_never_raises (name image : string) (cs : list Docker.container) :
  never_raises (scan_containers name image cs).
Proof.
  induction cs as [|c rest IH]; cbn [scan_containers]; [apply never_raises_ret|].
  apply never_raises_bind; [apply scan_names_never_raises|].
  intros [|]; [exact IH | apply never_raises_ret].
Qed.

Lemma aborts_by_create (U : event -> Exn -> Prop) (ca : Docker.create_args) :
  (forall e, U (ECreate ca (Raise e)) e) -> aborts_by U (cli_create_container ca).
Proof.
  intros H w e. unfold cli_create_container.
  destruct (Docker.create_container ca (w_docker w)) as [r d]. cbn.
  intros ->. exists [], (ECreate ca (Raise e)). auto.
Qed.

Lemma aborts_by_put (U : event -> Exn -> Prop) (id : nat) (path data : string) :
  (forall e, U (EPut id path data (Raise e)) e) ->
  aborts_by U (cli_put_archive id path data).
Proof.
  intros H w e. unfold cli_put_archive.
  destruct (Docker.put_archive id path data (w_docker w)) as [r d]. cbn.
  intros ->. exists [], (EPut id path data (Raise e)). auto.
Qed.

Lemma aborts_by_gzip_read (U : event -> Exn -> Prop) (p : string) :
  (forall e, U (EGzipRead p (Raise e)) e) -> aborts_by U (gzip_open_read p).
Proof.
  intros H w e. unfold gzip_open_read. cbn.
  intros ->. exists [], (EGzipRead p (Raise e)). auto.
Qed.

Lemma aborts_by_os_remove (U : event -> Exn -> Prop) (p : string) :
  (forall e, U (EOsRemove p (Raise e)) e) -> aborts_by U (os_remove p).
Proof.
  intros H w e. unfold os_remove.
  destruct (Fs.remove (w_fs w) p) as [fs'|e']; cbn; [discriminate|].
  intros E. inversion E; subst. exists [], (EOsRemove p (Raise e)). auto.
Qed.

Lemma aborts_by_walk (U : event -> Exn -> Prop) (top : string) :
  U (EWalk top false) (Exception "StopIteration" EmptyString) ->
  aborts_by U (next_os_walk top).
Proof.
  intros H w e. unfold next_os_walk.
  destruct (Fs.walk_first (w_fs w) top); cbn; [discriminate|].
  intros E. inversion E; subst. exists [], (EWalk top false). auto.
Qed.

Lemma aborts_by_containers (U : event -> Exn -> Prop) :
  (forall e, U (EContainers (Raise e)) e) -> aborts_by U cli_containers.
Proof.
  intros H w e. unfold cli_containers, Docker.list_containers.
  destruct (Docker.fault (w_docker w) (Docker.clock (w_docker w)) Docker.CallList)
    as [e'|]; cbn; [|discriminate].
  intros E. inversion E; subst. exists [], (EContainers (Raise e)). auto.
Qed.

(** [create_container] raises only when the listing of the containers,
    the creation of the container, the reading of an archive or the copy
    into the container has failed; a mismatch and a failed removal make
    it return. *)
Lemma create_container_aborts (folder file image : string) (extra : option string) :
  aborts_by submission_failure (create_container folder file image extra).
Proof.
  unfold create_container.
  apply aborts_by_bind; [apply never_aborts_by, never_raises_print | intros _].
  apply aborts_by_bind; [apply aborts_by_containers; reflexivity|].
  intros cs.
  apply aborts_by_bind; [apply never_aborts_by, scan_containers_never_raises|].
  intros [|]; [|apply never_aborts_by, never_raises_ret].
  apply aborts_by_bind; [apply aborts_by_create; reflexivity | intros id].
  apply aborts_by_bind; [apply never_aborts_by, never_raises_print | intros _].
  apply aborts_by_bind; [apply aborts_by_gzip_read; reflexivity | intros g].
  apply aborts_by_bind; [apply aborts_by_put; reflexivity | intros _].
  apply aborts_by_bind; [|intros _; apply never_aborts_by, never_raises_print].
  destruct extra as [x|]; [|apply never_aborts_by, never_raises_ret].
  apply aborts_by_bind; [apply never_aborts_by, never_raises_print | intros _].
  apply aborts_by_bind; [apply aborts_by_gzip_read; reflexivity | intros g'].
  apply aborts_by_put; reflexivity.
Qed.

Lemma submission_failure_uncaught (ev : event) (e : Exn) :
  submission_failure ev e -> uncaught_with ev e.
Proof.
  unfold uncaught_with.
  destruct ev as [| | | ? [] | [] | | ? [] | ? ? ? [] | ]; cbn; intros H;
    try contradiction; congruence.
Qed.

Section GradeAborts.

Variable make_gzip : string -> option string -> Fs.t -> result string * Fs.t.
Variable gzip_encoded : string -> bool.

Lemma aborts_by_make_gzip (src : string) (nm : option string) :
  aborts_by uncaught_with (call_make_gzip make_gzip src nm).
Proof.
  intros w e. unfold call_make_gzip.
  destruct (make_gzip src nm (w_fs w)) as [r fs']. cbn.
  intros ->. exists [], (EMakeGzip src nm (Raise e)). split; reflexivity.
Qed.

Lemma create_container_uncaught (folder file image : string) (x : option string) :
  aborts_by uncaught_with (create_container folder file image x).
Proof.
  eapply aborts_by_weaken;
    [apply submission_failure_uncaught | apply create_container_aborts].
Qed.

Lemma grade_folders_aborts (dirpath image : string) (x : option string)
      (dirs cleanup : list string) :
  aborts_by uncaught_with (grade_folders make_gzip dirpath image x dirs cleanup).
Proof.
  revert cleanup; induction dirs as [|d rest IH]; intros cleanup; cbn [grade_folders];
    [apply never_aborts_by, never_raises_ret|].
  apply aborts_by_bind; [apply aborts_by_make_gzip | intros p].
  apply aborts_by_bind; [apply create_container_uncaught | intros _; apply IH].
Qed.

Lemma grade_files_aborts (dirpath image : string) (x : option string)
      (files : list string) :
  aborts_by uncaught_with (grade_files dirpath image x files).
Proof.
  induction files as [|f rest IH]; cbn [grade_files];
    [apply never_aborts_by, never_raises_ret|].
  apply aborts_by_bind; [apply create_container_uncaught | intros _; exact IH].
Qed.

Lemma remove_all_aborts (cleanup : list string) :
  aborts_by uncaught_with (remove_all cleanup).
Proof.
  induction cleanup as [|p rest IH]; cbn [remove_all];
    [apply never_aborts_by, never_raises_ret|].
  apply aborts_by_bind; [|intros _; exact IH].
  apply aborts_by_os_remove. reflexivity.
Qed.

Lemma grade_batch_aborts (a : args) (x : option string) (cleanup : list string) :
  aborts_by uncaught_with (grade_batch make_gzip a x cleanup).
Proof.
  unfold grade_batch, scan.
  apply aborts_by_bind.
  { apply aborts_by_bind; [apply aborts_by_walk; reflexivity|].
    intros [[dp ds] fs]. apply never_aborts_by, never_raises_ret. }
  intros [[dp ds] fs].
  apply aborts_by_bind; [apply grade_folders_aborts | intros cl].
  apply aborts_by_bind; [apply grade_files_aborts | intros _].
  apply aborts_by_bind; [apply never_aborts_by, never_raises_print | intros _].
  apply remove_all_aborts.
Qed.

Lemma grade_aborts (a : args) :
  aborts_by uncaught_with (grade make_gzip gzip_encoded a).
Proof.
  assert (Hpure : forall (p : string) (f : Fs.t -> string -> bool),
             never_raises (fun w : world => (Ok (f (w_fs w) p), w, @nil event))).
  { intros p f w. eexists. reflexivity. }
  unfold grade.
  apply aborts_by_bind; [apply never_aborts_by, (Hpure _ Fs.isdir) | intros isd].
  destruct (negb isd); [apply never_aborts_by, never_raises_print|].
  destruct (extra a) as [e|]; [|apply grade_batch_aborts].
  apply aborts_by_bind; [apply never_aborts_by, (Hpure _ Fs.isfile) | intros isf].
  destruct (negb isf); [apply never_aborts_by, never_raises_print|].
  apply aborts_by_bind; [apply never_aborts_by, (Hpure _ Fs.isdir) | intros d].
  destruct (d || negb (gzip_encoded e))%bool; [|apply grade_batch_aborts].
  apply aborts_by_bind; [apply never_aborts_by, never_raises_print | intros _].
  apply aborts_by_bind; [apply aborts_by_make_gzip | intros p].
  apply grade_batch_aborts.
Qed.

End GradeAborts.

(** ** The file system *)

Lemma assoc_remove_assoc (x y : string) (es : list (string * Fs.node)) :
  Fs.assoc y (Fs.remove_assoc x es) =
    if String.eqb y x then None else Fs.assoc y es.
Proof.
  unfold Fs.remove_assoc.
  induction es as [|[z n] es IH]; cbn.
  - destruct (String.eqb y x); reflexivity.
  - destruct (String.eqb x z) eqn:Exz; cbn.
    + apply String.eqb_eq in Exz. subst z. rewrite IH.
      destruct (String.eqb y x); reflexivity.
    + rewrite IH. destruct (String.eqb y z) eqn:Eyz; [|reflexivity].
      apply String.eqb_eq in Eyz. subst z.
      rewrite String.eqb_sym, Exz. reflexivity.
Qed.

Lemma assoc_set_assoc (x y : string) (m : Fs.node) (es : list (string * Fs.node)) :
  Fs.assoc x es <> None ->
  Fs.assoc y (Fs.set_assoc x m es) =
    if String.eqb y x then Some m else Fs.assoc y es.
Proof.
  induction es as [|[z n] es IH]; cbn; [congruence|].
  destruct (String.eqb x z) eqn:Exz; cbn.
  - apply String.eqb_eq in Exz. subst z. intros _.
    destruct (String.eqb y x); reflexivity.
  - intros H. rewrite (IH H).
    destruct (String.eqb y z) eqn:Eyz; [|reflexivity].
    apply String.eqb_eq in Eyz. subst z.
    rewrite String.eqb_sym, Exz. reflexivity.
Qed.

(** The equations of [remove_path]. *)
Lemma remove_path_last (x : string) (es : list (string * Fs.node)) :
  Fs.remove_path (Fs.Dir es) [x] =
    match Fs.assoc x es with
    | Some (Fs.File _) => Some (Fs.Dir (Fs.remove_assoc x es))
    | _ => None
    end.
Proof. reflexivity. Qed.

Lemma remove_path_step (x y : string) (rest : list string)
      (es : list (string * Fs.node)) :
  Fs.remove_path (Fs.Dir es) (x :: y :: rest) =
    match Fs.assoc x es with
    | Some m =>
        match Fs.remove_path m (y :: rest) with
        | Some m' => Some (Fs.Dir (Fs.set_assoc x m' es))
        | None => None
        end
    | None => None
    end.
Proof. reflexivity. Qed.

Lemma remove_path_file (c : Fs.content) (q : list string) :
  Fs.remove_path (Fs.File c) q = None.
Proof. destruct q as [|x [|y q]]; reflexivity. Qed.

(** What is deleted was a regular file, and is gone. *)
Lemma remove_path_was_file (q : list string) :
  forall n n', Fs.remove_path n q = Some n' ->
               exists c, Fs.lookup_path n q = Some (Fs.File c).
Proof.
  induction q as [|x q IH]; intros n n' H.
  - destruct n; discriminate.
  - destruct n as [c|es]; [rewrite remove_path_file in H; discriminate|].
    destruct q as [|y q].
    + rewrite remove_path_last in H. cbn.
      destruct (Fs.assoc x es) as [[c|?]|]; try discriminate. eauto.
    + rewrite remove_path_step in H. cbn [Fs.lookup_path].
      destruct (Fs.assoc x es) as [m|]; [|discriminate].
      destruct (Fs.remove_path m (y :: q)) as [m'|] eqn:Hm; [|discriminate].
      exact (IH m m' Hm).
Qed.

Lemma remove_path_gone (q : list string) :
  forall n n', Fs.remove_path n q = Some n' -> Fs.lookup_path n' q = None.
Proof.
  induction q as [|x q IH]; intros n n' H.
  - destruct n; discriminate.
  - destruct n as [c|es]; [rewrite remove_path_file in H; discriminate|].
    destruct q as [|y q].
    + rewrite remove_path_last in H.
      destruct (Fs.assoc x es) as [[c|?]|]; try discriminate.
      inversion H; subst n'. cbn.
      rewrite assoc_remove_assoc, String.eqb_refl. reflexivity.
    + rewrite remove_path_step in H.
      destruct (Fs.assoc x es) as [m|] eqn:Hx; [|discriminate].
      destruct (Fs.remove_path m (y :: q)) as [m'|] eqn:Hm; [|discriminate].
      inversion H; subst n'. cbn [Fs.lookup_path].
      rewrite assoc_set_assoc by congruence. rewrite String.eqb_refl.
      exact (IH m m' Hm).
Qed.

Lemma remove_path_possible (q : list string) :
  forall es c, Fs.lookup_path (Fs.Dir es) q = Some (Fs.File c) ->
               exists n', Fs.remove_path (Fs.Dir es) q = Some n'.
Proof.
  induction q as [|x q IH]; intros es c H; [discriminate|].
  destruct q as [|y q].
  - rewrite remove_path_last. cbn in H.
    destruct (Fs.assoc x es) as [m|]; [|discriminate].
    inversion H; subst m. eauto.
  - rewrite remove_path_step. cbn [Fs.lookup_path] in H.
    destruct (Fs.assoc x es) as [m|]; [|discriminate].
    destruct m as [c'|es']; [discriminate|].
    destruct (IH es' c H) as [n' Hn']. rewrite Hn'. eauto.
Qed.

Lemma reaches_less_refl (n : Fs.node) (s : list string) : reaches_less n n s.
Proof.
  unfold reaches_less. destruct (Fs.lookup_path n s) as [[c|es]|]; eauto.
Qed.

Lemma remove_path_reaches_less (q : list string) :
  forall n n' s, Fs.remove_path n q = Some n' -> reaches_less n' n s.
Proof.
  induction q as [|x q IH]; intros n n' s H.
  - destruct n; discriminate.
  - destruct n as [c|es]; [rewrite remove_path_file in H; discriminate|].
    destruct q as [|y q].
    + rewrite remove_path_last in H.
      destruct (Fs.assoc x es) as [[c|?]|] eqn:Hx; try discriminate.
      inversion H; subst n'. unfold reaches_less.
      destruct s as [|z s]; cbn [Fs.lookup_path].
      * eexists. split; [reflexivity|]. intros v.
        rewrite assoc_remove_assoc. destruct (String.eqb v x); congruence.
      * rewrite assoc_remove_assoc.
        destruct (String.eqb z x); [exact I|].
        destruct (Fs.assoc z es) as [m|]; [|exact I].
        apply reaches_less_refl.
    + rewrite remove_path_step in H.
      destruct (Fs.assoc x es) as [m|] eqn:Hx; [|discriminate].
      destruct (Fs.remove_path m (y :: q)) as [m'|] eqn:Hm; [|discriminate].
      inversion H; subst n'. unfold reaches_less.
      destruct s as [|z s]; cbn [Fs.lookup_path].
      * eexists. split; [reflexivity|]. intros v.
        rewrite assoc_set_assoc by congruence.
        destruct (String.eqb v x) eqn:E; [|auto].
        apply String.eqb_eq in E. subst v. congruence.
      * rewrite assoc_set_assoc by congruence.
        destruct (String.eqb z x) eqn:E.
        -- apply String.eqb_eq in E. subst z. rewrite Hx.
           exact (IH m m' s Hm).
        -- destruct (Fs.assoc z es) as [m0|]; [|exact I].
           apply reaches_less_refl.
Qed.

(** A path that resolves after a deletion resolved before it, to the same
    place. *)
Lemma walk_comps_before (rt rt' : Fs.node) (comps : list string) :
  (forall s, reaches_less rt' rt s) ->
  forall stack q,
    Fs.walk_comps rt' stack comps = Some q -> Fs.walk_comps rt stack comps = Some q.
Proof.
  intros Hless. induction comps as [|c rest IH]; intros stack q H; [exact H|].
  cbn [Fs.walk_comps] in *.
  specialize (Hless (rev stack)). unfold reaches_less in Hless.
  destruct (Fs.lookup_path rt' (rev stack)) as [[f|es']|]; try discriminate.
  destruct Hless as (es & -> & Hes).
  destruct (Fs.is_cur c); [exact (IH _ _ H)|].
  destruct (String.eqb c ".."); [exact (IH _ _ H)|].
  destruct (Fs.assoc c es') as [m'|] eqn:Hc; [|discriminate].
  destruct (Fs.assoc c es) as [m|] eqn:Hc0.
  - exact (IH _ _ H).
  - exfalso. apply (Hes c); congruence.
Qed.

Lemma remove_inv (fs fs' : Fs.t) (p : string) :
  Fs.remove fs p = Ok fs' ->
  exists q rt', Fs.realpath fs p = Some q /\
                Fs.remove_path (Fs.root fs) q = Some rt' /\
                fs' = Fs.mk rt' (Fs.cwd fs).
Proof.
  unfold Fs.remove. destruct (Fs.realpath fs p) as [q|]; [|discriminate].
  destruct (Fs.remove_path (Fs.root fs) q) as [rt'|] eqn:Hrm; [|discriminate].
  intros H. inversion H. exists q, rt'. repeat split. exact Hrm.
Qed.

Lemma realpath_before (fs : Fs.t) (rt' : Fs.node) (q0 : list string) (p : string)
      (q : list string) :
  Fs.remove_path (Fs.root fs) q0 = Some rt' ->
  Fs.realpath (Fs.mk rt' (Fs.cwd fs)) p = Some q -> Fs.realpath fs p = Some q.
Proof.
  intros Hrm. unfold Fs.realpath. cbn [Fs.root Fs.cwd].
  destruct (String.eqb p EmptyString); [discriminate|].
  apply walk_comps_before. intros s. exact (remove_path_reaches_less q0 _ _ s Hrm).
Qed.

(** What can be deleted after a deletion could be deleted before it. *)
Lemma removable_before (fs fs1 : Fs.t) (p p' : string) :
  Fs.remove fs p = Ok fs1 -> removable fs1 p' -> removable fs p'.
Proof.
  intros H [fs2 H2].
  destruct (remove_inv _ _ _ H) as (q & rt1 & Hq & Hrm & ->).
  destruct (remove_inv _ _ _ H2) as (q' & rt2 & Hq' & Hrm' & _).
  cbn [Fs.root Fs.cwd] in *.
  apply (realpath_before fs rt1 q p' q' Hrm) in Hq'.
  destruct (remove_path_was_file _ _ _ Hrm') as [c Hc].
  pose proof (remove_path_reaches_less q _ _ q' Hrm) as Hless.
  unfold reaches_less in Hless. rewrite Hc in Hless.
  unfold removable, Fs.remove. rewrite Hq'.
  destruct (Fs.root fs) as [c0|es] eqn:Hroot.
  - rewrite remove_path_file in Hrm. discriminate.
  - destruct (remove_path_possible q' es c Hless) as [n' ->]. eauto.
Qed.

(** A file that has been deleted cannot be deleted again. *)
Lemma not_removable_twice (fs fs1 : Fs.t) (p : string) :
  Fs.remove fs p = Ok fs1 -> ~ removable fs1 p.
Proof.
  intros H [fs2 H2].
  destruct (remove_inv _ _ _ H) as (q & rt1 & Hq & Hrm & ->).
  destruct (remove_inv _ _ _ H2) as (q' & rt2 & Hq' & Hrm' & _).
  cbn [Fs.root Fs.cwd] in *.
  apply (realpath_before fs rt1 q p q' Hrm) in Hq'.
  assert (q' = q) by congruence. subst q'.
  destruct (remove_path_was_file _ _ _ Hrm') as [c Hc].
  rewrite (remove_path_gone _ _ _ Hrm) in Hc. discriminate.
Qed.

Lemma remove_all_removable (l : list string) :
  forall w, result_of (remove_all l w) = Ok tt ->
            forall p, In p l -> removable (w_fs w) p.
Proof.
  induction l as [|q rest IH]; intros w H p Hin; [destruct Hin|].
  cbn [remove_all] in H. unfold bind, os_remove in H.
  destruct (Fs.remove (w_fs w) q) as [fs'|e] eqn:Hq; [|discriminate].
  destruct Hin as [->|Hin]; [exists fs'; exact Hq|].
  apply (removable_before _ _ _ _ Hq).
  apply (IH (mkWorld fs' (w_docker w))); [|exact Hin].
  destruct (remove_all rest (mkWorld fs' (w_docker w))) as [[r w2] t2]. exact H.
Qed.

(** The last loop runs to its end only on a list without repetition. *)
Lemma remove_all_NoDup (l : list string) :
  forall w, result_of (remove_all l w) = Ok tt -> NoDup l.
Proof.
  induction l as [|q rest IH]; intros w H; [constructor|].
  pose proof H as H0.
  cbn [remove_all] in H. unfold bind, os_remove in H.
  destruct (Fs.remove (w_fs w) q) as [fs'|e] eqn:Hq; [|discriminate].
  assert (Hrest : result_of (remove_all rest (mkWorld fs' (w_docker w))) = Ok tt).
  { destruct (remove_all rest (mkWorld fs' (w_docker w))) as [[r w2] t2]. exact H. }
  constructor; [|exact (IH _ Hrest)].
  intros Hin. apply (not_removable_twice _ _ _ Hq).
  exact (remove_all_removable rest _ Hrest q Hin).
Qed.

(** ** The shape of a run *)

Lemma gzip_outputs_app (t1 t2 : list event) :
  gzip_outputs (t1 ++ t2) = gzip_outputs t1 ++ gzip_outputs t2.
Proof.
  induction t1 as [|ev t1 IH]; [reflexivity|].
  destruct ev as [| ? ? [p|e] | | | | | | |]; cbn; rewrite ?IH; reflexivity.
Qed.

Lemma gzip_outputs_quiet (t : list event) : Forall quiet t -> gzip_outputs t = [].
Proof.
  induction 1 as [|ev t Hq _ IH]; [reflexivity|].
  destruct ev; cbn in *; try contradiction; exact IH.
Qed.

Lemma quiet_not_os_remove (t : list event) :
  Forall quiet t -> Forall (fun ev => is_os_remove ev = false) t.
Proof.
  apply Forall_impl. intros []; cbn; intros H; try contradiction; reflexivity.
Qed.

Lemma create_container_quiet (folder file image : string) (extra : option string) :
  emits quiet (create_container folder file image extra).
Proof.
  eapply emits_weaken; [|apply create_container_emits].
  intros []; cbn; auto.
Qed.

Lemma remove_all_outcome (l : list string) (w : world) :
  cleanup_outcome l (result_of (remove_all l w)) (trace_of (remove_all l w)).
Proof.
  revert w; induction l as [|p rest IH]; intros w.
  - left. repeat split. constructor.
  - pose proof (remove_all_NoDup (p :: rest) w) as Hnd.
    cbn [remove_all] in *. unfold bind, os_remove in *.
    destruct (Fs.remove (w_fs w) p) as [fs'|e].
    + specialize (IH (mkWorld fs' (w_docker w))).
      destruct (remove_all rest (mkWorld fs' (w_docker w))) as [[r w2] t2]; cbn in *.
      destruct IH as [(Hr & Ht & _) | (l1 & q & l2 & e & Hl & Hr & Ht)].
      * left. subst. repeat split. apply Hnd. reflexivity.
      * right. exists (p :: l1), q, l2, e. subst. repeat split.
    + right. exists [], p, rest, e. repeat split.
Qed.

Section GradeShape.

Variable make_gzip : string -> option string -> Fs.t -> result string * Fs.t.
Variable gzip_encoded : string -> bool.

(** The loop over the directories deletes nothing and hands on the list
    it was given, longer by the archives [make_gzip] has returned. *)
Lemma grade_folders_outcome (dirpath image : string) (x : option string)
      (dirs cleanup : list string) (w : world) :
  Forall (fun ev => is_os_remove ev = false)
         (trace_of (grade_folders make_gzip dirpath image x dirs cleanup w)) /\
  forall cl,
    result_of (grade_folders make_gzip dirpath image x dirs cleanup w) = Ok cl ->
    cl = cleanup
         ++ gzip_outputs (trace_of (grade_folders make_gzip dirpath image x dirs cleanup w)).
Proof.
  revert cleanup w; induction dirs as [|d rest IH]; intros cleanup w.
  - cbn. split; [constructor|]. intros cl E. inversion E. now rewrite app_nil_r.
  - cbn [grade_folders]. unfold bind, call_make_gzip.
    destruct (make_gzip d (Some (Re.sub_empty Re.re_submit (Py.basename d))) (w_fs w))
      as [[p|e] fs'].
    2:{ cbn. split; [repeat constructor | discriminate]. }
    pose proof (create_container_quiet dirpath p image x (mkWorld fs' (w_docker w)))
      as Hq.
    destruct (create_container dirpath p image x (mkWorld fs' (w_docker w)))
      as [[[u|e] w1] t1]; unfold trace_of in Hq; cbn [snd] in Hq.
    2:{ cbn. split; [|discriminate].
        constructor; [reflexivity|]. apply quiet_not_os_remove, Hq. }
    specialize (IH (cleanup ++ [p]) w1).
    destruct (grade_folders make_gzip dirpath image x rest (cleanup ++ [p]) w1)
      as [[r w2] t2]; cbn in *.
    destruct IH as [Hno Hcl]. split.
    + constructor; [reflexivity|].
      apply Forall_app. split; [apply quiet_not_os_remove, Hq | exact Hno].
    + intros cl E. rewrite (Hcl cl E).
      rewrite gzip_outputs_app, (gzip_outputs_quiet t1 Hq).
      cbn. rewrite <- app_assoc. reflexivity.
Qed.

Lemma grade_files_quiet (dirpath image : string) (x : option string)
      (files : list string) :
  emits quiet (grade_files dirpath image x files).
Proof.
  induction files as [|f rest IH]; cbn [grade_files]; [apply emits_ret|].
  apply emits_bind; [apply create_container_quiet | intros _; exact IH].
Qed.

Lemma grade_batch_outcome (a : args) (x : option string) (cleanup : list string)
      (w : world) :
  batch_outcome cleanup (result_of (grade_batch make_gzip a x cleanup w))
                (trace_of (grade_batch make_gzip a x cleanup w)).
Proof.
  unfold grade_batch, scan. unfold bind, next_os_walk.
  destruct (Fs.walk_first (w_fs w) (folder a)) as [[[dp ds] fs]|].
  2:{ cbn. exists [EWalk (folder a) false], []. split; [reflexivity|].
      split; [repeat constructor|]. left. split; eauto. }
  cbn [ret app].
  destruct (grade_folders_outcome dp (image a) x (map (Py.join dp) ds) cleanup w)
    as [Hno Hcl].
  destruct (grade_folders make_gzip dp (image a) x (map (Py.join dp) ds) cleanup w)
    as [[[cl|e] w1] t1]; cbn in Hno, Hcl.
  2:{ cbn. exists (EWalk (folder a) true :: t1), []. split; [now rewrite app_nil_r|].
      split; [constructor; [reflexivity | exact Hno]|]. left. split; eauto. }
  specialize (Hcl cl eq_refl).
  pose proof (grade_files_quiet dp (image a) x (map (Py.join dp) fs) w1) as Hq.
  destruct (grade_files dp (image a) x (map (Py.join dp) fs) w1)
    as [[[u|e] w2] t2]; unfold trace_of in Hq; cbn [snd] in Hq.
  2:{ cbn. exists (EWalk (folder a) true :: t1 ++ t2), [].
      split; [now rewrite app_nil_r|].
      split; [|left; split; eauto].
      constructor; [reflexivity|]. apply Forall_app.
      split; [exact Hno | apply quiet_not_os_remove, Hq]. }
  cbn [print].
  pose proof (remove_all_outcome cl w2) as Hrm.
  destruct (remove_all cl w2) as [[r w3] t3]; cbn in Hrm. cbn.
  exists (EWalk (folder a) true :: t1 ++ t2),
    (EPrint "Cleaning up temporary files" :: t3).
  split; [cbn [app]; now rewrite <- app_assoc|].
  split.
  - constructor; [reflexivity|]. apply Forall_app.
    split; [exact Hno | apply quiet_not_os_remove, Hq].
  - right. exists t3. split; [reflexivity|].
    cbn [gzip_outputs]. rewrite gzip_outputs_app, (gzip_outputs_quiet t2 Hq), app_nil_r.
    rewrite <- Hcl. exact Hrm.
Qed.

(** A run of [grade] ends at one of the two checks of its arguments,
    with one line and nothing else, or goes through the batch. *)
Lemma grade_outcome (a : args) (w : world) :
  (Fs.isdir (w_fs w) (folder a) = false /\
   grade make_gzip gzip_encoded a w =
     (Ok tt, w, [EPrint "Must provide a valid folder of assignments"])) \/
  (exists e, extra a = Some e /\ Fs.isfile (w_fs w) e = false /\
   grade make_gzip gzip_encoded a w =
     (Ok tt, w, [EPrint "Extra argument must be a valid file."])) \/
  (Fs.isdir (w_fs w) (folder a) = true /\
   batch_outcome [] (result_of (grade make_gzip gzip_encoded a w))
                 (trace_of (grade make_gzip gzip_encoded a w))).
Proof.
  unfold grade. unfold bind. cbn [os_path_isdir os_path_isfile].
  destruct (Fs.isdir (w_fs w) (folder a)) eqn:Hd; cbn [negb].
  2:{ left. split; reflexivity. }
  right.
  destruct (extra a) as [e|] eqn:He.
  2:{ right. split; [reflexivity|].
      pose proof (grade_batch_outcome a None [] w) as H.
      destruct (grade_batch make_gzip a None [] w) as [[r w1] t1]. exact H. }
  destruct (Fs.isfile (w_fs w) e) eqn:Hf; cbn [negb].
  2:{ left. exists e. repeat split. exact Hf. }
  right. split; [reflexivity|].
  destruct (Fs.isdir (w_fs w) e || negb (gzip_encoded e))%bool.
  2:{ pose proof (grade_batch_outcome a (Some e) [] w) as H.
      destruct (grade_batch make_gzip a (Some e) [] w) as [[r w1] t1]. exact H. }
  cbn [print]. unfold call_make_gzip.
  destruct (make_gzip e None (w_fs w)) as [[p|ex] fs'].
  2:{ cbn. exists [EPrint "Creating temporary gzip file for extra";
                   EMakeGzip e None (Raise ex)], [].
      split; [reflexivity|]. split; [repeat constructor|]. left. split; eauto. }
  pose proof (grade_batch_outcome a (Some p) [p] (mkWorld fs' (w_docker w))) as H.
  destruct (grade_batch make_gzip a (Some p) [p] (mkWorld fs' (w_docker w)))
    as [[r w1] t1]; cbn in H. cbn.
  destruct H as (t1' & t2' & Ht & Hno & Hend).
  exists (EPrint "Creating temporary gzip file for extra"
          :: EMakeGzip e None (Ok p) :: t1'), t2'.
  split; [subst t1; reflexivity|].
  split; [repeat (constructor; [reflexivity|]); exact Hno|].
  exact Hend.
Qed.

End GradeShape.

(** ** C2 and C10 *)

Lemma gzip_outputs_In (t : list event) (p : string) :
  In p (gzip_outputs t) ->
  exists src nm u1 u2, t = u1 ++ EMakeGzip src nm (Ok p) :: u2.
Proof.
  induction t as [|ev t IH]; [intros []|].
  assert (Hrest : In p (gzip_outputs t) ->
                  exists src nm u1 u2, ev :: t = u1 ++ EMakeGzip src nm (Ok p) :: u2).
  { intros H. destruct (IH H) as (src & nm & u1 & u2 & ->).
    exists src, nm, (ev :: u1), u2. reflexivity. }
  destruct ev as [| src nm [q|e] | | | | | | |]; cbn [gzip_outputs]; try exact Hrest.
  intros [->|H]; [|exact (Hrest H)].
  exists src, nm, [], t. reflexivity.
Qed.

Lemma cleanup_outcome_In (l : list string) (r : result unit) (t : list event)
      (p : string) (rp : result unit) :
  cleanup_outcome l r t -> In (EOsRemove p rp) t -> In p l.
Proof.
  intros [(_ & -> & _) | (l1 & q & l2 & e & -> & _ & ->)] Hin.
  - unfold removals in Hin. apply in_map_iff in Hin.
    destruct Hin as (x & E & Hx). inversion E; subst. exact Hx.
  - apply in_app_iff in Hin. apply in_app_iff. destruct Hin as [Hin|[E|[]]].
    + left. unfold removals in Hin. apply in_map_iff in Hin.
      destruct Hin as (x & E & Hx). inversion E; subst. exact Hx.
    + right. left. inversion E. reflexivity.
Qed.

Lemma not_os_remove_In (t : list event) (p : string) (r : result unit) :
  Forall (fun ev => is_os_remove ev = false) t -> ~ In (EOsRemove p r) t.
Proof.
  intros H Hin. apply (proj1 (Forall_forall _ _) H) in Hin. discriminate.
Qed.

(** *** A failure ends the run *)

Lemma fails_fast_ret {A : Type} (a : A) : fails_fast (ret a).
Proof. intros w. constructor. Qed.

Lemma fails_fast_bind {A B : Type} (m : M A) (f : A -> M B) :
  fails_fast m -> (forall a, fails_fast (f a)) -> fails_fast (bind m f).
Proof.
  intros Hm Hf w. unfold bind. specialize (Hm w).
  destruct (m w) as [[[a|e] w1] t1]; cbn in *; [|exact Hm].
  specialize (Hf a w1). destruct (f a w1) as [[[b|e] w2] t2]; cbn in *.
  - apply Forall_app. auto.
  - destruct Hf as (t0 & ev & -> & H0 & Hev).
    exists (t1 ++ t0), ev. rewrite app_assoc. split; [reflexivity|].
    split; [apply Forall_app; auto | exact Hev].
Qed.

(** A call that leaves one event, which tells whether it has failed. *)
Lemma fails_fast_call {A : Type} (m : M A) :
  (forall w, exists ev,
      trace_of (m w) = [ev] /\
      uncaught ev = match result_of (m w) with
                    | Ok _ => None
                    | Raise e => Some e
                    end) ->
  fails_fast m.
Proof.
  intros H w. destruct (H w) as (ev & Et & Hev). rewrite Et.
  destruct (result_of (m w)) as [a|e].
  - repeat constructor. exact Hev.
  - exists [], ev. repeat split; [constructor | exact Hev].
Qed.

(** What cannot raise and leaves no failed call. *)
Lemma fails_fast_quiet {A : Type} (P : event -> Prop) (m : M A) :
  never_raises m -> emits P m -> (forall ev, P ev -> uncaught ev = None) ->
  fails_fast m.
Proof.
  intros Hn He HP w. destruct (Hn w) as [a Ha]. rewrite Ha. cbn.
  eapply Forall_impl; [exact HP | apply He].
Qed.

Lemma fails_fast_print (l : string) : fails_fast (print l).
Proof. intros w. repeat constructor. Qed.

Lemma fails_fast_containers : fails_fast cli_containers.
Proof.
  apply fails_fast_call. intros w. unfold cli_containers, Docker.list_containers.
  destruct (Docker.fault (w_docker w) (Docker.clock (w_docker w)) Docker.CallList);
    eexists; split; reflexivity.
Qed.

Lemma fails_fast_create (ca : Docker.create_args) : fails_fast (cli_create_container ca).
Proof.
  apply fails_fast_call. intros w. unfold cli_create_container.
  destruct (Docker.create_container ca (w_docker w)) as [[id|e] d];
    eexists; split; reflexivity.
Qed.

Lemma fails_fast_put (id : nat) (path data : string) :
  fails_fast (cli_put_archive id path data).
Proof.
  apply fails_fast_call. intros w. unfold cli_put_archive.
  destruct (Docker.put_archive id path data (w_docker w)) as [[u|e] d];
    eexists; split; reflexivity.
Qed.

Lemma fails_fast_gzip_read (p : string) : fails_fast (gzip_open_read p).
Proof.
  apply fails_fast_call. intros w. unfold gzip_open_read, trace_of, result_of. cbn.
  destruct (Fs.gzip_read (w_fs w) p) as [d|e]; eexists; split; reflexivity.
Qed.

Lemma fails_fast_os_remove (p : string) : fails_fast (os_remove p).
Proof.
  apply fails_fast_call. intros w. unfold os_remove.
  destruct (Fs.remove (w_fs w) p) as [fs'|e]; eexists; split; reflexivity.
Qed.

Lemma fails_fast_walk (top : string) : fails_fast (next_os_walk top).
Proof.
  apply fails_fast_call. intros w. unfold next_os_walk.
  destruct (Fs.walk_first (w_fs w) top); eexists; split; reflexivity.
Qed.

Lemma lookup_event_caught (ev : event) : lookup_event ev -> uncaught ev = None.
Proof. destruct ev; cbn; intros H; try contradiction; reflexivity. Qed.

(** In [create_container], a call that fails ends the function, but
    for the removal of the old container. *)
Lemma create_container_fails_fast (folder file image : string) (extra : option string) :
  fails_fast (create_container folder file image extra).
Proof.
  unfold create_container.
  apply fails_fast_bind; [apply fails_fast_print | intros _].
  apply fails_fast_bind; [apply fails_fast_containers | intros cs].
  apply fails_fast_bind.
  { apply (fails_fast_quiet lookup_event);
      [apply scan_containers_never_raises | apply scan_containers_emits
       | apply lookup_event_caught]. }
  intros [|]; [|apply fails_fast_ret].
  apply fails_fast_bind; [apply fails_fast_create | intros id].
  apply fails_fast_bind; [apply fails_fast_print | intros _].
  apply fails_fast_bind; [apply fails_fast_gzip_read | intros g].
  apply fails_fast_bind; [apply fails_fast_put | intros _].
  apply fails_fast_bind; [|intros _; apply fails_fast_print].
  destruct extra as [x|]; [|apply fails_fast_ret].
  apply fails_fast_bind; [apply fails_fast_print | intros _].
  apply fails_fast_bind; [apply fails_fast_gzip_read | intros g'].
  apply fails_fast_put.
Qed.

Lemma last_or_nil {A : Type} (l : list A) :
  l = [] \/ exists l' a, l = l' ++ [a].
Proof. induction l as [|a l' _] using rev_ind; eauto. Qed.

(** A failed call that nothing catches is the last event, and its
    exception is the outcome. *)
Lemma ends_at_failure_stops {A : Type} (r : result A) (t : list event) :
  ends_at_failure r t ->
  forall t0 ev t1 e,
    t = t0 ++ ev :: t1 -> uncaught ev = Some e -> t1 = [] /\ r = Raise e.
Proof.
  intros H t0 ev t1 e Et Hev.
  assert (Hnot : forall l, Forall (fun ev0 => uncaught ev0 = None) l -> ~ In ev l).
  { intros l Hl Hin. apply (proj1 (Forall_forall _ _) Hl) in Hin. congruence. }
  destruct r as [a|e'].
  - exfalso. apply (Hnot t H). rewrite Et. apply in_elt.
  - destruct H as (t0' & ev' & Et' & H0 & Hev').
    destruct (last_or_nil t1) as [->|(t1' & lst & ->)].
    + rewrite Et' in Et. apply app_inj_tail in Et. destruct Et as [_ <-].
      split; [reflexivity | congruence].
    + exfalso. apply (Hnot t0' H0).
      rewrite Et' in Et.
      change (t0 ++ ev :: t1' ++ [lst]) with (t0 ++ (ev :: t1') ++ [lst]) in Et.
      rewrite app_assoc in Et. apply app_inj_tail in Et. destruct Et as [-> _].
      apply in_elt.
Qed.

Section GradeFailsFast.

Variable make_gzip : string -> option string -> Fs.t -> result string * Fs.t.
Variable gzip_encoded : string -> bool.

Lemma fails_fast_make_gzip (src : string) (nm : option string) :
  fails_fast (call_make_gzip make_gzip src nm).
Proof.
  apply fails_fast_call. intros w. unfold call_make_gzip.
  destruct (make_gzip src nm (w_fs w)) as [[p|e] fs']; eexists; split; reflexivity.
Qed.

Lemma grade_folders_fails_fast (dirpath image : string) (x : option string)
      (dirs cleanup : list string) :
  fails_fast (grade_folders make_gzip dirpath image x dirs cleanup).
Proof.
  revert cleanup; induction dirs as [|d rest IH]; intros cleanup; cbn [grade_folders];
    [apply fails_fast_ret|].
  apply fails_fast_bind; [apply fails_fast_make_gzip | intros p].
  apply fails_fast_bind; [apply create_container_fails_fast | intros _; apply IH].
Qed.

Lemma grade_files_fails_fast (dirpath image : string) (x : option string)
      (files : list string) :
  fails_fast (grade_files dirpath image x files).
Proof.
  induction files as [|f rest IH]; cbn [grade_files]; [apply fails_fast_ret|].
  apply fails_fast_bind; [apply create_container_fails_fast | intros _; exact IH].
Qed.

Lemma remove_all_fails_fast (cleanup : list string) : fails_fast (remove_all cleanup).
Proof.
  induction cleanup as [|p rest IH]; cbn [remove_all]; [apply fails_fast_ret|].
  apply fails_fast_bind; [apply fails_fast_os_remove | intros _; exact IH].
Qed.

Lemma grade_batch_fails_fast (a : args) (x : option string) (cleanup : list string) :
  fails_fast (grade_batch make_gzip a x cleanup).
Proof.
  unfold grade_batch, scan.
  apply fails_fast_bind.
  { apply fails_fast_bind; [apply fails_fast_walk|].
    intros [[dp ds] fs]. apply fails_fast_ret. }
  intros [[dp ds] fs].
  apply fails_fast_bind; [apply grade_folders_fails_fast | intros cl].
  apply fails_fast_bind; [apply grade_files_fails_fast | intros _].
  apply fails_fast_bind; [apply fails_fast_print | intros _].
  apply remove_all_fails_fast.
Qed.

(** In [grade], a call that fails ends the run, but for the removal of
    an old container. *)
Lemma grade_fails_fast (a : args) : fails_fast (grade make_gzip gzip_encoded a).
Proof.
  assert (Hpure : forall (p : string) (f : Fs.t -> string -> bool),
             fails_fast (fun w : world => (Ok (f (w_fs w) p), w, @nil event))).
  { intros p f w. constructor. }
  unfold grade.
  apply fails_fast_bind; [apply (Hpure _ Fs.isdir) | intros isd].
  destruct (negb isd); [apply fails_fast_print|].
  destruct (extra a) as [e|]; [|apply grade_batch_fails_fast].
  apply fails_fast_bind; [apply (Hpure _ Fs.isfile) | intros isf].
  destruct (negb isf); [apply fails_fast_print|].
  apply fails_fast_bind; [apply (Hpure _ Fs.isdir) | intros d].
  destruct (d || negb (gzip_encoded e))%bool; [|apply grade_batch_fails_fast].
  apply fails_fast_bind; [apply fails_fast_print | intros _].
  apply fails_fast_bind; [apply fails_fast_make_gzip | intros p].
  apply grade_batch_fails_fast.
Qed.

End GradeFailsFast.

(** *** The ways in which [create_container] returns *)

Lemma ok_ends_bind {A B : Type} (l : string) (m : M A) (f : A -> M B) :
  (forall a, ok_ends l (f a)) -> ok_ends l (bind m f).
Proof.
  intros Hf w. unfold bind.
  destruct (m w) as [[[a|e] w1] t1]; cbn; [|intros [b H]; discriminate].
  specialize (Hf a w1). destruct (f a w1) as [[r w2] t2]; cbn in *.
  intros Hok. destruct (Hf Hok) as [t0 ->]. exists (t1 ++ t0).
  apply app_assoc.
Qed.

Lemma ok_ends_print (l : string) : ok_ends l (print l).
Proof. intros w _. exists []. reflexivity. Qed.

(** A lookup that makes the function return has printed the reason
    last. *)
Lemma scan_containers_returned_skipped (name image : string)
      (cs : list Docker.container) :
  forall w,
    result_of (scan_containers name image cs w) = Ok Returned ->
    ends_skipped name (trace_of (scan_containers name image cs w)).
Proof.
  induction cs as [|c0 rest IH]; intros w; [cbn; discriminate|].
  rewrite scan_containers_cons. unfold bind.
  destruct (visit_cases c0 name image w) as [Hn | Hn Hi | d' Hn Hi Hr | d' e Hn Hi Hr].
  - specialize (IH w).
    destruct (scan_containers name image rest w) as [[r w2] t2]; exact IH.
  - intros _. exists [], (mismatch_msg name). split; [reflexivity|]. left. reflexivity.
  - specialize (IH (mkWorld (w_fs w) d')).
    destruct (scan_containers name image rest (mkWorld (w_fs w) d'))
      as [[r w2] t2]; cbn in *.
    intros H. exact (ends_skipped_app name [_; _] t2 (IH H)).
  - intros _. exists [EPrint "  Removing old container";
                      ERemove (Docker.Id c0) true (Raise e)], (remove_failed_msg e).
    split; [reflexivity|]. right. exists e. reflexivity.
Qed.

(** [create_container] when the lookup lets it go on. *)
Lemma create_container_created (folder file image : string) (extra : option string)
      (w w1 : world) (t1 : list event) :
  lists w ->
  scan_containers (container_name folder file) image (conts w) (listed w)
  = (Ok GoOn, w1, t1) ->
  create_container folder file image extra w =
    match creation file image (container_name folder file) extra w1 with
    | (r, w2, t2) =>
        (r, w2, EPrint (display_name file +++ ":") :: EContainers (Ok tt) :: t1 ++ t2)
    end.
Proof.
  intros Hl Hscan. rewrite create_container_unfold.
  unfold bind at 1. cbn [print]. unfold bind at 1.
  rewrite (cli_containers_lists w Hl).
  unfold bind at 1. rewrite Hscan.
  change (bind (cli_create_container
                  (new_container_args image (container_name folder file))) _)
    with (creation file image (container_name folder file) extra).
  destruct (creation file image (container_name folder file) extra w1)
    as [[r w2] t2]. reflexivity.
Qed.

(** [create_container] returns normally in two ways: it has created
    the container and copied into it, and says so last; or it has given
    the submission up with one of the two lines of the lookup and has
    not asked for a container to be created. *)
Lemma create_container_ok (folder file image : string) (extra : option string)
      (w : world) :
  result_of (create_container folder file image extra w) = Ok tt ->
  (exists t0, trace_of (create_container folder file image extra w)
              = t0 ++ [EPrint "  Container created"]) \/
  (ends_skipped (container_name folder file)
                (trace_of (create_container folder file image extra w)) /\
   Forall no_create (trace_of (create_container folder file image extra w))).
Proof.
  intros Hok.
  destruct (Docker.fault (w_docker w) (Docker.clock (w_docker w)) Docker.CallList)
    as [e0|] eqn:Hl.
  { rewrite (create_container_unlisted _ _ _ _ w e0 Hl) in Hok. discriminate. }
  destruct (scan_containers_never_raises (container_name folder file) image (conts w)
                                         (listed w)) as [f Hf].
  destruct f.
  - left.
    destruct (scan_containers (container_name folder file) image (conts w) (listed w))
      as [[r w1] t1] eqn:Es. cbn in Hf. subst r.
    rewrite (create_container_created folder file image extra w w1 t1 Hl Es) in Hok |- *.
    assert (Htail : ok_ends "  Container created"
                            (creation file image (container_name folder file) extra)).
    { unfold creation.
      apply ok_ends_bind; intros id.
      apply ok_ends_bind; intros _.
      apply ok_ends_bind; intros g.
      apply ok_ends_bind; intros _.
      apply ok_ends_bind; intros _.
      apply ok_ends_print. }
    specialize (Htail w1).
    destruct (creation file image (container_name folder file) extra w1)
      as [[r2 w2] t2].
    cbn in *. destruct (Htail (ex_intro _ tt Hok)) as [t0 ->].
    exists (EPrint (display_name file +++ ":") :: EContainers (Ok tt) :: t1 ++ t0).
    cbn. rewrite <- app_assoc. reflexivity.
  - right.
    rewrite (create_container_returned folder file image extra w Hl Hf).
    cbn [trace_of snd]. split.
    + apply (ends_skipped_app _ [_; _]).
      apply scan_containers_returned_skipped. exact Hf.
    + repeat (constructor; [exact I|]).
      eapply Forall_impl; [|apply scan_containers_emits].
      intros []; cbn; auto.
Qed.

(** C2 (amended).  Of the failures of a submission, only the mismatch of
    the image and the failed removal of the old container stay inside
    [create_container]: it returns normally only when it has created the
    container and copied into it, or when it has given the submission up
    with one of the two lines of the lookup, without asking for a
    creation.  Every other failure ends it: when the listing of the
    containers, the creation of the container, the reading of an archive
    or the copy into the container fails, that call is the last thing
    [create_container] does and its exception leaves the function; and
    it raises in no other way.  Nothing in [grade] catches an exception:
    a call that fails (packing, scanning, listing, creating, reading,
    copying or deleting) is the last event of the run, whose outcome is
    the exception of that call, so that no later submission is processed
    and nothing is cleaned up after it.  A run that raises has just made
    the call that failed, and unless that call is itself a deletion the
    run has deleted no file.  A run that returns normally has stopped at
    one of the two checks of its arguments or has deleted, at its end,
    every archive [make_gzip] has returned. *)
Theorem C2_uncaught_failures_abort
        (make_gzip : string -> option string -> Fs.t -> result string * Fs.t)
        (gzip_encoded : string -> bool) (a : args) (w : world) :
  (forall file x w',
      (forall t0 ev t1 e,
          trace_of (create_container (folder a) file (image a) x w') = t0 ++ ev :: t1 ->
          uncaught ev = Some e ->
          t1 = [] /\
          result_of (create_container (folder a) file (image a) x w') = Raise e) /\
      (forall e,
          result_of (create_container (folder a) file (image a) x w') = Raise e ->
          exists t0 ev,
            trace_of (create_container (folder a) file (image a) x w') = t0 ++ [ev] /\
            submission_failure ev e) /\
      (result_of (create_container (folder a) file (image a) x w') = Ok tt ->
       (exists t0,
           trace_of (create_container (folder a) file (image a) x w')
           = t0 ++ [EPrint "  Container created"]) \/
       (ends_skipped (container_name (folder a) file)
                     (trace_of (create_container (folder a) file (image a) x w')) /\
        Forall no_create
               (trace_of (create_container (folder a) file (image a) x w'))))) /\
  (forall t0 ev t1 e,
      trace_of (grade make_gzip gzip_encoded a w) = t0 ++ ev :: t1 ->
      uncaught ev = Some e ->
      t1 = [] /\ result_of (grade make_gzip gzip_encoded a w) = Raise e) /\
  (forall e,
      result_of (grade make_gzip gzip_encoded a w) = Raise e ->
      (exists t0 ev,
          trace_of (grade make_gzip gzip_encoded a w) = t0 ++ [ev] /\
          uncaught ev = Some e) /\
      (Forall (fun ev => is_os_remove ev = false)
              (trace_of (grade make_gzip gzip_encoded a w)) \/
       exists t0 p,
         trace_of (grade make_gzip gzip_encoded a w) = t0 ++ [EOsRemove p (Raise e)])) /\
  (result_of (grade make_gzip gzip_encoded a w) = Ok tt ->
   trace_of (grade make_gzip gzip_encoded a w)
   = [EPrint "Must provide a valid folder of assignments"] \/
   trace_of (grade make_gzip gzip_encoded a w)
   = [EPrint "Extra argument must be a valid file."] \/
   exists t1,
     Forall (fun ev => is_os_remove ev = false) t1 /\
     trace_of (grade make_gzip gzip_encoded a w)
     = t1 ++ EPrint "Cleaning up temporary files" :: removals (gzip_outputs t1)).
Proof.
  split; [|split; [|split]].
  - intros file x w'. split; [|split].
    + apply ends_at_failure_stops. apply create_container_fails_fast.
    + intros e. apply create_container_aborts.
    + apply create_container_ok.
  - apply ends_at_failure_stops. apply grade_fails_fast.
  - intros e He. split; [exact (grade_aborts make_gzip gzip_encoded a w e He)|].
    destruct (grade_outcome make_gzip gzip_encoded a w)
      as [[_ E] | [(x & _ & _ & E) | [_ (t1 & t2 & Et & Hno & Hend)]]].
    + rewrite E in He. discriminate.
    + rewrite E in He. discriminate.
    + rewrite Et.
      destruct Hend as [[-> _] | (t_rm & -> & [[Hr _] | (l1 & p & l2 & e' & _ & Hr & ->)])].
      * left. rewrite app_nil_r. exact Hno.
      * congruence.
      * right. rewrite He in Hr. inversion Hr; subst e'.
        exists (t1 ++ EPrint "Cleaning up temporary files" :: removals l1), p.
        rewrite <- app_assoc. reflexivity.
  - intros Hok.
    destruct (grade_outcome make_gzip gzip_encoded a w)
      as [[_ E] | [(x & _ & _ & E) | [_ (t1 & t2 & Et & Hno & Hend)]]].
    + left. rewrite E. reflexivity.
    + right. left. rewrite E. reflexivity.
    + right. right. exists t1. split; [exact Hno|]. rewrite Et.
      destruct Hend as [[_ (e & He)] | (t_rm & -> & [(_ & -> & _) | (l1 & p & l2 & e' & _ & Hr & _)])];
        [congruence | reflexivity | congruence].
Qed.

(** C10.  Every path a run of [grade] deletes, or tries to delete, is an
    archive [make_gzip] has returned earlier in the same run, and
    [make_gzip] is called only on the extra path, without a name, and on
    a submission, with the name of that submission less its [_submit]:
    no other path is ever handed to [os.remove]. *)
Theorem C10_cleanup_deletes_only_own_archives
        (make_gzip : string -> option string -> Fs.t -> result string * Fs.t)
        (gzip_encoded : string -> bool) (a : args) (w : world)
        (p : string) (r : result unit) :
  In (EOsRemove p r) (trace_of (grade make_gzip gzip_encoded a w)) ->
  exists src nm t1 t2,
    trace_of (grade make_gzip gzip_encoded a w)
    = t1 ++ EMakeGzip src nm (Ok p) :: t2 /\
    In (EOsRemove p r) t2 /\
    ~ In (EOsRemove p r) t1 /\
    (nm = None /\ extra a = Some src \/
     nm = Some (Re.sub_empty Re.re_submit (Py.basename src))).
Proof.
  intros Hin.
  pose proof (grade_emits make_gzip gzip_encoded a w) as Hev.
  destruct (grade_outcome make_gzip gzip_encoded a w)
    as [[_ E] | [(x & _ & _ & E) | [_ (t1 & t2 & Et & Hno & Hend)]]].
  - rewrite E in Hin. destruct Hin as [H|[]]. discriminate.
  - rewrite E in Hin. destruct Hin as [H|[]]. discriminate.
  - rewrite Et in Hin, Hev. apply in_app_iff in Hin.
    destruct Hin as [Hin|Hin]; [exfalso; exact (not_os_remove_In _ _ _ Hno Hin)|].
    destruct Hend as [[-> _] | (t_rm & -> & Hrm)]; [destruct Hin|].
    destruct Hin as [H|Hin]; [discriminate|].
    pose proof (cleanup_outcome_In _ _ _ _ _ Hrm Hin) as Hp. cbn [app] in Hp.
    destruct (gzip_outputs_In t1 p Hp) as (src & nm & u1 & u2 & Eu).
    exists src, nm, u1, (u2 ++ EPrint "Cleaning up temporary files" :: t_rm).
    split; [rewrite Et, Eu, <- app_assoc; reflexivity|].
    split; [apply in_app_iff; right; right; exact Hin|].
    split.
    + intros H. apply (not_os_remove_In t1 p r Hno). rewrite Eu.
      apply in_app_iff. left. exact H.
    + apply Forall_app in Hev. destruct Hev as [Hev _]. rewrite Eu in Hev.
      apply Forall_app in Hev. destruct Hev as [_ Hev].
      inversion Hev as [|? ? Hmk _]. cbn in Hmk.
      destruct nm as [n|]; [right; congruence | left; auto].
Qed.

(** ** C5 *)

Lemma isfile_not_isdir (fs : Fs.t) (p : string) :
  Fs.isfile fs p = true -> Fs.isdir fs p = false.
Proof.
  unfold Fs.isfile, Fs.isdir.
  destruct (Fs.stat fs p) as [[c|es]|]; auto; discriminate.
Qed.

Lemma no_create_split (pre l1 l2 post : list event) (ca ca' : Docker.create_args)
      (r r' : result nat) :
  Forall no_create pre ->
  pre ++ ECreate ca r :: post = l1 ++ ECreate ca' r' :: l2 ->
  (l1 = pre /\ l2 = post /\ ca' = ca /\ r' = r) \/ (exists l0, l1 = pre ++ ECreate ca r :: l0 /\ post = l0 ++ ECreate ca' r' :: l2).
Proof.
  intros Hpre. revert l1. induction Hpre as [|ev pre Hev _ IH]; intros l1 E.
  - destruct l1 as [|ev1 l1]; cbn in E.
    + inversion E. left. auto.
    + inversion E. right. exists l1. auto.
  - destruct l1 as [|ev1 l1]; cbn in E.
    + inversion E; subst. contradiction.
    + inversion E; subst.
      destruct (IH l1 H1) as [(-> & -> & -> & ->) | (l0 & -> & ->)]; [left | right].
      * repeat split; reflexivity.
      * exists l0. split; reflexivity.
Qed.

Lemma no_create_not_in (t l1 l2 : list event) (ca : Docker.create_args) (r : result nat) :
  Forall no_create t -> t <> l1 ++ ECreate ca r :: l2.
Proof.
  intros H E. subst t. apply Forall_app in H. destruct H as [_ H].
  inversion H. contradiction.
Qed.

Lemma applied_no_create (x : string) (t : list event) :
  Forall no_create t -> applied x t.
Proof.
  intros H l1 l2 ca id E. exfalso. exact (no_create_not_in _ _ _ _ _ H E).
Qed.

Lemma applied_block (x : string) (pre : list event) (ca : Docker.create_args)
      (id : nat) (file d1 d2 : string) :
  Forall no_create pre ->
  applied x (pre ++ ECreate ca (Ok id) :: materialized id file x d1 d2).
Proof.
  intros Hpre l1 l2 ca' id' E.
  destruct (no_create_split _ _ _ _ _ _ _ _ Hpre E) as [(_ & -> & _ & Hid) | (l0 & _ & E')].
  - inversion Hid; subst id'. exists file, d1, d2, []. symmetry. apply app_nil_r.
  - exfalso. refine (no_create_not_in _ _ _ _ _ _ E').
    unfold materialized. repeat constructor.
Qed.

Lemma piecewise_applied (x : string) : piecewise (applied x).
Proof.
  split.
  - intros l1 l2 ca id E. destruct l1; discriminate.
  - intros t1 t2 H1 H2 l1 l2 ca id E.
    apply app_eq_app in E. destruct E as (l & [[-> E] | [-> E]]).
    + destruct l as [|ev l]; cbn in E.
      * apply (H2 [] l2 ca id). symmetry. exact E.
      * inversion E; subst.
        destruct (H1 l1 l ca id eq_refl) as (file & d1 & d2 & l3 & ->).
        exists file, d1, d2, (l3 ++ t2). rewrite <- app_assoc. reflexivity.
    + apply (H2 l l2 ca id). exact E.
Qed.

(** One submission: when [create_container] returns normally and has
    created a container, the two archives have gone into it. *)
Lemma create_container_applied (folder file image x : string) :
  always true (applied x) (create_container folder file image (Some x)).
Proof.
  intros w Hok. specialize (Hok eq_refl). destruct Hok as [u Hok].
  destruct (Docker.fault (w_docker w) (Docker.clock (w_docker w)) Docker.CallList)
    as [e0|] eqn:Hl.
  { rewrite (create_container_unlisted _ _ _ _ w e0 Hl) in Hok. discriminate. }
  rewrite create_container_unfold in *.
  pose proof (scan_containers_emits (container_name folder file) image (conts w)
                                    (listed w)) as Hs.
  unfold bind in *. cbn [print] in *. rewrite (cli_containers_lists w Hl) in *.
  destruct (scan_containers (container_name folder file) image (conts w) (listed w))
    as [[[f|e] w1] t1]; unfold trace_of in Hs; cbn [snd] in Hs.
  2:{ cbn in Hok. discriminate. }
  assert (Hpre : Forall no_create (EPrint (display_name file +++ ":")
                                   :: EContainers (Ok tt) :: t1)).
  { repeat (constructor; [exact I|]).
    eapply Forall_impl; [|exact Hs]. intros []; cbn; auto. }
  destruct f.
  2:{ cbn. apply applied_no_create. rewrite app_nil_r. exact Hpre. }
  unfold cli_create_container, gzip_open_read, cli_put_archive in *.
  destruct (Docker.create_container _ (w_docker w1)) as [[id|e] dA];
    [|cbn in Hok; discriminate].
  cbn [w_fs w_docker] in *.
  destruct (Fs.gzip_read (w_fs w1) file) as [d1|e]; [|cbn in Hok; discriminate].
  destruct (Docker.put_archive id "/home/" d1 dA) as [[[]|e] dB];
    [|cbn in Hok; discriminate].
  cbn [w_fs w_docker] in *.
  destruct (Fs.gzip_read (w_fs w1) x) as [d2|e]; [|cbn in Hok; discriminate].
  destruct (Docker.put_archive id "/home/" d2 dB) as [[[]|e] dC];
    [|cbn in Hok; discriminate].
  cbn.
  exact (applied_block x _ _ id file d1 d2 Hpre).
Qed.

Section ExtraArchive.

Variable make_gzip : string -> option string -> Fs.t -> result string * Fs.t.
Variable gzip_encoded : string -> bool.

Lemma grade_batch_no_wrap (a : args) (x : option string) (cl : list string) :
  emits (fun ev => is_wrap_of_extra ev = false) (grade_batch make_gzip a x cl).
Proof.
  apply always_emits, always_grade_batch.
  - apply piecewise_Forall.
  - intros; repeat constructor.
  - intros; repeat constructor.
  - intros; repeat constructor.
  - intros; repeat constructor.
  - intros file. apply emits_always.
    eapply emits_weaken; [|apply create_container_quiet].
    intros []; cbn; intros H; try contradiction; reflexivity.
Qed.

Lemma grade_batch_applied (a : args) (x : string) (cl : list string) :
  always true (applied x) (grade_batch make_gzip a (Some x) cl).
Proof.
  apply always_grade_batch.
  - apply piecewise_applied.
  - intros; apply applied_no_create; repeat constructor.
  - intros; apply applied_no_create; repeat constructor.
  - intros; apply applied_no_create; repeat constructor.
  - intros; apply applied_no_create; repeat constructor.
  - intros file. apply create_container_applied.
Qed.

Lemma grade_batch_ok_shape (a : args) (x : option string) (cl : list string)
      (w : world) :
  result_of (grade_batch make_gzip a x cl w) = Ok tt ->
  exists t1,
    Forall (fun ev => is_os_remove ev = false) t1 /\
    NoDup (cl ++ gzip_outputs t1) /\
    trace_of (grade_batch make_gzip a x cl w)
    = t1 ++ EPrint "Cleaning up temporary files" :: removals (cl ++ gzip_outputs t1).
Proof.
  intros Hok.
  destruct (grade_batch_outcome make_gzip a x cl w) as (t1 & t2 & Et & Hno & Hend).
  exists t1. split; [exact Hno|]. rewrite Et.
  destruct Hend as [[_ (e & He)] | (t_rm & -> & [(_ & -> & Hnd) | (l1 & p & l2 & e' & _ & Hr & _)])];
    [congruence | split; [exact Hnd | reflexivity] | congruence].
Qed.

(** C5 (amended).  When the extra path is a regular file, it is packed by one
    call of [make_gzip], made before the scan and so before any
    submission, if and only if [mimetypes] does not see a gzip name.
    The path that call returns is the one handed to every
    [create_container]: in a run that returns normally, each container
    created gets its submission's archive and then that archive, both
    unpacked into [/home/], and that archive is the first file the
    last loop deletes and is deleted by it once.  A file with a gzip
    name is not packed: the batch starts with the path itself as extra
    and with an empty cleanup list. *)
Theorem C5_extra_archive (a : args) (w : world) (e : string) :
  Fs.isdir (w_fs w) (folder a) = true ->
  extra a = Some e ->
  Fs.isfile (w_fs w) e = true ->
  if gzip_encoded e then
    grade make_gzip gzip_encoded a w = grade_batch make_gzip a (Some e) [] w /\
    Forall (fun ev => is_wrap_of_extra ev = false)
           (trace_of (grade make_gzip gzip_encoded a w)) /\
    (result_of (grade make_gzip gzip_encoded a w) = Ok tt ->
     applied e (trace_of (grade make_gzip gzip_encoded a w)) /\
     exists t1,
       Forall (fun ev => is_os_remove ev = false) t1 /\
       trace_of (grade make_gzip gzip_encoded a w)
       = t1 ++ EPrint "Cleaning up temporary files" :: removals (gzip_outputs t1))
  else
    exists res t',
      trace_of (grade make_gzip gzip_encoded a w)
      = EPrint "Creating temporary gzip file for extra"
        :: EMakeGzip e None res :: t' /\
      Forall (fun ev => is_wrap_of_extra ev = false) t' /\
      forall x,
        res = Ok x ->
        result_of (grade make_gzip gzip_encoded a w) = Ok tt ->
        applied x t' /\
        exists t1,
          Forall (fun ev => is_os_remove ev = false) t1 /\
          ~ In x (gzip_outputs t1) /\
          t' = t1 ++ EPrint "Cleaning up temporary files"
               :: EOsRemove x (Ok tt) :: removals (gzip_outputs t1).
Proof.
  intros Hd He Hf.
  assert (Hgrade :
    grade make_gzip gzip_encoded a w =
      if gzip_encoded e then grade_batch make_gzip a (Some e) [] w
      else bind (print "Creating temporary gzip file for extra")
                (fun _ => bind (call_make_gzip make_gzip e None)
                               (fun x => grade_batch make_gzip a (Some x) [x])) w).
  { unfold grade. unfold bind at 1. cbn [os_path_isdir]. rewrite Hd. cbn [negb].
    rewrite He. unfold bind at 1. cbn [os_path_isfile]. rewrite Hf. cbn [negb].
    unfold bind at 1. cbn [os_path_isdir]. rewrite (isfile_not_isdir _ _ Hf).
    cbn [orb]. destruct (gzip_encoded e); cbn [negb].
    - destruct (grade_batch make_gzip a (Some e) [] w) as [[r w1] t1].
      reflexivity.
    - destruct (bind (print "Creating temporary gzip file for extra") _ w)
        as [[r w1] t1]. reflexivity. }
  rewrite Hgrade. destruct (gzip_encoded e).
  - split; [reflexivity|]. split; [apply grade_batch_no_wrap|].
    intros Hok. split.
    + apply grade_batch_applied. intros _. eauto.
    + destruct (grade_batch_ok_shape a (Some e) [] w Hok) as (t1 & Hno & _ & Et).
      exists t1. split; [exact Hno | exact Et].
  - unfold bind, print, call_make_gzip.
    destruct (make_gzip e None (w_fs w)) as [[x|ex] fs'].
    + pose proof (grade_batch_no_wrap a (Some x) [x] (mkWorld fs' (w_docker w))) as Hnw.
      pose proof (grade_batch_applied a x [x] (mkWorld fs' (w_docker w))) as Hap.
      pose proof (grade_batch_ok_shape a (Some x) [x] (mkWorld fs' (w_docker w))) as Hsh.
      destruct (grade_batch make_gzip a (Some x) [x] (mkWorld fs' (w_docker w)))
        as [[r w1] t1]; cbn in *.
      exists (Ok x), t1. split; [reflexivity|]. split; [exact Hnw|].
      intros x' Ex Hok. inversion Ex; subst x'. split.
      * apply Hap. intros _. eauto.
      * destruct (Hsh Hok) as (u1 & Hno & Hnd & Et).
        exists u1. split; [exact Hno|]. split; [|exact Et].
        inversion Hnd. assumption.
    + cbn. exists (Raise ex), []. split; [reflexivity|]. split; [constructor|].
      intros x Ex. discriminate.
Qed.

End ExtraArchive.

(** ** C7 and C8 *)

Lemma split_slash_cons (s : string) : exists h r, Py.split_slash s = h :: r.
Proof.
  induction s as [|c t (h & r & IH)]; cbn; [eauto|].
  destruct (Ascii.eqb c Py.slash); [eauto|]. rewrite IH. eauto.
Qed.

Lemma split_slash_plain (x : string) :
  Py.has_slash x = false -> Py.split_slash x = [x].
Proof.
  induction x as [|c t IH]; cbn; [reflexivity|].
  intros H. apply orb_false_elim in H. destruct H as [Hc Ht].
  rewrite Hc, (IH Ht). reflexivity.
Qed.

Lemma split_slash_app (a b : string) :
  Py.split_slash (a +++ String Py.slash b) = Py.split_slash a ++ Py.split_slash b.
Proof.
  induction a as [|c t IH]; cbn.
  - reflexivity.
  - rewrite IH. destruct (Ascii.eqb c Py.slash); [reflexivity|].
    destruct (split_slash_cons t) as (h & r & ->). reflexivity.
Qed.

Lemma ends_with_slash_inv (a : string) :
  Py.ends_with_slash a = true -> exists a', a = a' +++ Py.str1 Py.slash.
Proof.
  induction a as [|c t IH]; [discriminate|].
  destruct t as [|d t'].
  - cbn. intros H. apply Ascii.eqb_eq in H. subst c. exists EmptyString. reflexivity.
  - intros H. destruct (IH H) as [a' Ha']. exists (String c a'). cbn.
    rewrite <- Ha'. reflexivity.
Qed.

Lemma is_abs_append (a b : string) :
  a <> EmptyString -> Fs.is_abs (a +++ b) = Fs.is_abs a.
Proof. destruct a; [congruence | reflexivity]. Qed.

Lemma lookup_path_app (n : Fs.node) (p q : list string) :
  Fs.lookup_path n (p ++ q) =
    match Fs.lookup_path n p with
    | Some m => Fs.lookup_path m q
    | None => None
    end.
Proof.
  revert n; induction p as [|x p IH]; intros n; [reflexivity|].
  cbn. destruct n as [c|es]; [reflexivity|].
  destruct (Fs.assoc x es); [apply IH | reflexivity].
Qed.

Lemma walk_comps_app (rt : Fs.node) (c1 c2 : list string) :
  forall stack,
    Fs.walk_comps rt stack (c1 ++ c2) =
      match Fs.walk_comps rt stack c1 with
      | Some q => Fs.walk_comps rt (rev q) c2
      | None => None
      end.
Proof.
  induction c1 as [|c c1 IH]; intros stack.
  - cbn. rewrite rev_involutive. reflexivity.
  - cbn [app Fs.walk_comps].
    destruct (Fs.lookup_path rt (rev stack)) as [[f|es]|]; try reflexivity.
    destruct (Fs.is_cur c); [apply IH|].
    destruct (String.eqb c ".."); [apply IH|].
    destruct (Fs.assoc c es); [apply IH | reflexivity].
Qed.

(** One more component below a directory. *)
Lemma walk_comps_child (rt : Fs.node) (comps : list string) (stack q : list string)
      (es : list (string * Fs.node)) (x : string) :
  Fs.walk_comps rt stack comps = Some q ->
  Fs.lookup_path rt q = Some (Fs.Dir es) ->
  entry_name x = true ->
  match Fs.walk_comps rt stack (comps ++ [x]) with
  | Some q' => Fs.lookup_path rt q'
  | None => None
  end = Fs.assoc x es.
Proof.
  intros Hw Hq Hx. rewrite walk_comps_app, Hw. cbn [Fs.walk_comps].
  rewrite rev_involutive, Hq.
  unfold entry_name in Hx. apply andb_true_iff in Hx. destruct Hx as [Hx Hdd].
  apply andb_true_iff in Hx. destruct Hx as [_ Hcur].
  apply negb_true_iff in Hcur, Hdd. rewrite Hcur, Hdd.
  destruct (Fs.assoc x es) as [n|] eqn:Hn; [|reflexivity].
  cbn [rev]. rewrite rev_involutive, lookup_path_app, Hq. cbn. rewrite Hn. reflexivity.
Qed.

(** The path [join top x] of an entry [x] of the directory [top] leads
    to that entry. *)
Lemma stat_join (fs : Fs.t) (top x : string) (es : list (string * Fs.node)) :
  Fs.stat fs top = Some (Fs.Dir es) ->
  entry_name x = true ->
  Fs.stat fs (Py.join top x) = Fs.assoc x es.
Proof.
  intros Htop Hx. unfold Fs.stat, Fs.realpath in Htop.
  destruct (String.eqb top EmptyString) eqn:Hne; [discriminate|].
  apply String.eqb_neq in Hne.
  destruct (Fs.walk_comps (Fs.root fs) (if Fs.is_abs top then [] else rev (Fs.cwd fs))
                          (Py.split_slash top)) as [q|] eqn:Hw; [|discriminate].
  pose proof Hx as Hx0.
  unfold entry_name in Hx0. apply andb_true_iff in Hx0. destruct Hx0 as [Hx0 _].
  apply andb_true_iff in Hx0. destruct Hx0 as [Hns Hcur].
  apply negb_true_iff in Hns, Hcur.
  destruct x as [|c t]; [discriminate|].
  assert (Hc : Ascii.eqb c Py.slash = false).
  { cbn in Hns. apply orb_false_elim in Hns. apply Hns. }
  unfold Py.join. rewrite Hc.
  replace (String.eqb top EmptyString) with false
    by (symmetry; apply String.eqb_neq; exact Hne).
  cbn [orb]. unfold Fs.stat, Fs.realpath.
  destruct (Py.ends_with_slash top) eqn:Hend.
  - destruct (ends_with_slash_inv top Hend) as [top' Etop].
    assert (Hsplit : Py.split_slash top = Py.split_slash top' ++ [EmptyString]).
    { rewrite Etop. apply split_slash_app. }
    assert (Hjoin : top +++ String c t = top' +++ String Py.slash (String c t)).
    { rewrite Etop, append_assoc. reflexivity. }
    assert (Hnonempty : String.eqb (top +++ String c t) EmptyString = false).
    { apply String.eqb_neq. destruct top; [congruence | discriminate]. }
    rewrite Hnonempty, (is_abs_append _ _ Hne), Hjoin, split_slash_app.
    rewrite (split_slash_plain _ Hns).
    rewrite Hsplit, walk_comps_app in Hw.
    destruct (Fs.walk_comps (Fs.root fs) (if Fs.is_abs top then [] else rev (Fs.cwd fs))
                            (Py.split_slash top')) as [q1|] eqn:Hw1; [|discriminate].
    cbn [Fs.walk_comps] in Hw. rewrite rev_involutive in Hw.
    destruct (Fs.lookup_path (Fs.root fs) q1) as [[f|es1]|] eqn:Hq1; try discriminate.
    cbn in Hw. inversion Hw; subst q1.
    rewrite Htop in Hq1. inversion Hq1; subst es1.
    exact (walk_comps_child _ _ _ _ _ _ Hw1 Htop Hx).
  - assert (Hnonempty : String.eqb (top +++ Py.str1 Py.slash +++ String c t) EmptyString = false).
    { apply String.eqb_neq. destruct top; [congruence | discriminate]. }
    rewrite Hnonempty, (is_abs_append _ _ Hne).
    change (Py.str1 Py.slash +++ String c t) with (String Py.slash (String c t)).
    rewrite split_slash_app, (split_slash_plain _ Hns).
    exact (walk_comps_child _ _ _ _ _ _ Hw Htop Hx).
Qed.

Lemma assoc_In (x : string) (n : Fs.node) (es : list (string * Fs.node)) :
  NoDup (map fst es) -> In (x, n) es -> Fs.assoc x es = Some n.
Proof.
  induction es as [|[y m] es IH]; intros Hnd Hin; [destruct Hin|].
  cbn in *. inversion Hnd as [|? ? Hy Hnd']; subst.
  destruct Hin as [E|Hin].
  - inversion E; subst. rewrite String.eqb_refl. reflexivity.
  - destruct (String.eqb x y) eqn:Exy; [|auto].
    apply String.eqb_eq in Exy. subst y. exfalso. apply Hy.
    apply in_map_iff. exists (x, n). auto.
Qed.

(** C8.  When the batch folder is not an existing directory, [grade]
    prints one line and returns: nothing is scanned and the daemon is not
    called.  When it is one, the scan changes nothing and hands back the
    folder itself, the paths of its entries that are directories and the
    paths of its entries that are not, each the folder joined with the
    name of the entry; and such a path leads to that entry, one level
    below the folder. *)
Theorem C8_scan_is_one_level
        (make_gzip : string -> option string -> Fs.t -> result string * Fs.t)
        (gzip_encoded : string -> bool) (a : args) (w : world) :
  (Fs.isdir (w_fs w) (folder a) = false ->
   grade make_gzip gzip_encoded a w
   = (Ok tt, w, [EPrint "Must provide a valid folder of assignments"])) /\
  (forall es,
      Fs.stat (w_fs w) (folder a) = Some (Fs.Dir es) ->
      scan (folder a) w
      = (Ok (folder a,
             map (Py.join (folder a)) (Fs.dir_names es),
             map (Py.join (folder a)) (Fs.file_names es)),
         w, [EWalk (folder a) true]) /\
      (forall p, In p (map (Py.join (folder a)) (Fs.dir_names es)) <->
                 exists x es', In (x, Fs.Dir es') es /\ p = Py.join (folder a) x) /\
      (forall p, In p (map (Py.join (folder a)) (Fs.file_names es)) <->
                 exists x c, In (x, Fs.File c) es /\ p = Py.join (folder a) x) /\
      (Forall (fun en => entry_name (fst en) = true) es ->
       NoDup (map fst es) ->
       forall x n, In (x, n) es ->
                   Fs.stat (w_fs w) (Py.join (folder a) x) = Some n)).
Proof.
  split.
  - intros Hd.
    destruct (grade_outcome make_gzip gzip_encoded a w) as [[_ E] | [(x & _ & _ & E) | [E _]]].
    + exact E.
    + pose proof E as E'. revert E'. unfold grade, bind. cbn [os_path_isdir].
      rewrite Hd. cbn. intros _. reflexivity.
    + congruence.
  - intros es Hes. split; [|split; [|split]].
    + unfold scan, bind, next_os_walk, Fs.walk_first. rewrite Hes. reflexivity.
    + intros p. rewrite in_map_iff. unfold Fs.dir_names. split.
      * intros (x & <- & Hx). apply in_map_iff in Hx.
        destruct Hx as ([y n] & <- & Hy). apply filter_In in Hy.
        destruct Hy as [Hy Hdir]. destruct n as [c|es']; [discriminate|].
        exists y, es'. auto.
      * intros (x & es' & Hin & ->). exists x. split; [reflexivity|].
        apply in_map_iff. exists (x, Fs.Dir es'). split; [reflexivity|].
        apply filter_In. auto.
    + intros p. rewrite in_map_iff. unfold Fs.file_names. split.
      * intros (x & <- & Hx). apply in_map_iff in Hx.
        destruct Hx as ([y n] & <- & Hy). apply filter_In in Hy.
        destruct Hy as [Hy Hdir]. destruct n as [c|es']; [|discriminate].
        exists y, c. auto.
      * intros (x & c & Hin & ->). exists x. split; [reflexivity|].
        apply in_map_iff. exists (x, Fs.File c). split; [reflexivity|].
        apply filter_In. auto.
    + intros Hnames Hnd x n Hin.
      rewrite (stat_join _ _ x es Hes).
      * apply assoc_In; assumption.
      * exact (proj1 (Forall_forall _ _) Hnames (x, n) Hin).
Qed.

(** C7.  What [grade] does with an extra path that is an existing
    directory: the check of line 18 asks for a regular file, so the run
    ends there with one line; the test for a directory in line 23 is
    never reached with a directory, nothing is packed, and the daemon is
    not called. *)
Theorem C7_directory_extra_is_turned_away
        (make_gzip : string -> option string -> Fs.t -> result string * Fs.t)
        (gzip_encoded : string -> bool) (a : args) (w : world) (e : string) :
  Fs.isdir (w_fs w) (folder a) = true ->
  extra a = Some e ->
  Fs.isdir (w_fs w) e = true ->
  grade make_gzip gzip_encoded a w
  = (Ok tt, w, [EPrint "Extra argument must be a valid file."]).
Proof.
  intros Hd He Hde.
  assert (Hf : Fs.isfile (w_fs w) e = false).
  { destruct (Fs.isfile (w_fs w) e) eqn:Hf; [|reflexivity].
    rewrite (isfile_not_isdir _ _ Hf) in Hde. discriminate. }
  unfold grade, bind. cbn [os_path_isdir os_path_isfile].
  rewrite Hd, He. cbn [negb]. rewrite Hf. reflexivity.
Qed.

(* ================================================================= *)
(** * The properties on the sample batches *)

(** The name of [alice] is taken by a container of another image: three
    runs in a row leave that container in place. *)
Lemma C1_witness :
  In Sample.foreign (conts Sample.occupied_host) /\
  has_name (container_name "HW8" "HW8/alice_submit") Sample.foreign = true /\
  Docker.Image Sample.foreign <> "course-hw8" /\
  always_lists Sample.occupied_host /\
  result_of (rerun 3 (create_container "HW8" "HW8/alice_submit" "course-hw8" None)
                   Sample.occupied_host) = Ok tt /\
  In Sample.foreign
     (conts (world_of (rerun 3 (create_container "HW8" "HW8/alice_submit"
                                                 "course-hw8" None)
                             Sample.occupied_host))).
Proof.
  assert (H1 : forall c2, In c2 (conts Sample.occupied_host) ->
                          Docker.Id c2 = Docker.Id Sample.foreign -> c2 = Sample.foreign).
  { intros c2 [E|[]] _. symmetry. exact E. }
  assert (H2 : In Sample.foreign (conts Sample.occupied_host)) by (left; reflexivity).
  assert (H3 : has_name (container_name "HW8" "HW8/alice_submit") Sample.foreign = true)
    by reflexivity.
  assert (H4 : Docker.Image Sample.foreign <> "course-hw8") by discriminate.
  assert (H5 : always_lists Sample.occupied_host) by (intros time; reflexivity).
  destruct (C1_other_image_is_left_alone 3 "HW8" "HW8/alice_submit" "course-hw8" None
              Sample.occupied_host Sample.foreign H1 H2 H3 H4)
    as (Hin & _ & _ & Hok & _).
  destruct (Hok H5) as [Hr _].
  repeat split; assumption.
Defined.

(** The batch [HW9]: the archive of [alice] goes in, [carol.zip] is not
    a gzip archive and reading it raises; the run ends there, [dave] is
    never looked up, and the archive made for [alice] stays on the
    disk. *)
Lemma C2_counterexample :
  result_of (Sample.run (mkArgs "HW9" "course-hw9" None) Sample.host9)
  = Raise (Exception "OSError" "Not a gzipped file") /\
  trace_of (Sample.run (mkArgs "HW9" "course-hw9" None) Sample.host9)
  = [ EWalk "HW9" true;
      EMakeGzip "HW9/alice_submit" (Some "alice") (Ok "/tmp/alice.tar.gz");
      EPrint "alice:";
      EContainers (Ok tt);
      ECreate (new_container_args "course-hw9" "HW9_alice") (Ok 1);
      EPrint "  Extracting assignment";
      EGzipRead "/tmp/alice.tar.gz" (Ok "tar of HW9/alice_submit");
      EPut 1 "/home/" "tar of HW9/alice_submit" (Ok tt);
      EPrint "  Container created";
      EPrint "carol:";
      EContainers (Ok tt);
      ECreate (new_container_args "course-hw9" "HW9_carol") (Ok 2);
      EPrint "  Extracting assignment";
      EGzipRead "HW9/carol.zip" (Raise (Exception "OSError" "Not a gzipped file")) ] /\
  Fs.isfile (w_fs Sample.host9) "HW9/dave.tar.gz" = true /\
  ~ In (EPrint "dave:")
       (trace_of (Sample.run (mkArgs "HW9" "course-hw9" None) Sample.host9)) /\
  ~ In (EOsRemove "/tmp/alice.tar.gz" (Ok tt))
       (trace_of (Sample.run (mkArgs "HW9" "course-hw9" None) Sample.host9)) /\
  Fs.isfile (w_fs (world_of (Sample.run (mkArgs "HW9" "course-hw9" None) Sample.host9)))
            "/tmp/alice.tar.gz" = true.
Proof.
  assert (Ht : trace_of (Sample.run (mkArgs "HW9" "course-hw9" None) Sample.host9)
               = [ EWalk "HW9" true;
                   EMakeGzip "HW9/alice_submit" (Some "alice") (Ok "/tmp/alice.tar.gz");
                   EPrint "alice:";
                   EContainers (Ok tt);
                   ECreate (new_container_args "course-hw9" "HW9_alice") (Ok 1);
                   EPrint "  Extracting assignment";
                   EGzipRead "/tmp/alice.tar.gz" (Ok "tar of HW9/alice_submit");
                   EPut 1 "/home/" "tar of HW9/alice_submit" (Ok tt);
                   EPrint "  Container created";
                   EPrint "carol:";
                   EContainers (Ok tt);
                   ECreate (new_container_args "course-hw9" "HW9_carol") (Ok 2);
                   EPrint "  Extracting assignment";
                   EGzipRead "HW9/carol.zip"
                             (Raise (Exception "OSError" "Not a gzipped file")) ])
    by (vm_compute; reflexivity).
  split; [vm_compute; reflexivity|]. split; [exact Ht|].
  split; [vm_compute; reflexivity|].
  rewrite Ht. split; [|split].
  - cbn. intuition discriminate.
  - cbn. intuition discriminate.
  - vm_compute. reflexivity.
Qed.

(** The same batch: the failed reading of [carol.zip] is the last event
    of the run, and its exception is the outcome of the run. *)
Lemma C2_witness :
  exists t0,
    trace_of (Sample.run (mkArgs "HW9" "course-hw9" None) Sample.host9)
    = t0 ++ [EGzipRead "HW9/carol.zip"
                       (Raise (Exception "OSError" "Not a gzipped file"))] /\
    result_of (Sample.run (mkArgs "HW9" "course-hw9" None) Sample.host9)
    = Raise (Exception "OSError" "Not a gzipped file").
Proof.
  exists [ EWalk "HW9" true;
           EMakeGzip "HW9/alice_submit" (Some "alice") (Ok "/tmp/alice.tar.gz");
           EPrint "alice:";
           EContainers (Ok tt);
           ECreate (new_container_args "course-hw9" "HW9_alice") (Ok 1);
           EPrint "  Extracting assignment";
           EGzipRead "/tmp/alice.tar.gz" (Ok "tar of HW9/alice_submit");
           EPut 1 "/home/" "tar of HW9/alice_submit" (Ok tt);
           EPrint "  Container created";
           EPrint "carol:";
           EContainers (Ok tt);
           ECreate (new_container_args "course-hw9" "HW9_carol") (Ok 2);
           EPrint "  Extracting assignment" ].
  assert (Ht : trace_of (Sample.run (mkArgs "HW9" "course-hw9" None) Sample.host9)
               = [ EWalk "HW9" true;
                   EMakeGzip "HW9/alice_submit" (Some "alice") (Ok "/tmp/alice.tar.gz");
                   EPrint "alice:";
                   EContainers (Ok tt);
                   ECreate (new_container_args "course-hw9" "HW9_alice") (Ok 1);
                   EPrint "  Extracting assignment";
                   EGzipRead "/tmp/alice.tar.gz" (Ok "tar of HW9/alice_submit");
                   EPut 1 "/home/" "tar of HW9/alice_submit" (Ok tt);
                   EPrint "  Container created";
                   EPrint "carol:";
                   EContainers (Ok tt);
                   ECreate (new_container_args "course-hw9" "HW9_carol") (Ok 2);
                   EPrint "  Extracting assignment" ]
                 ++ EGzipRead "HW9/carol.zip"
                              (Raise (Exception "OSError" "Not a gzipped file")) :: [])
    by (vm_compute; reflexivity).
  split; [exact Ht|].
  exact (proj2 (proj1 (proj2 (C2_uncaught_failures_abort
                                Sample.make_gzip Sample.gzip_encoded
                                (mkArgs "HW9" "course-hw9" None) Sample.host9))
                      _ _ [] _ Ht eq_refl)).
Defined.

(** The file [alice_submit.tar.gz] is not displayed as [alice]. *)
Lemma C3_counterexample :
  display_name "alice_submit.tar.gz" = "alice_submit" /\
  display_name "alice_submit.tar.gz" <> "alice".
Proof. split; [reflexivity | discriminate]. Qed.

Lemma C3_witness :
  Py.basename "HW8/carol.tar.gz" = "carol" +++ "." +++ "tar.gz" /\
  has_dot "carol" = false /\
  display_name "HW8/carol.tar.gz" = "carol".
Proof.
  assert (H1 : Py.basename "HW8/carol.tar.gz" = "carol" +++ "." +++ "tar.gz")
    by reflexivity.
  assert (H2 : has_dot "carol" = false) by reflexivity.
  assert (H3 : "tar.gz" <> EmptyString) by discriminate.
  split; [exact H1|]. split; [exact H2|].
  exact (proj1 (proj2 (proj2 (C3_display_name "HW8" "HW8/carol.tar.gz")))
               "carol" "tar.gz" H1 H2 H3).
Defined.

(** The container of [bob] is left by an earlier run and cannot be
    removed: the submission is given up and the daemon keeps it. *)
Lemma C4_witness :
  result_of (cli_containers Sample.stuck_host) = Ok ([] ++ Sample.stale :: []) /\
  has_name (container_name "HW8" "HW8/bob.tar.gz") Sample.stale = true /\
  Docker.Image Sample.stale = "course-hw8" /\
  create_container "HW8" "HW8/bob.tar.gz" "course-hw8" None Sample.stuck_host
  = (Ok tt,
     mkWorld Sample.disk (Docker.mkDaemon [Sample.stale] 2 Sample.remove_fails),
     [ EPrint "bob:"; EContainers (Ok tt);
       EPrint "  Removing old container";
       ERemove 3 true (Raise (Exception "APIError" "container is busy"));
       EPrint (remove_failed_msg (Exception "APIError" "container is busy")) ]).
Proof.
  assert (H1 : result_of (cli_containers Sample.stuck_host)
               = Ok ([] ++ Sample.stale :: [])) by reflexivity.
  assert (H2 : forall c0, In c0 (@nil Docker.container) ->
                          has_name (container_name "HW8" "HW8/bob.tar.gz") c0 = false)
    by (intros c0 []).
  assert (H3 : has_name (container_name "HW8" "HW8/bob.tar.gz") Sample.stale = true)
    by reflexivity.
  assert (H4 : Docker.Image Sample.stale = "course-hw8") by reflexivity.
  assert (H5 : Docker.remove_container (Docker.Id Sample.stale) true
                                       (w_docker (listed Sample.stuck_host))
               = (Raise (Exception "APIError" "container is busy"),
                  Docker.mkDaemon [Sample.stale] 2 Sample.remove_fails))
    by reflexivity.
  split; [exact H1|]. split; [exact H3|]. split; [exact H4|].
  exact (proj1 (proj2 (C4_failed_removal_gives_up
                         "HW8" "HW8/bob.tar.gz" "course-hw8" None Sample.stuck_host
                         [] [] Sample.stale _ _ H1 H2 H3 H4 H5)
                      _ eq_refl)).
Defined.

(** The batch [HW9] with the plain file [notes.txt] as extra: the file
    is packed, the container of [carol] is created, the reading of
    [carol.zip] raises; that container never gets the extra archive, and
    the extra archive is never deleted. *)
Lemma C5_counterexample :
  Sample.gzip_encoded "notes.txt" = false /\
  result_of (Sample.run (mkArgs "HW9" "course-hw9" (Some "notes.txt")) Sample.host9)
  = Raise (Exception "OSError" "Not a gzipped file") /\
  In (EMakeGzip "notes.txt" None (Ok "/tmp/notes.txt.tar.gz"))
     (trace_of (Sample.run (mkArgs "HW9" "course-hw9" (Some "notes.txt")) Sample.host9)) /\
  In (ECreate (new_container_args "course-hw9" "HW9_carol") (Ok 2))
     (trace_of (Sample.run (mkArgs "HW9" "course-hw9" (Some "notes.txt")) Sample.host9)) /\
  (forall path data r,
      ~ In (EPut 2 path data r)
           (trace_of (Sample.run (mkArgs "HW9" "course-hw9" (Some "notes.txt"))
                                 Sample.host9))) /\
  (forall r,
      ~ In (EOsRemove "/tmp/notes.txt.tar.gz" r)
           (trace_of (Sample.run (mkArgs "HW9" "course-hw9" (Some "notes.txt"))
                                 Sample.host9))) /\
  Fs.isfile (w_fs (world_of (Sample.run (mkArgs "HW9" "course-hw9" (Some "notes.txt"))
                                        Sample.host9)))
            "/tmp/notes.txt.tar.gz" = true.
Proof.
  split; [reflexivity|]. split; [vm_compute; reflexivity|].
  split; [vm_compute; intuition|]. split; [vm_compute; intuition|].
  split; [|split].
  - intros path data r. vm_compute. intuition discriminate.
  - intros r. vm_compute. intuition discriminate.
  - vm_compute. reflexivity.
Qed.

(** The plain file [notes.txt] as extra of the batch [HW8]. *)
Lemma C5_witness :
  Fs.isdir (w_fs Sample.empty_host) "HW8" = true /\
  Fs.isfile (w_fs Sample.empty_host) "notes.txt" = true /\
  exists res t',
    trace_of (Sample.run (mkArgs "HW8" "course-hw8" (Some "notes.txt"))
                           Sample.empty_host)
    = EPrint "Creating temporary gzip file for extra"
      :: EMakeGzip "notes.txt" None res :: t' /\
    Forall (fun ev => is_wrap_of_extra ev = false) t' /\
    forall x,
      res = Ok x ->
      result_of (Sample.run (mkArgs "HW8" "course-hw8" (Some "notes.txt"))
                              Sample.empty_host) = Ok tt ->
      applied x t' /\
      exists t1,
        Forall (fun ev => is_os_remove ev = false) t1 /\
        ~ In x (gzip_outputs t1) /\
        t' = t1 ++ EPrint "Cleaning up temporary files"
             :: EOsRemove x (Ok tt) :: removals (gzip_outputs t1).
Proof.
  assert (H1 : Fs.isdir (w_fs Sample.empty_host) "HW8" = true) by reflexivity.
  assert (H2 : Fs.isfile (w_fs Sample.empty_host) "notes.txt" = true) by reflexivity.
  split; [exact H1|]. split; [exact H2|].
  exact (C5_extra_archive Sample.make_gzip Sample.gzip_encoded
                          (mkArgs "HW8" "course-hw8" (Some "notes.txt"))
                          Sample.empty_host "notes.txt" H1 eq_refl H2).
Defined.

(** The container made for [alice] in the batch [HW8]. *)
Lemma C6_witness :
  In (ECreate (new_container_args "course-hw8" "HW8_alice") (Ok 1))
     (trace_of (Sample.run (mkArgs "HW8" "course-hw8" None) Sample.empty_host)) /\
  Docker.Memory (Docker.ca_host_config (new_container_args "course-hw8" "HW8_alice"))
  = Some (64 * 1024 * 1024)%N /\
  Docker.ca_network_disabled (new_container_args "course-hw8" "HW8_alice") = true.
Proof.
  assert (H : In (ECreate (new_container_args "course-hw8" "HW8_alice") (Ok 1))
                 (trace_of (Sample.run (mkArgs "HW8" "course-hw8" None)
                                         Sample.empty_host))).
  { vm_compute. do 4 right. left. reflexivity. }
  destruct (C6_new_container_settings Sample.make_gzip Sample.gzip_encoded
              (mkArgs "HW8" "course-hw8" None) Sample.empty_host
              (new_container_args "course-hw8" "HW8_alice") (Ok 1) H)
    as (_ & Hnet & Hmem & _).
  split; [exact H|]. split; [exact Hmem | exact Hnet].
Defined.

(** The directory [shared] as extra of the batch [HW8]. *)
Lemma C7_witness :
  Fs.isdir (w_fs Sample.empty_host) "HW8" = true /\
  Fs.isdir (w_fs Sample.empty_host) "shared" = true /\
  Sample.run (mkArgs "HW8" "course-hw8" (Some "shared")) Sample.empty_host
  = (Ok tt, Sample.empty_host, [EPrint "Extra argument must be a valid file."]).
Proof.
  assert (H1 : Fs.isdir (w_fs Sample.empty_host) "HW8" = true) by reflexivity.
  assert (H2 : Fs.isdir (w_fs Sample.empty_host) "shared" = true) by reflexivity.
  split; [exact H1|]. split; [exact H2|].
  exact (C7_directory_extra_is_turned_away Sample.make_gzip Sample.gzip_encoded
           (mkArgs "HW8" "course-hw8" (Some "shared")) Sample.empty_host
           "shared" H1 eq_refl H2).
Defined.

(** The scan of the batch [HW8]: the file [main.c] inside [alice_submit]
    is not part of it. *)
Lemma C8_witness :
  scan "HW8" Sample.empty_host
  = (Ok ("HW8", ["HW8/alice_submit"], ["HW8/bob.tar.gz"]),
     Sample.empty_host, [EWalk "HW8" true]) /\
  Fs.stat (w_fs Sample.empty_host) "HW8/bob.tar.gz"
  = Some (Fs.File (Fs.Gzip "tar of bob")).
Proof.
  destruct (proj2 (C8_scan_is_one_level Sample.make_gzip Sample.gzip_encoded
                     (mkArgs "HW8" "course-hw8" None) Sample.empty_host)
                  _ eq_refl) as (Hscan & _ & _ & Hstat).
  split; [exact Hscan|].
  assert (H1 : Forall (fun en : string * Fs.node => entry_name (fst en) = true)
                      [("alice_submit", Fs.Dir [("main.c", Fs.File (Fs.Plain "int main;"))]);
                       ("bob.tar.gz", Fs.File (Fs.Gzip "tar of bob"))])
    by (repeat constructor).
  assert (H2 : NoDup ["alice_submit"; "bob.tar.gz"]).
  { repeat constructor; cbn; intuition discriminate. }
  exact (Hstat H1 H2 "bob.tar.gz" (Fs.File (Fs.Gzip "tar of bob"))
               (or_intror (or_introl eq_refl))).
Defined.

(** The archive made for [alice] is the one file the run deletes. *)
Lemma C10_witness :
  In (EOsRemove "/tmp/alice.tar.gz" (Ok tt))
     (trace_of (Sample.run (mkArgs "HW8" "course-hw8" None) Sample.empty_host)) /\
  exists src nm t1 t2,
    trace_of (Sample.run (mkArgs "HW8" "course-hw8" None) Sample.empty_host)
    = t1 ++ EMakeGzip src nm (Ok "/tmp/alice.tar.gz") :: t2 /\
    In (EOsRemove "/tmp/alice.tar.gz" (Ok tt)) t2.
Proof.
  assert (H : In (EOsRemove "/tmp/alice.tar.gz" (Ok tt))
                 (trace_of (Sample.run (mkArgs "HW8" "course-hw8" None)
                                         Sample.empty_host))).
  { vm_compute. do 17 right. left. reflexivity. }
  split; [exact H|].
  destruct (C10_cleanup_deletes_only_own_archives
              Sample.make_gzip Sample.gzip_encoded
              (mkArgs "HW8" "course-hw8" None) Sample.empty_host
              "/tmp/alice.tar.gz" (Ok tt) H)
    as (src & nm & t1 & t2 & Et & Hin & _).
  exists src, nm, t1, t2. split; assumption.
Defined.

(* ================================================================= *)
(** * Further properties of [run.py] *)

(** ** Names *)

Lemma re_submit_only (c : ascii) (t : string) :
  Re.match_len Re.re_submit (String c t) <> None ->
  String c t = "_submit" \/ String c t = "_submit" +++ Py.str1 Py.LF.
Proof.
  intros H. unfold Re.match_len, Re.re_submit in H. cbn [Re.rmatch] in H.
  destruct (Re.strip_prefix "_submit" (String c t)) as [rest|] eqn:Hp;
    [|congruence].
  apply strip_prefix_sound in Hp.
  destruct (Re.at_eol rest) eqn:He; [|congruence].
  apply at_eol_inv in He. destruct He; subst rest; rewrite Hp; auto.
Qed.

Lemma sub_submit_keeps (c : ascii) (t : string) :
  String c t <> "_submit" -> String c t <> "_submit" +++ Py.str1 Py.LF ->
  Re.sub_go Re.re_submit 0 (String c t) = String c (Re.sub_go Re.re_submit 0 t).
Proof.
  intros H1 H2. apply sub_go_no_match.
  destruct (Re.match_len Re.re_submit (String c t)) eqn:E; [|reflexivity].
  exfalso. destruct (re_submit_only c t); congruence.
Qed.

(** X1.  The name under which a directory is packed is its base name
    less one final [_submit]: a name that ends with [_submit] loses
    exactly that, whatever stands before it; a name that ends with
    [_submit] and a line feed loses the [_submit] and keeps the line
    feed; any other name is kept as it is. *)
Theorem X1_strip_submit :
  (forall pre, Re.sub_empty Re.re_submit (pre +++ "_submit") = pre) /\
  (forall pre, Re.sub_empty Re.re_submit (pre +++ "_submit" +++ Py.str1 Py.LF)
               = pre +++ Py.str1 Py.LF) /\
  (forall s,
      (forall pre, s <> pre +++ "_submit") ->
      (forall pre, s <> pre +++ "_submit" +++ Py.str1 Py.LF) ->
      Re.sub_empty Re.re_submit s = s).
Proof.
  unfold Re.sub_empty. split; [|split].
  - induction pre as [|c pre IH]; [reflexivity|].
    change (String c pre +++ "_submit") with (String c (pre +++ "_submit")).
    rewrite sub_submit_keeps; [rewrite IH; reflexivity | | ].
    + intros H. apply (f_equal String.length) in H. simpl in H.
      rewrite length_append in H. simpl in H. lia.
    + intros H. pose proof (f_equal String.length H) as HL. simpl in HL.
      rewrite length_append in HL. simpl in HL.
      destruct pre; [|simpl in HL; lia].
      simpl in H. unfold Py.str1, Py.LF in H. simpl in H. discriminate.
  - induction pre as [|c pre IH]; [reflexivity|].
    change (String c pre +++ "_submit" +++ Py.str1 Py.LF)
      with (String c (pre +++ "_submit" +++ Py.str1 Py.LF)).
    rewrite sub_submit_keeps; [rewrite IH; reflexivity | | ].
    + intros H. apply (f_equal String.length) in H. simpl in H.
      rewrite !length_append in H. simpl in H. lia.
    + intros H. apply (f_equal String.length) in H. simpl in H.
      rewrite !length_append in H. simpl in H. lia.
  - induction s as [|c s IH]; intros H1 H2; [reflexivity|].
    rewrite sub_submit_keeps.
    + rewrite IH; [reflexivity | | ].
      * intros pre E. apply (H1 (String c pre)). rewrite E. reflexivity.
      * intros pre E. apply (H2 (String c pre)). rewrite E. reflexivity.
    + exact (H1 EmptyString).
    + exact (H2 EmptyString).
Qed.

Lemma basename_after_slash (d x : string) :
  Py.has_slash x = false -> Py.basename (d +++ String Py.slash x) = x.
Proof.
  intros Hx. induction d as [|c d IH]; cbn [String.append Py.basename].
  - rewrite Hx. reflexivity.
  - assert (Hs : Py.has_slash (d +++ String Py.slash x) = true).
    { rewrite has_slash_append. cbn. apply orb_true_r. }
    rewrite Hs. exact IH.
Qed.

(** X2.  The first half of a container name is what follows the last
    slash of the batch folder as it was given: a folder given with a
    slash at its end yields container names that begin with the
    underscore, and a folder given as a path yields its last
    component. *)
Theorem X2_folder_part_of_the_name (d x file : string) :
  Py.has_slash x = false ->
  container_name (d +++ String Py.slash x) file = x +++ "_" +++ display_name file /\
  container_name (d +++ Py.str1 Py.slash) file = "_" +++ display_name file /\
  container_name x file = x +++ "_" +++ display_name file.
Proof.
  intros Hx. unfold container_name. split; [|split].
  - rewrite (basename_after_slash d x Hx). reflexivity.
  - unfold Py.str1. rewrite (basename_after_slash d EmptyString eq_refl). reflexivity.
  - assert (Hb : Py.basename x = x).
    { destruct x as [|c t]; [reflexivity|]. cbn in *.
      apply orb_false_elim in Hx. destruct Hx as [Hc Ht]. rewrite Ht, Hc. reflexivity. }
    rewrite Hb. reflexivity.
Qed.

(** ** The lookup and the creation *)

Lemma scan_containers_clears (name image : string) (cs : list Docker.container) :
  forall w,
    result_of (scan_containers name image cs w) = Ok GoOn ->
    forall c, In c (conts (world_of (scan_containers name image cs w))) ->
              In c cs -> has_name name c = false.
Proof.
  induction cs as [|c0 rest IH]; intros w Hgo c Hc Hin; [destruct Hin|].
  revert Hgo Hc. rewrite scan_containers_cons. unfold bind.
  destruct (visit_cases c0 name image w) as [Hn | Hn Hi | d' Hn Hi Hr | d' e Hn Hi Hr].
  - specialize (IH w).
    destruct (scan_containers name image rest w) as [[r w2] t2]; cbn in *.
    intros Hgo Hc. destruct Hin as [<-|Hin]; [exact Hn | exact (IH Hgo c Hc Hin)].
  - cbn. discriminate.
  - specialize (IH (mkWorld (w_fs w) d')).
    destruct (scan_containers_inv name image rest (mkWorld (w_fs w) d'))
      as (_ & _ & Hsub & _).
    destruct (scan_containers name image rest (mkWorld (w_fs w) d'))
      as [[r w2] t2]; cbn in *.
    intros Hgo Hc. destruct Hin as [<-|Hin]; [|exact (IH Hgo c Hc Hin)].
    exfalso. specialize (Hsub c0 Hc). unfold conts in Hsub. cbn in Hsub.
    rewrite (remove_container_ok _ _ _ _ Hr) in Hsub.
    apply filter_In in Hsub. destruct Hsub as [_ Hne].
    rewrite Nat.eqb_refl in Hne. discriminate.
  - cbn. discriminate.
Qed.

Lemma free_name_not_in_use (name : string) (cs : list Docker.container) :
  (forall c, In c cs -> has_name name c = false) ->
  Docker.name_in_use (Py.str1 Py.slash +++ name) cs = false.
Proof.
  intros H. unfold Docker.name_in_use.
  destruct (existsb _ cs) eqn:E; [|reflexivity].
  apply existsb_exists in E. destruct E as (c & Hc & E).
  apply existsb_exists in E. destruct E as (n & Hn & E).
  apply String.eqb_eq in E. subst n.
  assert (Hm : has_name name c = true).
  { unfold has_name. apply existsb_exists.
    exists (Py.str1 Py.slash +++ name). split; [exact Hn|].
    unfold name_matches. cbn. apply String.eqb_refl. }
  rewrite (H c Hc) in Hm. discriminate.
Qed.

(** X3.  When the lookup lets [create_container] go on to the creation,
    no container that carries the name is left on the daemon: every one
    of them was built from the image of the run and has been removed, not
    only the first.  The name is then free, so that the creation cannot
    fail for a name that is in use. *)
Theorem X3_lookup_clears_the_name (name image : string) (w : world) :
  result_of (scan_containers name image (conts w) w) = Ok GoOn ->
  (forall c, In c (conts (world_of (scan_containers name image (conts w) w))) ->
             has_name name c = false) /\
  Docker.name_in_use (Py.str1 Py.slash +++ name)
                     (conts (world_of (scan_containers name image (conts w) w)))
  = false.
Proof.
  intros Hgo.
  assert (H : forall c, In c (conts (world_of (scan_containers name image (conts w) w))) ->
                        has_name name c = false).
  { intros c Hc. apply (scan_containers_clears name image (conts w) w Hgo c Hc).
    destruct (scan_containers_inv name image (conts w) w) as (_ & _ & Hsub & _).
    exact (Hsub c Hc). }
  split; [exact H | exact (free_name_not_in_use _ _ H)].
Qed.

Lemma keeps_fs_lookup (fs0 : Fs.t) (name image : string) (w : world) :
  w_fs w = fs0 ->
  w_fs (world_of (scan_containers name image (conts w) w)) = fs0 /\
  Forall quiet (trace_of (scan_containers name image (conts w) w)).
Proof.
  intros <-.
  destruct (scan_containers_inv name image (conts w) w) as (_ & Hfs & _).
  split; [exact Hfs|].
  eapply Forall_impl; [|apply scan_containers_emits].
  intros []; cbn; auto.
Qed.

Lemma keeps_fs_daemon_call {A : Type} (fs0 : Fs.t)
      (op : Docker.daemon -> result A * Docker.daemon) (ev : result A -> event) :
  (forall r, quiet (ev r)) ->
  keeps (fun w => w_fs w = fs0) quiet
        (fun w => match op (w_docker w) with
                  | (r, d) => (r, mkWorld (w_fs w) d, [ev r])
                  end).
Proof.
  intros Hq w Hw. destruct (op (w_docker w)) as [r d]. cbn.
  split; [exact Hw | repeat constructor; apply Hq].
Qed.

(** X4.  [create_container] works on the daemon only: whatever happens,
    it leaves every file and directory as it found it, and it neither
    packs nor deletes anything. *)
Theorem X4_create_container_leaves_the_files
        (folder file image : string) (extra : option string) (w : world) :
  w_fs (world_of (create_container folder file image extra w)) = w_fs w /\
  Forall quiet (trace_of (create_container folder file image extra w)).
Proof.
  assert (Hread : forall p, keeps (fun w' => w_fs w' = w_fs w) quiet (gzip_open_read p)).
  { intros p w' Hw'. split; [exact Hw' | repeat constructor]. }
  assert (Hput : forall id path data,
             keeps (fun w' => w_fs w' = w_fs w) quiet (cli_put_archive id path data)).
  { intros id path data.
    apply (keeps_fs_daemon_call (w_fs w) (Docker.put_archive id path data)
                                (EPut id path data)).
    intros r; exact I. }
  assert (H : keeps (fun w' => w_fs w' = w_fs w) quiet
                    (create_container folder file image extra)).
  { unfold create_container.
    apply keeps_bind; [apply keeps_print; exact I | intros _].
    apply keeps_listing; [intros; exact I | intros w0 Hw0; exact Hw0 |].
    intros w' Hw'.
    refine (keeps_bind_at (fun w0 => w_fs w0 = w_fs w) quiet _ _ w' _ _);
      [apply keeps_fs_lookup; exact Hw'|].
    intros [|]; [|apply keeps_ret].
    apply keeps_bind.
    { apply (keeps_fs_daemon_call (w_fs w) (Docker.create_container _) (ECreate _)).
      intros r; exact I. }
    intros id.
    apply keeps_bind; [apply keeps_print; exact I | intros _].
    apply keeps_bind; [apply Hread | intros g].
    apply keeps_bind; [apply Hput | intros _].
    apply keeps_bind; [|intros _; apply keeps_print; exact I].
    destruct extra as [x|]; [|apply keeps_ret].
    apply keeps_bind; [apply keeps_print; exact I | intros _].
    apply keeps_bind; [apply Hread | intros g'].
    apply Hput. }
  exact (H w eq_refl).
Qed.

(** ** Every entry once *)

Lemma listings_app (t1 t2 : list event) :
  listings (t1 ++ t2) = listings t1 + listings t2.
Proof.
  induction t1 as [|ev t1 IH]; [reflexivity|].
  destruct ev; cbn; rewrite ?IH; reflexivity.
Qed.

Lemma packed_app (t1 t2 : list event) : packed (t1 ++ t2) = packed t1 ++ packed t2.
Proof.
  induction t1 as [|ev t1 IH]; [reflexivity|].
  destruct ev as [| ? [nm|] ? | | | | | | |]; cbn; rewrite ?IH; reflexivity.
Qed.

Lemma listings_none (t : list event) : Forall not_listing t -> listings t = 0.
Proof.
  induction 1 as [|ev t Hev _ IH]; [reflexivity|].
  destruct ev; cbn in *; try contradiction; exact IH.
Qed.

Lemma packed_quiet (t : list event) : Forall quiet t -> packed t = [].
Proof.
  induction 1 as [|ev t Hev _ IH]; [reflexivity|].
  destruct ev; cbn in *; try contradiction; exact IH.
Qed.

(** One call of [create_container] asks the daemon for its containers
    once, whatever comes of it. *)
Lemma create_container_lists_once (folder file image : string)
      (extra : option string) (w : world) :
  listings (trace_of (create_container folder file image extra w)) = 1.
Proof.
  destruct (Docker.fault (w_docker w) (Docker.clock (w_docker w)) Docker.CallList)
    as [e0|] eqn:Hl.
  { rewrite (create_container_unlisted _ _ _ _ w e0 Hl). reflexivity. }
  rewrite create_container_unfold.
  rewrite bind_trace. cbn [print trace_of snd app listings].
  rewrite bind_trace. rewrite (cli_containers_lists w Hl).
  cbn [trace_of snd app listings].
  f_equal. apply listings_none.
  assert (H : emits not_listing
                (bind (scan_containers (container_name folder file) image (conts w))
                      (fun f =>
                         match f with
                         | Returned => ret tt
                         | GoOn =>
                             id <- cli_create_container
                                     (new_container_args image (container_name folder file)) ;;
                             print "  Extracting assignment" ;;;
                             g <- gzip_open_read file ;;
                             cli_put_archive id "/home/" g ;;;
                             match extra with
                             | Some x =>
                                 print "  Extracting extra file" ;;;
                                 g <- gzip_open_read x ;;
                                 cli_put_archive id "/home/" g
                             | None => ret tt
                             end ;;;
                             print "  Container created"
                         end))).
  { apply emits_bind.
    - eapply emits_weaken; [|apply scan_containers_emits]. intros []; cbn; auto.
    - intros [|]; [|apply emits_ret].
      apply emits_bind; [apply emits_create; intros; exact I | intros id].
      apply emits_bind; [apply emits_print; exact I | intros _].
      apply emits_bind; [apply emits_gzip_read; intros; exact I | intros g].
      apply emits_bind; [apply emits_put; intros; exact I | intros _].
      apply emits_bind; [|intros _; apply emits_print; exact I].
      destruct extra as [x|]; [|apply emits_ret].
      apply emits_bind; [apply emits_print; exact I | intros _].
      apply emits_bind; [apply emits_gzip_read; intros; exact I | intros g'].
      apply emits_put; intros; exact I. }
  exact (H (listed w)).
Qed.

Section EveryEntry.

Variable make_gzip : string -> option string -> Fs.t -> result string * Fs.t.

Lemma grade_files_lists (dirpath image : string) (x : option string)
      (files : list string) (w : world) (u : unit) :
  result_of (grade_files dirpath image x files w) = Ok u ->
  listings (trace_of (grade_files dirpath image x files w)) = length files /\
  packed (trace_of (grade_files dirpath image x files w)) = [].
Proof.
  revert w. induction files as [|f rest IH]; intros w; [intros _; split; reflexivity|].
  cbn [grade_files]. unfold bind.
  pose proof (create_container_lists_once dirpath f image x w) as H1.
  pose proof (create_container_quiet dirpath f image x w) as Hq.
  destruct (create_container dirpath f image x w) as [[[v|e] w1] t1];
    unfold trace_of in H1, Hq; cbn [snd] in H1, Hq; [|discriminate].
  specialize (IH w1).
  destruct (grade_files dirpath image x rest w1) as [[r w2] t2]; cbn in *.
  intros Hr. destruct (IH Hr) as [Hl Hp].
  rewrite listings_app, packed_app, H1, Hl, Hp, (packed_quiet t1 Hq).
  split; reflexivity.
Qed.

Lemma grade_folders_lists (dirpath image : string) (x : option string)
      (dirs cleanup : list string) (w : world) (cl : list string) :
  result_of (grade_folders make_gzip dirpath image x dirs cleanup w) = Ok cl ->
  listings (trace_of (grade_folders make_gzip dirpath image x dirs cleanup w))
  = length dirs /\
  packed (trace_of (grade_folders make_gzip dirpath image x dirs cleanup w)) = dirs.
Proof.
  revert cleanup w. induction dirs as [|d rest IH]; intros cleanup w;
    [intros _; split; reflexivity|].
  cbn [grade_folders]. unfold bind, call_make_gzip.
  destruct (make_gzip d (Some (Re.sub_empty Re.re_submit (Py.basename d))) (w_fs w))
    as [[p|e] fs']; [|discriminate].
  pose proof (create_container_lists_once dirpath p image x (mkWorld fs' (w_docker w)))
    as H1.
  pose proof (create_container_quiet dirpath p image x (mkWorld fs' (w_docker w))) as Hq.
  destruct (create_container dirpath p image x (mkWorld fs' (w_docker w)))
    as [[[v|e] w1] t1]; unfold trace_of in H1, Hq; cbn [snd] in H1, Hq; [|discriminate].
  specialize (IH (cleanup ++ [p]) w1).
  destruct (grade_folders make_gzip dirpath image x rest (cleanup ++ [p]) w1)
    as [[r w2] t2]; cbn in *.
  intros Hr. destruct (IH Hr) as [Hl Hp].
  rewrite listings_app, packed_app, H1, Hl, Hp, (packed_quiet t1 Hq).
  split; reflexivity.
Qed.

Lemma remove_all_lists (l : list string) (w : world) :
  listings (trace_of (remove_all l w)) = 0 /\ packed (trace_of (remove_all l w)) = [].
Proof.
  revert w. induction l as [|p rest IH]; intros w; [split; reflexivity|].
  cbn [remove_all]. unfold bind, os_remove.
  destruct (Fs.remove (w_fs w) p) as [fs'|e]; [|split; reflexivity].
  specialize (IH (mkWorld fs' (w_docker w))).
  destruct (remove_all rest (mkWorld fs' (w_docker w))) as [[r w2] t2]; cbn in *.
  exact IH.
Qed.

Lemma entries_split (es : list (string * Fs.node)) :
  length (Fs.dir_names es) + length (Fs.file_names es) = length es.
Proof.
  unfold Fs.dir_names, Fs.file_names. rewrite !length_map.
  induction es as [|en es IH]; [reflexivity|].
  cbn. destruct (Fs.is_dir_entry en); cbn; lia.
Qed.

(** X5.  In a run that returns normally, every entry of the batch folder
    is looked up on the daemon exactly once, and every entry that is a
    directory is packed exactly once, under the folder joined with its
    name and in the order of the scan. *)
Theorem X5_every_entry_once (a : args) (x : option string) (cleanup : list string)
        (w : world) (es : list (string * Fs.node)) :
  Fs.stat (w_fs w) (folder a) = Some (Fs.Dir es) ->
  result_of (grade_batch make_gzip a x cleanup w) = Ok tt ->
  listings (trace_of (grade_batch make_gzip a x cleanup w)) = length es /\
  packed (trace_of (grade_batch make_gzip a x cleanup w))
  = map (Py.join (folder a)) (Fs.dir_names es).
Proof.
  intros Hes. unfold grade_batch, scan, bind, next_os_walk, Fs.walk_first.
  rewrite Hes. cbn [ret app].
  pose proof (grade_folders_lists (folder a) (image a) x
                (map (Py.join (folder a)) (Fs.dir_names es)) cleanup w) as Hd.
  destruct (grade_folders make_gzip (folder a) (image a) x
              (map (Py.join (folder a)) (Fs.dir_names es)) cleanup w)
    as [[[cl|e] w1] t1]; cbn in Hd; [|discriminate].
  destruct (Hd cl eq_refl) as [Hl1 Hp1].
  pose proof (grade_files_lists (folder a) (image a) x
                (map (Py.join (folder a)) (Fs.file_names es)) w1) as Hf.
  destruct (grade_files (folder a) (image a) x
              (map (Py.join (folder a)) (Fs.file_names es)) w1)
    as [[[u|e] w2] t2]; cbn in Hf; [|discriminate].
  destruct (Hf u eq_refl) as [Hl2 Hp2].
  cbn [print].
  destruct (remove_all_lists cl w2) as [Hl3 Hp3].
  destruct (remove_all cl w2) as [[r w3] t3]; cbn in *.
  intros _.
  rewrite !listings_app, !packed_app. cbn.
  rewrite Hl1, Hl2, Hl3, Hp1, Hp2, Hp3, !length_map, !app_nil_r.
  split; [|reflexivity].
  rewrite Nat.add_0_r. apply entries_split.
Qed.

End EveryEntry.

(** ** The name of a directory's container *)

Lemma named_after_archive_app (dirpath image : string) (t1 t2 : list event) :
  named_after_archive dirpath image t1 ->
  named_after_archive dirpath image t2 ->
  named_after_archive dirpath image (t1 ++ t2).
Proof.
  intros H1 H2 l1 l2 ca r E.
  apply app_eq_app in E. destruct E as (l & [[-> E] | [-> E]]).
  - destruct l as [|ev l]; cbn in E.
    + destruct (H2 [] l2 ca r (eq_sym E)) as (outs & p & Ho & Hca).
      destruct outs; discriminate.
    + inversion E; subst. exact (H1 l1 l ca r eq_refl).
  - destruct (H2 l l2 ca r E) as (outs & p & Ho & Hca).
    exists (gzip_outputs t1 ++ outs), p.
    rewrite gzip_outputs_app, Ho, app_assoc. auto.
Qed.

Section DirectoryNames.

Variable make_gzip : string -> option string -> Fs.t -> result string * Fs.t.

(** X6.  In the loop over the directories, the container of a
    submission is named after the archive and not after the directory:
    every creation is for the container name of the path that
    [make_gzip] has returned last before it. *)
Theorem X6_named_after_the_archive
        (dirpath image : string) (x : option string)
        (dirs cleanup : list string) (w : world) :
  named_after_archive dirpath image
    (trace_of (grade_folders make_gzip dirpath image x dirs cleanup w)).
Proof.
  revert cleanup w. induction dirs as [|d rest IH]; intros cleanup w.
  - intros l1 l2 ca r E. destruct l1; discriminate.
  - cbn [grade_folders]. unfold bind, call_make_gzip.
    destruct (make_gzip d (Some (Re.sub_empty Re.re_submit (Py.basename d))) (w_fs w))
      as [[p|e] fs'].
    2:{ cbn. intros l1 l2 ca r E. destruct l1 as [|? [|? ?]]; discriminate. }
    pose proof (create_container_emits dirpath p image x (mkWorld fs' (w_docker w)))
      as Hev.
    pose proof (create_container_quiet dirpath p image x (mkWorld fs' (w_docker w)))
      as Hq.
    assert (Hblock : forall t, Forall (submission_event image (container_name dirpath p)) t ->
                               Forall quiet t ->
                               named_after_archive dirpath image
                                 (EMakeGzip d (Some (Re.sub_empty Re.re_submit (Py.basename d)))
                                            (Ok p) :: t)).
    { intros t Hs Hqt l1 l2 ca r E.
      destruct l1 as [|ev l1]; [discriminate|]. inversion E; subst.
      apply Forall_app in Hs, Hqt. destruct Hs as [_ Hs]. destruct Hqt as [Hqt _].
      inversion Hs as [|? ? Hca _]. cbn in Hca.
      exists [], p. cbn. rewrite (gzip_outputs_quiet l1 Hqt). auto. }
    destruct (create_container dirpath p image x (mkWorld fs' (w_docker w)))
      as [[[u|e] w1] t1]; unfold trace_of in Hev, Hq; cbn [snd] in Hev, Hq.
    2:{ cbn. apply Hblock; assumption. }
    specialize (IH (cleanup ++ [p]) w1).
    destruct (grade_folders make_gzip dirpath image x rest (cleanup ++ [p]) w1)
      as [[r w2] t2]; cbn in *.
    change (EMakeGzip d (Some (Re.sub_empty Re.re_submit (Py.basename d))) (Ok p)
            :: t1 ++ t2)
      with ((EMakeGzip d (Some (Re.sub_empty Re.re_submit (Py.basename d))) (Ok p)
             :: t1) ++ t2).
    apply named_after_archive_app; [apply Hblock; assumption | exact IH].
Qed.

End DirectoryNames.

(** ** Running a submission again *)

Lemma has_id_last (cs : list Docker.container) (c : Docker.container) :
  Docker.has_id (Docker.Id c) (cs ++ [c]) = true.
Proof.
  unfold Docker.has_id. rewrite existsb_app. cbn.
  rewrite Nat.eqb_refl. cbn. apply orb_true_r.
Qed.

Lemma has_name_made (id : nat) (image name : string) :
  has_name name (made id image name) = true.
Proof.
  unfold has_name, made, name_matches. cbn. rewrite String.eqb_refl. reflexivity.
Qed.

(** The creation and the copies on a daemon on which the name is free and
    nothing fails. *)
Lemma create_container_goes_on (folder file image : string) (extra : option string)
      (w w1 : world) (t1 : list event) (d : string) :
  lists w ->
  scan_containers (container_name folder file) image (conts w) (listed w)
  = (Ok GoOn, w1, t1) ->
  fault_free w1 ->
  (forall c, In c (conts w1) -> has_name (container_name folder file) c = false) ->
  Fs.gzip_read (w_fs w1) file = Ok d ->
  extra_readable (w_fs w1) extra ->
  exists w2 t2,
    create_container folder file image extra w
    = (Ok tt, w2,
       EPrint (display_name file +++ ":") :: EContainers (Ok tt) :: t1
       ++ ECreate (new_container_args image (container_name folder file))
                  (Ok (Docker.fresh_id (conts w1)))
       :: EPrint "  Extracting assignment"
       :: EGzipRead file (Ok d)
       :: EPut (Docker.fresh_id (conts w1)) "/home/" d (Ok tt)
       :: t2) /\
    conts w2 = conts w1 ++ [made (Docker.fresh_id (conts w1)) image
                                 (container_name folder file)] /\
    w_fs w2 = w_fs w1 /\
    Docker.fault (w_docker w2) = Docker.fault (w_docker w1).
Proof.
  intros Hl Hscan Hff Hfree Hd Hx.
  pose proof (free_name_not_in_use _ _ Hfree) as Hnu.
  rewrite create_container_unfold.
  unfold bind at 1. cbn [print]. unfold bind at 1.
  rewrite (cli_containers_lists w Hl).
  unfold bind at 1. rewrite Hscan.
  unfold fault_free in Hff. unfold conts in *.
  set (name := container_name folder file) in *.
  set (id := Docker.fresh_id (Docker.containers (w_docker w1))).
  assert (Hput : forall data clk,
    Docker.put_archive id "/home/" data
      (Docker.mkDaemon (Docker.containers (w_docker w1) ++ [made id image name]) clk
                       (Docker.fault (w_docker w1)))
    = (Ok tt,
       Docker.mkDaemon (Docker.containers (w_docker w1) ++ [made id image name]) (S clk)
                       (Docker.fault (w_docker w1)))).
  { intros data clk. unfold Docker.put_archive. cbn [Docker.fault Docker.clock Docker.containers].
    rewrite Hff.
    change id with (Docker.Id (made id image name)) at 1.
    rewrite has_id_last. reflexivity. }
  unfold bind, cli_create_container, Docker.create_container.
  rewrite Hff. cbn [Docker.ca_name new_container_args]. rewrite Hnu.
  cbn [print gzip_open_read w_fs w_docker Docker.tick Docker.ca_image].
  rewrite Hd. unfold cli_put_archive. cbn [w_fs w_docker].
  unfold Docker.tick.
  change (Docker.ca_image (new_container_args image name)) with image.
  change (Docker.mkContainer id [Py.str1 Py.slash +++ name] image)
    with (made id image name).
  rewrite Hput.
  destruct extra as [x|].
  - destruct Hx as [dx Hdx]. cbn [print gzip_open_read w_fs w_docker].
    rewrite Hdx. rewrite Hput. cbn.
    eexists _, _. split; [reflexivity|]. repeat split.
  - cbn. eexists _, _. split; [reflexivity|]. repeat split.
Qed.

Lemma scan_containers_free (name image : string) (cs : list Docker.container)
      (w : world) :
  (forall c, In c cs -> has_name name c = false) ->
  scan_containers name image cs w = (Ok GoOn, w, []).
Proof.
  intros H. rewrite <- (app_nil_r cs).
  rewrite (scan_containers_skip_prefix name image cs [] w H). reflexivity.
Qed.

Lemma filter_fresh_id (cs : list Docker.container) (c : Docker.container) :
  Docker.Id c = Docker.fresh_id cs ->
  filter (fun c0 => negb (Nat.eqb (Docker.Id c0) (Docker.Id c))) (cs ++ [c]) = cs.
Proof.
  intros Hid. rewrite filter_app. cbn. rewrite Nat.eqb_refl. cbn.
  rewrite app_nil_r. apply forallb_filter_id. apply forallb_forall.
  intros c0 Hin. apply negb_true_iff, Nat.eqb_neq.
  rewrite Hid. intros E. exact (fresh_id_new cs c0 Hin (eq_sym E)).
Qed.

(** The lookup of a second run finds the container of the first run at
    the end of the list and removes it. *)
Lemma scan_containers_removes_made (name image : string) (w : world)
      (cs : list Docker.container) :
  conts w = cs ++ [made (Docker.fresh_id cs) image name] ->
  fault_free w ->
  (forall c, In c cs -> has_name name c = false) ->
  scan_containers name image (conts w) w
  = (Ok GoOn,
     mkWorld (w_fs w) (Docker.tick (w_docker w) cs),
     [EPrint "  Removing old container";
      ERemove (Docker.fresh_id cs) true (Ok tt)]).
Proof.
  intros Hcs Hff Hfree. rewrite Hcs.
  rewrite (scan_containers_skip_prefix name image cs _ w Hfree).
  rewrite scan_containers_cons. unfold visit.
  rewrite has_name_made.
  cbn [made Docker.Image Docker.Id]. rewrite String.eqb_refl.
  cbn [negb]. unfold bind, attempt, cli_remove_container, Docker.remove_container.
  cbn [print]. unfold fault_free in Hff. rewrite Hff. unfold conts in Hcs. rewrite Hcs.
  pose proof (has_id_last cs (made (Docker.fresh_id cs) image name)) as Hid.
  cbn [made Docker.Id] in Hid. rewrite Hid.
  pose proof (filter_fresh_id cs (made (Docker.fresh_id cs) image name) eq_refl) as Hf.
  cbn [made Docker.Id] in Hf. rewrite Hf.
  reflexivity.
Qed.

(** X7.  Running [create_container] for the same submission a second time
    replaces the container of the first run: on a daemon that does not
    fail, with the name free at the start and the archives readable, both
    runs return normally, the second one removes (by force) the container
    the first one made, and after either run the daemon holds the
    containers it had before and exactly one more, named after the
    submission and made from the image. *)
Theorem X7_second_run_replaces (folder file image : string) (extra : option string)
        (w : world) (d : string) :
  fault_free w ->
  (forall c, In c (conts w) -> has_name (container_name folder file) c = false) ->
  Fs.gzip_read (w_fs w) file = Ok d ->
  extra_readable (w_fs w) extra ->
  let once := create_container folder file image extra w in
  let twice := create_container folder file image extra (world_of once) in
  let name := container_name folder file in
  result_of once = Ok tt /\
  conts (world_of once) = conts w ++ [made (Docker.fresh_id (conts w)) image name] /\
  result_of twice = Ok tt /\
  In (ERemove (Docker.fresh_id (conts w)) true (Ok tt)) (trace_of twice) /\
  exists id, conts (world_of twice) = conts w ++ [made id image name].
Proof.
  intros Hff Hfree Hd Hx once twice name.
  assert (Hffl : forall w0, fault_free w0 -> fault_free (listed w0) /\ lists w0).
  { intros w0 H0. split; [intros time call; apply H0 | apply H0]. }
  destruct (create_container_goes_on folder file image extra w (listed w) [] d
              (proj2 (Hffl w Hff))
              (scan_containers_free _ image _ (listed w) Hfree)
              (proj1 (Hffl w Hff)) Hfree Hd Hx)
    as (w1 & t1 & E1 & Hc1 & Hfs1 & Hfault1).
  change (conts (listed w)) with (conts w) in Hc1.
  change (w_fs (listed w)) with (w_fs w) in Hfs1.
  change (Docker.fault (w_docker (listed w))) with (Docker.fault (w_docker w)) in Hfault1.
  assert (Hw1 : world_of once = w1) by (unfold once; rewrite E1; reflexivity).
  assert (Hff1 : fault_free w1).
  { intros time call. rewrite Hfault1. apply Hff. }
  pose proof (scan_containers_removes_made name image (listed w1) (conts w) Hc1
                                           (proj1 (Hffl w1 Hff1)) Hfree)
    as Hscan.
  change (conts (listed w1)) with (conts w1) in Hscan.
  assert (Hd1 : Fs.gzip_read (w_fs w1) file = Ok d) by (rewrite Hfs1; exact Hd).
  assert (Hx1 : extra_readable (w_fs w1) extra) by (rewrite Hfs1; exact Hx).
  destruct (create_container_goes_on folder file image extra w1
              (mkWorld (w_fs (listed w1)) (Docker.tick (w_docker (listed w1)) (conts w)))
              _ d (proj2 (Hffl w1 Hff1))
              Hscan) as (w2 & t2 & E2 & Hc2 & Hfs2 & Hfault2).
  - intros time call. cbn. apply Hff1.
  - exact Hfree.
  - exact Hd1.
  - exact Hx1.
  - split; [unfold once; rewrite E1; reflexivity|].
    split; [rewrite Hw1; exact Hc1|].
    unfold twice. rewrite Hw1, E2. cbn [result_of trace_of world_of fst snd].
    split; [reflexivity|]. split.
    + right. right. right. left. reflexivity.
    + eexists. exact Hc2.
Qed.

(* ================================================================= *)
(** * The further properties on the sample batches *)

(** A directory named [alice] is packed under its own name. *)
Lemma X1_witness :
  (forall pre, "alice" <> pre +++ "_submit") /\
  (forall pre, "alice" <> pre +++ "_submit" +++ Py.str1 Py.LF) /\
  Re.sub_empty Re.re_submit "alice" = "alice".
Proof.
  assert (H1 : forall pre, "alice" <> pre +++ "_submit").
  { intros pre H. apply (f_equal String.length) in H.
    rewrite length_append in H. cbn in H. lia. }
  assert (H2 : forall pre, "alice" <> pre +++ "_submit" +++ Py.str1 Py.LF).
  { intros pre H. apply (f_equal String.length) in H.
    rewrite length_append in H. cbn in H. lia. }
  split; [exact H1|]. split; [exact H2|].
  exact (proj2 (proj2 X1_strip_submit) "alice" H1 H2).
Defined.

(** The batch folder given as [/srv/HW8], as [/srv/HW8/] and as [HW8]. *)
Lemma X2_witness :
  Py.has_slash "HW8" = false /\
  container_name "/srv/HW8" "HW8/bob.tar.gz" = "HW8_bob" /\
  container_name "/srv/HW8/" "HW8/bob.tar.gz" = "_bob" /\
  container_name "HW8" "HW8/bob.tar.gz" = "HW8_bob".
Proof.
  split; [reflexivity|].
  destruct (X2_folder_part_of_the_name "/srv" "HW8" "HW8/bob.tar.gz" eq_refl)
    as (H1 & _ & H3).
  destruct (X2_folder_part_of_the_name "/srv/HW8" "HW8" "HW8/bob.tar.gz" eq_refl)
    as (_ & H2 & _).
  split; [exact H1|]. split; [exact H2 | exact H3].
Defined.

(** The container an earlier run has left for [bob] is gone after the
    lookup. *)
Lemma X3_witness :
  result_of (scan_containers "HW8_bob" "course-hw8" (conts rerun_host) rerun_host)
  = Ok GoOn /\
  (forall c,
      In c (conts (world_of (scan_containers "HW8_bob" "course-hw8"
                                             (conts rerun_host) rerun_host))) ->
      has_name "HW8_bob" c = false) /\
  Docker.name_in_use
    "/HW8_bob"
    (conts (world_of (scan_containers "HW8_bob" "course-hw8"
                                      (conts rerun_host) rerun_host)))
  = false.
Proof.
  assert (H : result_of (scan_containers "HW8_bob" "course-hw8"
                                         (conts rerun_host) rerun_host) = Ok GoOn)
    by reflexivity.
  split; [exact H|].
  exact (X3_lookup_clears_the_name "HW8_bob" "course-hw8" rerun_host H).
Defined.

(** The batch [HW8]: two entries, two lookups; one directory, packed
    once. *)
Lemma X5_witness :
  Fs.stat (w_fs Sample.empty_host) "HW8"
  = Some (Fs.Dir
            [ ("alice_submit", Fs.Dir [("main.c", Fs.File (Fs.Plain "int main;"))]);
              ("bob.tar.gz", Fs.File (Fs.Gzip "tar of bob")) ]) /\
  result_of (grade_batch Sample.make_gzip (mkArgs "HW8" "course-hw8" None) None []
                         Sample.empty_host) = Ok tt /\
  listings (trace_of (grade_batch Sample.make_gzip (mkArgs "HW8" "course-hw8" None)
                                  None [] Sample.empty_host)) = 2 /\
  packed (trace_of (grade_batch Sample.make_gzip (mkArgs "HW8" "course-hw8" None)
                                None [] Sample.empty_host)) = ["HW8/alice_submit"].
Proof.
  assert (H1 : Fs.stat (w_fs Sample.empty_host) "HW8"
               = Some (Fs.Dir
                         [ ("alice_submit",
                            Fs.Dir [("main.c", Fs.File (Fs.Plain "int main;"))]);
                           ("bob.tar.gz", Fs.File (Fs.Gzip "tar of bob")) ]))
    by reflexivity.
  assert (H2 : result_of (grade_batch Sample.make_gzip
                                      (mkArgs "HW8" "course-hw8" None) None []
                                      Sample.empty_host) = Ok tt)
    by (vm_compute; reflexivity).
  split; [exact H1|]. split; [exact H2|].
  exact (X5_every_entry_once Sample.make_gzip (mkArgs "HW8" "course-hw8" None) None []
                             Sample.empty_host _ H1 H2).
Defined.

(** The archive of [bob], sent twice to a host without containers. *)
Lemma X7_witness :
  fault_free Sample.empty_host /\
  Fs.gzip_read (w_fs Sample.empty_host) "HW8/bob.tar.gz" = Ok "tar of bob" /\
  result_of (rerun 2 (create_container "HW8" "HW8/bob.tar.gz" "course-hw8" None)
                   Sample.empty_host) = Ok tt /\
  conts (world_of (create_container "HW8" "HW8/bob.tar.gz" "course-hw8" None
                                    Sample.empty_host))
  = [made 1 "course-hw8" "HW8_bob"] /\
  In (ERemove 1 true (Ok tt))
     (trace_of (create_container "HW8" "HW8/bob.tar.gz" "course-hw8" None
                  (world_of (create_container "HW8" "HW8/bob.tar.gz" "course-hw8" None
                                              Sample.empty_host)))) /\
  exists id,
    conts (world_of (create_container "HW8" "HW8/bob.tar.gz" "course-hw8" None
                       (world_of (create_container "HW8" "HW8/bob.tar.gz" "course-hw8"
                                                   None Sample.empty_host))))
    = [made id "course-hw8" "HW8_bob"].
Proof.
  assert (H1 : fault_free Sample.empty_host) by (intros time call; reflexivity).
  assert (H2 : forall c, In c (conts Sample.empty_host) ->
                         has_name (container_name "HW8" "HW8/bob.tar.gz") c = false)
    by (intros c []).
  assert (H3 : Fs.gzip_read (w_fs Sample.empty_host) "HW8/bob.tar.gz" = Ok "tar of bob")
    by reflexivity.
  destruct (X7_second_run_replaces "HW8" "HW8/bob.tar.gz" "course-hw8" None
              Sample.empty_host "tar of bob" H1 H2 H3 I)
    as (_ & Hc & _ & Hin & Hex).
  split; [exact H1|]. split; [exact H3|]. split; [vm_compute; reflexivity|].
  split; [exact Hc|]. split; [exact Hin | exact Hex].
Defined.

(** The batch [HW8] on a host whose daemon cannot be reached: the first
    listing raises, the run ends there, [bob] is never looked up and the
    archive made for [alice] stays on the disk. *)
Lemma listing_failure_ends_the_run :
  Sample.run (mkArgs "HW8" "course-hw8" None) offline_host
  = (Raise (Exception "ConnectionError" "Connection aborted."),
     world_of (Sample.run (mkArgs "HW8" "course-hw8" None) offline_host),
     [ EWalk "HW8" true;
       EMakeGzip "HW8/alice_submit" (Some "alice") (Ok "/tmp/alice.tar.gz");
       EPrint "alice:";
       EContainers (Raise (Exception "ConnectionError" "Connection aborted.")) ]) /\
  Fs.isfile (w_fs (world_of (Sample.run (mkArgs "HW8" "course-hw8" None) offline_host)))
            "/tmp/alice.tar.gz" = true.
Proof. split; vm_compute; reflexivity. Qed.

(* ================================================================= *)
(** * Properties of the assignment models *)

(** ** Assignment names *)

Lemma name_char_LF : Assignment.name_char Py.LF = false.
Proof. reflexivity. Qed.

Lemma name_char_slash : Assignment.name_char Py.slash = false.
Proof. reflexivity. Qed.

(** The greedy run of the class followed by the end anchor. *)
Lemma star_name_eol (t : string) :
  (exists r, Re.star_class Assignment.name_char t
               (fun rest => if Re.at_eol rest then Some rest else None) = Some r)
  <-> exists b, all_in Assignment.name_char b = true /\
                (t = b \/ t = b +++ Py.str1 Py.LF).
Proof.
  induction t as [|c t IH].
  - cbn. split.
    + intros _. exists EmptyString. auto.
    + intros _. eauto.
  - cbn [Re.star_class]. destruct (Assignment.name_char c) eqn:Hc.
    + assert (Hk : Re.at_eol (String c t) = false).
      { destruct t as [|d t']; [|reflexivity].
        change (Ascii.eqb c Py.LF = false). apply Ascii.eqb_neq. intros E.
        subst c. vm_compute in Hc; discriminate. }
      rewrite Hk. split.
      * intros [r Hr].
        destruct (Re.star_class Assignment.name_char t
                    (fun rest => if Re.at_eol rest then Some rest else None))
          as [r'|] eqn:Hs; [|discriminate].
        destruct (proj1 IH (ex_intro _ r' eq_refl)) as (b & Hb & Ht).
        exists (String c b). cbn. rewrite Hc, Hb. split; [reflexivity|].
        destruct Ht as [->| ->]; auto.
      * intros (b & Hb & Ht).
        destruct b as [|c' b'].
        { destruct Ht as [Ht|Ht]; [discriminate|].
          cbn in Ht. inversion Ht; subst. vm_compute in Hc; discriminate. }
        cbn in Hb. apply andb_true_iff in Hb. destruct Hb as [_ Hb'].
        assert (Ht' : t = b' \/ t = b' +++ Py.str1 Py.LF).
        { destruct Ht as [Ht|Ht]; cbn in Ht; inversion Ht; auto. }
        destruct (proj2 IH (ex_intro _ b' (conj Hb' Ht'))) as [r Hr].
        rewrite Hr. eauto.
    + split.
      * intros [r Hr]. destruct (Re.at_eol (String c t)) eqn:Hk; [|discriminate].
        apply at_eol_inv in Hk. destruct Hk as [Hk|Hk]; [discriminate|].
        exists EmptyString. split; [reflexivity|]. right. exact Hk.
      * intros (b & Hb & Ht). destruct b as [|c' b'].
        { destruct Ht as [Ht|Ht]; [discriminate|]. cbn in Ht. rewrite Ht.
          cbn. eauto. }
        cbn in Hb. apply andb_true_iff in Hb. destruct Hb as [Hc' _].
        assert (c = c') by (destruct Ht as [Ht|Ht]; cbn in Ht; inversion Ht; auto).
        subst c'. rewrite Hc in Hc'. discriminate.
Qed.

(** What [NAME_RE.match] accepts is made of the class, but for a line
    feed at the end. *)
Lemma NAME_RE_match_inv (s : string) :
  Assignment.NAME_RE_match s = true ->
  exists body,
    body <> EmptyString /\ all_in Assignment.name_char body = true /\
    (s = body \/ s = body +++ Py.str1 Py.LF).
Proof.
  unfold Assignment.NAME_RE_match, Assignment.NAME_RE. cbn [Re.rmatch].
  destruct s as [|c t]; [discriminate|].
  destruct (Assignment.name_char c) eqn:Hc; [|discriminate].
  intros H.
  destruct (Re.star_class Assignment.name_char t
              (fun rest => if Re.at_eol rest then Some rest else None))
    as [r|] eqn:Hs; [|discriminate].
  destruct (proj1 (star_name_eol t) (ex_intro _ r Hs)) as (b & Hb & Ht).
  exists (String c b). split; [discriminate|]. cbn. rewrite Hc, Hb.
  split; [reflexivity|]. destruct Ht as [->| ->]; auto.
Qed.

(** X8.  The names [Assignment.NAME_RE] accepts are the non-empty
    strings of letters, digits, underscores, dots and hyphens, and these
    strings with one line feed behind them: the anchor [$] lets a final
    line feed pass. *)
Theorem X8_accepted_names (s : string) :
  Assignment.NAME_RE_match s = true <->
  exists body,
    body <> EmptyString /\ all_in Assignment.name_char body = true /\
    (s = body \/ s = body +++ Py.str1 Py.LF).
Proof.
  split; [apply NAME_RE_match_inv|].
  unfold Assignment.NAME_RE_match, Assignment.NAME_RE. cbn [Re.rmatch].
  intros (b & Hne & Hb & Ht). destruct b as [|c b']; [congruence|].
  cbn in Hb. apply andb_true_iff in Hb. destruct Hb as [Hc Hb'].
  assert (Hs : exists t, s = String c t /\ (t = b' \/ t = b' +++ Py.str1 Py.LF)).
  { destruct Ht as [->| ->]; eexists; split; try reflexivity; auto. }
  destruct Hs as (t & -> & Ht'). rewrite Hc.
  destruct (proj2 (star_name_eol t) (ex_intro _ b' (conj Hb' Ht'))) as [r Hr].
  rewrite Hr. reflexivity.
Qed.

(** ** Image tags *)

Lemma append_inj_l (a b c : string) : a +++ b = a +++ c -> b = c.
Proof. induction a as [|x a IH]; cbn; intros H; [exact H|]. inversion H. auto. Qed.

(** A string without hyphen before a hyphen is found again as the part
    before the first hyphen. *)
Lemma split_at_hyphen (a a' r r' : string) :
  has_hyphen a = false -> has_hyphen a' = false ->
  a +++ String "-" r = a' +++ String "-" r' -> a = a' /\ r = r'.
Proof.
  revert a'. induction a as [|c a IH]; intros a' Ha Ha' E.
  - destruct a' as [|c' a']; cbn in E.
    + inversion E. auto.
    + inversion E; subst c'. cbn in Ha'. discriminate.
  - cbn in Ha. apply orb_false_elim in Ha. destruct Ha as [Hc Ha].
    destruct a' as [|c' a']; cbn in E.
    + inversion E; subst c. cbn in Hc. discriminate.
    + inversion E; subst c'. cbn in Ha'. apply orb_false_elim in Ha'.
      destruct Ha' as [_ Ha']. destruct (IH a' Ha Ha' H1) as [-> ->]. auto.
Qed.

Section ImageTags.

Context {git : GitPython} {cfg : ConfigModule}.

(** X9.  When two assignments have the same image tag, they have the
    same name if they belong to the same grader; and if no course id and
    no course name in their graders' configurations holds a hyphen, they
    also have the same course id and the same course name. *)
Theorem X9_image_tag_tells_assignments_apart
        (a1 a2 : Assignment.t) (tag : string) :
  Assignment.image_tag a1 = Ok tag ->
  Assignment.image_tag a2 = Ok tag ->
  (Assignment.grader a1 = Assignment.grader a2 ->
   Assignment.name a1 = Assignment.name a2) /\
  ((forall g key v,
       In g [Assignment.grader a1; Assignment.grader a2] ->
       In key ["course-id"; "course-name"] ->
       getitem (config g) key = Ok v -> has_hyphen v = false) ->
   Assignment.name a1 = Assignment.name a2 /\
   getitem (config (Assignment.grader a1)) "course-id"
   = getitem (config (Assignment.grader a2)) "course-id" /\
   getitem (config (Assignment.grader a1)) "course-name"
   = getitem (config (Assignment.grader a2)) "course-name").
Proof.
  unfold Assignment.image_tag. intros H1 H2.
  destruct (getitem (config (Assignment.grader a1)) "course-id") as [i1|] eqn:Ei1;
    [|discriminate].
  destruct (getitem (config (Assignment.grader a1)) "course-name") as [n1|] eqn:En1;
    [|discriminate].
  destruct (getitem (config (Assignment.grader a2)) "course-id") as [i2|] eqn:Ei2;
    [|discriminate].
  destruct (getitem (config (Assignment.grader a2)) "course-name") as [n2|] eqn:En2;
    [|discriminate].
  inversion H1 as [T1]. inversion H2 as [T2]. split.
  - intros Hg. rewrite Hg in Ei1, En1.
    assert (i1 = i2) by congruence. assert (n1 = n2) by congruence. subst i2 n2.
    rewrite <- T2 in T1.
    apply append_inj_l in T1. cbn in T1. inversion T1 as [T3].
    apply append_inj_l in T3. cbn in T3. inversion T3. reflexivity.
  - intros Hh.
    assert (Hi1 : has_hyphen i1 = false).
    { apply (Hh (Assignment.grader a1) "course-id"); cbn; auto. }
    assert (Hn1 : has_hyphen n1 = false).
    { apply (Hh (Assignment.grader a1) "course-name"); cbn; auto. }
    assert (Hi2 : has_hyphen i2 = false).
    { apply (Hh (Assignment.grader a2) "course-id"); cbn; auto. }
    assert (Hn2 : has_hyphen n2 = false).
    { apply (Hh (Assignment.grader a2) "course-name"); cbn; auto. }
    rewrite <- T2 in T1.
    destruct (split_at_hyphen _ _ _ _ Hi1 Hi2 T1) as [-> T3].
    destruct (split_at_hyphen _ _ _ _ Hn1 Hn2 T3) as [-> T4].
    auto.
Qed.

End ImageTags.

(** ** Paths and directories *)

Lemma resolve_walk (rt : Fs.node) (comps : list string) :
  forall stack q,
    Fs.walk_comps rt stack comps = Some q -> Os.resolve rt stack comps = inr q.
Proof.
  induction comps as [|c comps IH]; intros stack q H; cbn in *.
  - inversion H. reflexivity.
  - destruct (Fs.lookup_path rt (rev stack)) as [[f|es]|]; try discriminate.
    destruct (Fs.is_cur c); [auto|].
    destruct (String.eqb c ".."); [auto|].
    destruct (Fs.assoc c es); [auto | discriminate].
Qed.

Lemma walk_comps_cur (rt : Fs.node) (stack pre q : list string) :
  Fs.walk_comps rt stack (pre ++ [EmptyString]) = Some q ->
  Fs.walk_comps rt stack pre = Some q /\
  exists es, Fs.lookup_path rt q = Some (Fs.Dir es).
Proof.
  rewrite walk_comps_app.
  destruct (Fs.walk_comps rt stack pre) as [q1|]; [|discriminate].
  cbn [Fs.walk_comps]. rewrite rev_involutive.
  destruct (Fs.lookup_path rt q1) as [[f|es]|] eqn:Hq1; try discriminate.
  cbn. intros H. inversion H; subst. eauto.
Qed.

Lemma walk_comps_pre (rt : Fs.node) (stack comps pre q : list string) :
  Fs.walk_comps rt stack comps = Some q ->
  comps = pre \/ comps = pre ++ [EmptyString] ->
  Fs.walk_comps rt stack pre = Some q.
Proof.
  intros H [->| ->]; [exact H|]. apply walk_comps_cur in H. apply H.
Qed.

(** The components of a path joined with one name. *)
Lemma split_join (top x : string) :
  top <> EmptyString -> Py.has_slash x = false -> x <> EmptyString ->
  exists pre,
    Py.split_slash (Py.join top x) = pre ++ [x] /\
    (Py.split_slash top = pre \/ Py.split_slash top = pre ++ [EmptyString]) /\
    Fs.is_abs (Py.join top x) = Fs.is_abs top /\
    String.eqb (Py.join top x) EmptyString = false.
Proof.
  intros Hne Hns Hx. destruct x as [|c t]; [congruence|].
  assert (Hc : Ascii.eqb c Py.slash = false).
  { cbn in Hns. apply orb_false_elim in Hns. apply Hns. }
  unfold Py.join. rewrite Hc.
  replace (String.eqb top EmptyString) with false
    by (symmetry; apply String.eqb_neq; exact Hne).
  cbn [orb].
  destruct (Py.ends_with_slash top) eqn:Hend.
  - destruct (ends_with_slash_inv top Hend) as [top' Etop].
    exists (Py.split_slash top').
    assert (Hjoin : top +++ String c t = top' +++ String Py.slash (String c t)).
    { rewrite Etop, append_assoc. reflexivity. }
    split; [|split; [|split]].
    + rewrite Hjoin, split_slash_app, (split_slash_plain _ Hns). reflexivity.
    + right. rewrite Etop. apply split_slash_app.
    + apply is_abs_append. exact Hne.
    + apply String.eqb_neq. destruct top; [congruence | discriminate].
  - exists (Py.split_slash top).
    change (Py.str1 Py.slash +++ String c t) with (String Py.slash (String c t)).
    split; [|split; [|split]].
    + rewrite split_slash_app, (split_slash_plain _ Hns). reflexivity.
    + left. reflexivity.
    + apply is_abs_append. exact Hne.
    + apply String.eqb_neq. destruct top; [congruence | discriminate].
Qed.

(** What [Fs.stat] works on. *)
Lemma stat_inv (fs : Fs.t) (p : string) (n : Fs.node) :
  Fs.stat fs p = Some n ->
  p <> EmptyString /\
  exists q, Fs.walk_comps (Fs.root fs) (Os.start fs p) (Py.split_slash p) = Some q /\
            Fs.lookup_path (Fs.root fs) q = Some n.
Proof.
  unfold Fs.stat, Fs.realpath, Os.start.
  destruct (String.eqb p EmptyString) eqn:Hne; [discriminate|].
  apply String.eqb_neq in Hne.
  destruct (Fs.walk_comps _ _ _) as [q|] eqn:Hw; [|discriminate].
  intros H. split; [exact Hne|]. exists q. auto.
Qed.

Lemma stat_walk (fs : Fs.t) (p : string) (q : list string) :
  String.eqb p EmptyString = false ->
  Fs.walk_comps (Fs.root fs) (Os.start fs p) (Py.split_slash p) = Some q ->
  Fs.stat fs p = Fs.lookup_path (Fs.root fs) q.
Proof.
  intros Hne Hw. unfold Fs.stat, Fs.realpath. rewrite Hne.
  unfold Os.start in Hw. rewrite Hw. reflexivity.
Qed.

Lemma stat_walk_none (fs : Fs.t) (p : string) :
  Fs.walk_comps (Fs.root fs) (Os.start fs p) (Py.split_slash p) = None ->
  Fs.stat fs p = None.
Proof.
  intros Hw. unfold Fs.stat, Fs.realpath.
  destruct (String.eqb p EmptyString); [reflexivity|].
  unfold Os.start in Hw. rewrite Hw. reflexivity.
Qed.

Lemma start_join (fs : Fs.t) (top x : string) :
  Fs.is_abs (Py.join top x) = Fs.is_abs top ->
  Os.start fs (Py.join top x) = Os.start fs top.
Proof. intros H. unfold Os.start. rewrite H. reflexivity. Qed.

Lemma lookup_path_prefix (n : Fs.node) (p r : list string) (m : Fs.node) :
  Fs.lookup_path n (p ++ r) = Some m -> exists m', Fs.lookup_path n p = Some m'.
Proof.
  rewrite lookup_path_app. destruct (Fs.lookup_path n p); [eauto | discriminate].
Qed.

(** Below a directory, the empty name and the two dot names lead to a
    directory that is there. *)
Lemma dot_exists (fs : Fs.t) (top x : string) (es : list (string * Fs.node)) :
  Fs.stat fs top = Some (Fs.Dir es) ->
  In x [EmptyString; "."; ".."] ->
  Os.path_exists fs (Py.join top x) = true.
Proof.
  intros Htop Hx. destruct (stat_inv _ _ _ Htop) as (Hne & q & Hw & Hq).
  unfold Os.path_exists.
  assert (Hdots : forall c, c = "." \/ c = ".." ->
            exists n, Fs.stat fs (Py.join top c) = Some n).
  { intros c Hc.
    assert (Hns : Py.has_slash c = false) by (destruct Hc; subst; reflexivity).
    assert (Hc0 : c <> EmptyString) by (destruct Hc; subst; discriminate).
    destruct (split_join top c Hne Hns Hc0) as (pre & Hsplit & Hpre & Habs & Hnn).
    pose proof (walk_comps_pre _ _ _ _ _ Hw Hpre) as Hwp.
    assert (Hwalk : exists q', Fs.walk_comps (Fs.root fs) (Os.start fs top) (pre ++ [c])
                               = Some q' /\
                               exists n, Fs.lookup_path (Fs.root fs) q' = Some n).
    { rewrite walk_comps_app, Hwp. cbn [Fs.walk_comps]. rewrite rev_involutive, Hq.
      destruct Hc as [->| ->]; cbn.
      - eauto.
      - eexists. split; [reflexivity|].
        destruct (rev q) as [|y s] eqn:Er.
        + cbn. eauto.
        + cbn [tl]. apply (lookup_path_prefix (Fs.root fs) (rev s) [y] (Fs.Dir es)).
          assert (E : q = rev s ++ [y]).
          { rewrite <- (rev_involutive q), Er. reflexivity. }
          rewrite <- E. exact Hq. }
    destruct Hwalk as (q' & Hw' & n & Hn).
    exists n. rewrite (stat_walk fs _ q' Hnn).
    - exact Hn.
    - rewrite (start_join _ _ _ Habs), Hsplit. exact Hw'. }
  destruct Hx as [<-|[<-|[<-|[]]]].
  - unfold Py.join.
    replace (String.eqb top EmptyString) with false
      by (symmetry; apply String.eqb_neq; exact Hne).
    cbn [orb]. destruct (Py.ends_with_slash top); [rewrite Htop; reflexivity|].
    assert (Hnn : String.eqb (top +++ Py.str1 Py.slash) EmptyString = false).
    { apply String.eqb_neq. destruct top; [congruence | discriminate]. }
    assert (Hst : Os.start fs (top +++ Py.str1 Py.slash) = Os.start fs top).
    { unfold Os.start. rewrite (is_abs_append _ _ Hne). reflexivity. }
    rewrite (stat_walk fs _ q Hnn); [rewrite Hq; reflexivity|].
    rewrite Hst. unfold Py.str1. rewrite split_slash_app, walk_comps_app, Hw.
    cbn. rewrite rev_involutive, Hq. reflexivity.
  - destruct (Hdots "." (or_introl eq_refl)) as [n ->]. reflexivity.
  - destruct (Hdots ".." (or_intror eq_refl)) as [n ->]. reflexivity.
Qed.

(** ** Making directories *)

Lemma same_kind_refl (a : option Fs.node) : same_kind a a.
Proof. destruct a as [[c|es]|]; cbn; eauto. Qed.

Lemma same_kind_trans (a b c : option Fs.node) :
  same_kind a b -> same_kind b c -> same_kind a c.
Proof.
  destruct a as [[f|es]|]; cbn; [intros -> | intros [es' ->] | trivial];
    cbn; auto.
Qed.

Lemma grows_trans (r1 r2 r3 : Fs.node) : grows r1 r2 -> grows r2 r3 -> grows r1 r3.
Proof. intros H1 H2 p. exact (same_kind_trans _ _ _ (H1 p) (H2 p)). Qed.

Lemma assoc_app_some (x : string) (m : Fs.node) (es extra : list (string * Fs.node)) :
  Fs.assoc x es = Some m -> Fs.assoc x (es ++ extra) = Some m.
Proof.
  induction es as [|[y n] es IH]; cbn; [discriminate|].
  destruct (String.eqb x y); auto.
Qed.

Lemma assoc_app_none (x : string) (es extra : list (string * Fs.node)) :
  Fs.assoc x es = None -> Fs.assoc x (es ++ extra) = Fs.assoc x extra.
Proof.
  induction es as [|[y n] es IH]; cbn; [reflexivity|].
  destruct (String.eqb x y); [discriminate | auto].
Qed.

(** A directory that gets more entries is put in its place, and all
    that was found before is found again. *)
Lemma put_node_grows (q : list string) :
  forall rt es extra,
    Fs.lookup_path rt q = Some (Fs.Dir es) ->
    exists r,
      Os.put_node rt q (Fs.Dir (es ++ extra)) = Some r /\
      Fs.lookup_path r q = Some (Fs.Dir (es ++ extra)) /\
      grows rt r.
Proof.
  induction q as [|y q IH]; intros rt es extra Hq.
  - cbn in Hq. inversion Hq; subst rt. exists (Fs.Dir (es ++ extra)).
    split; [reflexivity|]. split; [reflexivity|].
    intros [|z p]; [cbn; eauto|]. cbn [Fs.lookup_path].
    destruct (Fs.assoc z es) as [m|] eqn:Hz; [|exact I].
    rewrite (assoc_app_some _ _ _ extra Hz). apply same_kind_refl.
  - destruct rt as [f|es0]; [discriminate|]. cbn in Hq.
    destruct (Fs.assoc y es0) as [c|] eqn:Hy; [|discriminate].
    destruct (IH c es extra Hq) as (c' & Hput & Hlook & Hg).
    exists (Fs.Dir (Fs.set_assoc y c' es0)). cbn [Os.put_node]. rewrite Hy, Hput.
    split; [reflexivity|].
    assert (Hy' : Fs.assoc y es0 <> None) by congruence.
    split.
    + cbn [Fs.lookup_path]. rewrite (assoc_set_assoc y y c' es0 Hy'), String.eqb_refl.
      exact Hlook.
    + intros [|z p]; [cbn; eauto|]. cbn [Fs.lookup_path].
      rewrite (assoc_set_assoc y z c' es0 Hy').
      destruct (String.eqb z y) eqn:Ezy.
      * apply String.eqb_eq in Ezy. subst z. rewrite Hy. apply Hg.
      * apply same_kind_refl.
Qed.

Lemma same_kind_some (n : Fs.node) (b : option Fs.node) :
  same_kind (Some n) b -> exists n', b = Some n'.
Proof. destruct n as [c|es]; cbn; [intros -> | intros [es' ->]]; eauto. Qed.

Lemma walk_comps_grows (rt rt' : Fs.node) (comps : list string) :
  grows rt rt' ->
  forall stack q,
    Fs.walk_comps rt stack comps = Some q -> Fs.walk_comps rt' stack comps = Some q.
Proof.
  intros G. induction comps as [|c comps IH]; intros stack q H; [exact H|].
  cbn [Fs.walk_comps] in *.
  destruct (Fs.lookup_path rt (rev stack)) as [[f|es]|] eqn:Hl; try discriminate.
  pose proof (G (rev stack)) as Gs. rewrite Hl in Gs. destruct Gs as [es' Hl'].
  rewrite Hl'.
  destruct (Fs.is_cur c); [auto|].
  destruct (String.eqb c ".."); [auto|].
  destruct (Fs.assoc c es) as [m|] eqn:Hc; [|discriminate].
  pose proof (G (rev stack ++ [c])) as Gc.
  rewrite !lookup_path_app, Hl, Hl' in Gc. cbn in Gc. rewrite Hc in Gc.
  apply same_kind_some in Gc. destruct Gc as [n' Hn'].
  destruct (Fs.assoc c es') as [m'|]; [auto | discriminate].
Qed.

Lemma stat_grows (fs fs' : Fs.t) (p : string) :
  grows (Fs.root fs) (Fs.root fs') -> Fs.cwd fs' = Fs.cwd fs ->
  same_kind (Fs.stat fs p) (Fs.stat fs' p).
Proof.
  intros G Hcwd. unfold Fs.stat, Fs.realpath. rewrite Hcwd.
  destruct (String.eqb p EmptyString); [exact I|].
  destruct (Fs.walk_comps (Fs.root fs) _ _) as [q|] eqn:Hw; [|exact I].
  rewrite (walk_comps_grows _ _ _ G _ _ Hw). apply G.
Qed.

Lemma exists_grows (fs fs' : Fs.t) (p : string) :
  grows (Fs.root fs) (Fs.root fs') -> Fs.cwd fs' = Fs.cwd fs ->
  Os.path_exists fs p = true -> Os.path_exists fs' p = true.
Proof.
  intros G Hcwd. unfold Os.path_exists.
  pose proof (stat_grows fs fs' p G Hcwd) as H.
  destruct (Fs.stat fs p) as [n|]; [|discriminate].
  apply same_kind_some in H. destruct H as [n' ->]. reflexivity.
Qed.

Lemma entry_name_inv (x : string) :
  entry_name x = true ->
  Py.has_slash x = false /\ x <> EmptyString /\
  Fs.is_cur x = false /\ String.eqb x ".." = false.
Proof.
  unfold entry_name. intros H.
  apply andb_true_iff in H. destruct H as [H Hdd].
  apply andb_true_iff in H. destruct H as [Hs Hcur].
  apply negb_true_iff in Hs, Hcur, Hdd.
  repeat split; auto. intros ->. discriminate.
Qed.

(** [os.mkdir] of a free name below a directory. *)
Lemma mkdir_join (fs : Fs.t) (top x : string) (es : list (string * Fs.node)) :
  Fs.stat fs top = Some (Fs.Dir es) ->
  entry_name x = true ->
  Fs.assoc x es = None ->
  exists fs',
    Os.mkdir fs (Py.join top x) = Ok fs' /\
    Fs.stat fs' top = Some (Fs.Dir (es ++ [(x, Fs.Dir [])])) /\
    grows (Fs.root fs) (Fs.root fs') /\
    Fs.cwd fs' = Fs.cwd fs.
Proof.
  intros Htop Hx Hfree.
  destruct (stat_inv _ _ _ Htop) as (Hne & q & Hw & Hq).
  destruct (entry_name_inv x Hx) as (Hns & Hx0 & Hcur & Hdd).
  destruct (split_join top x Hne Hns Hx0) as (pre & Hsplit & Hpre & Habs & Hnn).
  pose proof (walk_comps_pre _ _ _ _ _ Hw Hpre) as Hwp.
  destruct (put_node_grows q (Fs.root fs) es [(x, Fs.Dir [])] Hq)
    as (r & Hput & Hlook & G).
  exists (Fs.mk r (Fs.cwd fs)).
  split; [|split; [|split; [exact G | reflexivity]]].
  - unfold Os.mkdir. rewrite Hnn, Hsplit, rev_app_distr. cbn [rev app Os.drop_empty].
    replace (String.eqb x EmptyString) with false
      by (symmetry; apply String.eqb_neq; exact Hx0).
    rewrite rev_involutive, (start_join _ _ _ Habs), (resolve_walk _ _ _ _ Hwp), Hq.
    rewrite Hcur, Hdd. cbn [orb]. rewrite Hfree, Hput. reflexivity.
  - assert (Hne' : String.eqb top EmptyString = false)
      by (apply String.eqb_neq; exact Hne).
    rewrite (stat_walk (Fs.mk r (Fs.cwd fs)) top q Hne').
    + exact Hlook.
    + apply (walk_comps_grows _ _ _ G). exact Hw.
Qed.

(** ** New assignments *)

Lemma all_in_no_slash (b : string) :
  all_in Assignment.name_char b = true -> Py.has_slash b = false.
Proof.
  induction b as [|c b IH]; [reflexivity|]. cbn. intros H.
  apply andb_true_iff in H. destruct H as [Hc Hb]. rewrite (IH Hb).
  destruct (Ascii.eqb c Py.slash) eqn:E; [|reflexivity].
  apply Ascii.eqb_eq in E. subst c. vm_compute in Hc. discriminate.
Qed.

Lemma accepted_plain (s : string) :
  Assignment.NAME_RE_match s = true ->
  Py.has_slash s = false /\ s <> EmptyString.
Proof.
  intros H. apply NAME_RE_match_inv in H. destruct H as (b & Hne & Hb & Hs).
  pose proof (all_in_no_slash b Hb) as Hns.
  destruct Hs as [->| ->].
  - auto.
  - split.
    + rewrite has_slash_append, Hns. reflexivity.
    + destruct b; [congruence | discriminate].
Qed.

(** An accepted name under which nothing is found in a directory can be
    the name of a new entry there. *)
Lemma accepted_free (fs : Fs.t) (top x : string) (es : list (string * Fs.node)) :
  Fs.stat fs top = Some (Fs.Dir es) ->
  Assignment.NAME_RE_match x = true ->
  Os.path_exists fs (Py.join top x) = false ->
  entry_name x = true /\ Fs.assoc x es = None.
Proof.
  intros Htop Hacc Hno. destruct (accepted_plain x Hacc) as [Hns Hx0].
  assert (Hx : entry_name x = true).
  { unfold entry_name. rewrite Hns. cbn [negb andb].
    destruct (Fs.is_cur x) eqn:Hcur.
    - exfalso. unfold Fs.is_cur in Hcur. apply orb_true_iff in Hcur.
      destruct Hcur as [E|E]; apply String.eqb_eq in E; [congruence|].
      subst x. rewrite (dot_exists fs top "." es Htop) in Hno; [discriminate|].
      cbn. auto.
    - destruct (String.eqb x "..") eqn:Hdd; [|reflexivity].
      exfalso. apply String.eqb_eq in Hdd. subst x.
      rewrite (dot_exists fs top ".." es Htop) in Hno; [discriminate|].
      cbn. auto. }
  split; [exact Hx|].
  unfold Os.path_exists in Hno. rewrite (stat_join fs top x es Htop Hx) in Hno.
  destruct (Fs.assoc x es); [discriminate | reflexivity].
Qed.

Section NewAssignments.

Context {git : GitPython} {cfg : ConfigModule}.

(** X10.  A name that [NAME_RE] does not accept makes nothing: although
    the name is checked after the two paths have been looked at,
    [Assignment.new] raises an [AssignmentException] and the file system
    is as it was, whatever the repository argument is. *)
Theorem X10_unaccepted_name_makes_nothing
        (g : Grader) (name : string) (repo : option string) (fs : Fs.t) :
  Assignment.NAME_RE_match name = false ->
  exists msg,
    Assignment.new g name repo fs = (Raise (Assignment.AssignmentException msg), fs).
Proof.
  intros H. unfold Assignment.new, andthen, os_path_exists.
  destruct (Os.path_exists fs (assignment_dir g)); cbn [negb]; [|unfold throw; eauto].
  destruct (Os.path_exists fs (Py.join (assignment_dir g) name));
    [unfold throw; eauto|].
  rewrite H. cbn [negb]. unfold throw. eauto.
Qed.

(** X11.  The empty name and the names [.] and [..] are turned away as
    existing whenever the directory of the assignments is a directory;
    for the two dot names, which [NAME_RE] accepts, this check is the
    only one that stops them. *)
Theorem X11_dot_names_are_taken
        (g : Grader) (name : string) (repo : option string) (fs : Fs.t)
        (es : list (string * Fs.node)) :
  Fs.stat fs (assignment_dir g) = Some (Fs.Dir es) ->
  In name [EmptyString; "."; ".."] ->
  Assignment.new g name repo fs
  = (Raise (Assignment.AssignmentException
              (Py.join (assignment_dir g) name +++ " exists")), fs) /\
  (name <> EmptyString -> Assignment.NAME_RE_match name = true).
Proof.
  intros Hdir Hname. split.
  - unfold Assignment.new, andthen, os_path_exists.
    unfold Os.path_exists at 1. rewrite Hdir. cbn [negb].
    rewrite (dot_exists fs _ name es Hdir Hname). reflexivity.
  - intros Hne. destruct Hname as [<-|[<-|[<-|[]]]]; [congruence | |]; reflexivity.
Qed.

(** X12.  When the directory of the assignments is a regular file, an
    accepted name gets past all three checks, and the first [os.mkdir]
    raises [NotADirectoryError]: the caller sees an [OSError], not an
    [AssignmentException]; nothing has been made. *)
Theorem X12_assignment_dir_a_file
        (g : Grader) (name : string) (repo : option string) (fs : Fs.t)
        (c : Fs.content) :
  Fs.stat fs (assignment_dir g) = Some (Fs.File c) ->
  Assignment.NAME_RE_match name = true ->
  Assignment.new g name repo fs = (Raise (Os.OSError Os.ENOTDIR), fs).
Proof.
  intros Hdir Hacc.
  destruct (stat_inv _ _ _ Hdir) as (Hne & q & Hw & Hq).
  destruct (accepted_plain name Hacc) as [Hns Hx0].
  destruct (split_join (assignment_dir g) name Hne Hns Hx0)
    as (pre & Hsplit & Hpre & Habs & Hnn).
  pose proof (walk_comps_pre _ _ _ _ _ Hw Hpre) as Hwp.
  assert (Hno : Os.path_exists fs (Py.join (assignment_dir g) name) = false).
  { unfold Os.path_exists. rewrite stat_walk_none; [reflexivity|].
    rewrite (start_join _ _ _ Habs), Hsplit, walk_comps_app, Hwp.
    cbn [Fs.walk_comps]. rewrite rev_involutive, Hq. reflexivity. }
  unfold Assignment.new, andthen, os_path_exists.
  unfold Os.path_exists at 1. rewrite Hdir. cbn [negb].
  rewrite Hno, Hacc. cbn [negb].
  unfold os_mkdir, Os.mkdir. rewrite Hnn, Hsplit, rev_app_distr.
  cbn [rev app Os.drop_empty].
  replace (String.eqb name EmptyString) with false
    by (symmetry; apply String.eqb_neq; exact Hx0).
  rewrite rev_involutive, (start_join _ _ _ Habs), (resolve_walk _ _ _ _ Hwp), Hq.
  reflexivity.
Qed.

(** X13.  [Assignment.new] does not take back what it has made: when
    the clone of the gradesheet fails, the caller gets a
    [GradeSheetException], and the directory of the assignment and its
    two subdirectories stay.  What is left can neither be opened, for
    want of the gradesheet, nor made again, because the assignment
    exists. *)
Theorem X13_failed_clone_leaves_the_directories
        (g : Grader) (name url msg : string) (fs : Fs.t)
        (es : list (string * Fs.node)) :
  Fs.stat fs (assignment_dir g) = Some (Fs.Dir es) ->
  Os.path_exists fs (Py.join (assignment_dir g) name) = false ->
  Assignment.NAME_RE_match name = true ->
  url <> EmptyString ->
  (forall fs0,
      Repo_clone_from url (Py.join (Py.join (assignment_dir g) name)
                                   GradeSheet.SUB_DIR) fs0
      = (Raise (Exception "GitCommandError" msg), fs0)) ->
  exists fs1,
    Assignment.new g name (Some url) fs
    = (Raise (GradeSheet.GradeSheetException ("Could not clone " +++ url)), fs1) /\
    Fs.stat fs1 (Py.join (assignment_dir g) name)
    = Some (Fs.Dir [("submissions", Fs.Dir []); ("results", Fs.Dir [])]) /\
    Assignment.__init__ g name fs1
    = (Raise (Assignment.AssignmentException "GradeSheet path doesn't exist"), fs1) /\
    forall repo,
      Assignment.new g name repo fs1
      = (Raise (Assignment.AssignmentException
                  (Py.join (assignment_dir g) name +++ " exists")), fs1).
Proof.
  intros Hdir Hno Hacc Hurl Hclone.
  destruct (accepted_free fs _ name es Hdir Hacc Hno) as [Hx Hfree].
  destruct (mkdir_join fs _ name es Hdir Hx Hfree) as (fs1 & Hm1 & Hd1 & G1 & C1).
  assert (Hp1 : Fs.stat fs1 (Py.join (assignment_dir g) name) = Some (Fs.Dir [])).
  { rewrite (stat_join fs1 _ name _ Hd1 Hx), (assoc_app_none _ _ _ Hfree).
    cbn. rewrite String.eqb_refl. reflexivity. }
  destruct (mkdir_join fs1 _ "submissions" [] Hp1 eq_refl eq_refl)
    as (fs2 & Hm2 & Hp2 & G2 & C2).
  destruct (mkdir_join fs2 _ "results" _ Hp2 eq_refl eq_refl)
    as (fs3 & Hm3 & Hp3 & G3 & C3).
  exists fs3. split; [|split; [|split]].
  - unfold Assignment.new, andthen, os_path_exists.
    unfold Os.path_exists at 1. rewrite Hdir. cbn [negb].
    rewrite Hno, Hacc. cbn [negb].
    unfold os_mkdir. rewrite Hm1, Hm2, Hm3.
    unfold truthy.
    replace (String.eqb url EmptyString) with false
      by (symmetry; apply String.eqb_neq; exact Hurl).
    cbn [negb]. unfold GradeSheet.from_repo, except, andthen.
    rewrite Hclone. reflexivity.
  - exact Hp3.
  - unfold Assignment.__init__, andthen, os_path_exists, Os.path_exists.
    unfold Assignment.submissions_path, Assignment.results_path,
      Assignment.gradesheet_path.
    cbn [Assignment.path].
    assert (Hs : Fs.stat fs3 (Py.join (Py.join (assignment_dir g) name) "submissions")
                 = Some (Fs.Dir []))
      by exact (stat_join fs3 _ "submissions" _ Hp3 eq_refl).
    assert (Hr : Fs.stat fs3 (Py.join (Py.join (assignment_dir g) name) "results")
                 = Some (Fs.Dir []))
      by exact (stat_join fs3 _ "results" _ Hp3 eq_refl).
    assert (Hg : Fs.stat fs3 (Py.join (Py.join (assignment_dir g) name) "gradesheet")
                 = None)
      by exact (stat_join fs3 _ "gradesheet" _ Hp3 eq_refl).
    rewrite Hp3. cbn [negb]. rewrite Hs. cbn [negb]. rewrite Hr. cbn [negb].
    unfold GradeSheet.SUB_DIR. rewrite Hg. reflexivity.
  - intros repo. unfold Assignment.new, andthen, os_path_exists.
    assert (Hex : Os.path_exists fs3 (assignment_dir g) = true).
    { apply (exists_grows fs fs3).
      - exact (grows_trans _ _ _ G1 (grows_trans _ _ _ G2 G3)).
      - congruence.
      - unfold Os.path_exists. rewrite Hdir. reflexivity. }
    rewrite Hex. cbn [negb]. unfold Os.path_exists. rewrite Hp3. reflexivity.
Qed.

End NewAssignments.

(** ** New gradesheets *)

Lemma ends_with_slash_append (a b : string) :
  b <> EmptyString -> Py.ends_with_slash (a +++ b) = Py.ends_with_slash b.
Proof.
  intros Hb. induction a as [|c a IH]; [reflexivity|].
  cbn [String.append]. destruct (a +++ b) as [|d r] eqn:E.
  - destruct a; cbn in E; [congruence | discriminate].
  - exact IH.
Qed.

Lemma plain_ends (x : string) :
  Py.has_slash x = false -> Py.ends_with_slash x = false.
Proof.
  induction x as [|c t IH]; [reflexivity|]. cbn [Py.has_slash].
  intros H. apply orb_false_elim in H. destruct H as [Hc Ht].
  destruct t as [|d t']; [exact Hc | exact (IH Ht)].
Qed.

Lemma join_ends (top x : string) :
  Py.has_slash x = false -> x <> EmptyString ->
  Py.ends_with_slash (Py.join top x) = false.
Proof.
  intros Hns Hx. destruct x as [|c t]; [congruence|].
  assert (Hc : Ascii.eqb c Py.slash = false).
  { cbn in Hns. apply orb_false_elim in Hns. apply Hns. }
  unfold Py.join. rewrite Hc.
  destruct (String.eqb top EmptyString || Py.ends_with_slash top)%bool.
  - rewrite ends_with_slash_append by discriminate. apply plain_ends, Hns.
  - rewrite <- append_assoc, ends_with_slash_append by discriminate.
    apply plain_ends, Hns.
Qed.

(** Writing a file under a free name below a directory. *)
Lemma write_join (fs : Fs.t) (top x s : string) (es : list (string * Fs.node)) :
  Fs.stat fs top = Some (Fs.Dir es) ->
  entry_name x = true ->
  Fs.assoc x es = None ->
  exists fs',
    Os.write_text fs (Py.join top x) s = Ok fs' /\
    Fs.stat fs' (Py.join top x) = Some (Fs.File (Fs.Plain s)) /\
    grows (Fs.root fs) (Fs.root fs') /\
    Fs.cwd fs' = Fs.cwd fs.
Proof.
  intros Htop Hx Hfree.
  destruct (stat_inv _ _ _ Htop) as (Hne & q & Hw & Hq).
  destruct (entry_name_inv x Hx) as (Hns & Hx0 & Hcur & Hdd).
  destruct (split_join top x Hne Hns Hx0) as (pre & Hsplit & Hpre & Habs & Hnn).
  pose proof (walk_comps_pre _ _ _ _ _ Hw Hpre) as Hwp.
  destruct (put_node_grows q (Fs.root fs) es [(x, Fs.File (Fs.Plain s))] Hq)
    as (r & Hput & Hlook & G).
  exists (Fs.mk r (Fs.cwd fs)).
  split; [|split; [|split; [exact G | reflexivity]]].
  - unfold Os.write_text. rewrite Hnn, Hsplit, rev_app_distr.
    cbn [rev app Os.drop_empty].
    replace (String.eqb x EmptyString) with false
      by (symmetry; apply String.eqb_neq; exact Hx0).
    rewrite rev_involutive, (start_join _ _ _ Habs), (resolve_walk _ _ _ _ Hwp), Hq.
    rewrite (join_ends top x Hns Hx0), Hcur, Hdd. cbn [orb].
    rewrite Hfree, Hput. reflexivity.
  - assert (Hne' : String.eqb top EmptyString = false)
      by (apply String.eqb_neq; exact Hne).
    assert (Htop' : Fs.stat (Fs.mk r (Fs.cwd fs)) top
                    = Some (Fs.Dir (es ++ [(x, Fs.File (Fs.Plain s))]))).
    { rewrite (stat_walk (Fs.mk r (Fs.cwd fs)) top q Hne'); [exact Hlook|].
      apply (walk_comps_grows _ _ _ G). exact Hw. }
    rewrite (stat_join _ top x _ Htop' Hx), (assoc_app_none _ _ _ Hfree).
    cbn. rewrite String.eqb_refl. reflexivity.
Qed.

Section NewGradeSheets.

Context {git : GitPython} {cfg : ConfigModule}.

(** X14.  The Dockerfile of a default gradesheet is one comment line
    that names the assignment, without a line end and without any
    instruction: when the repository is initialised and the default
    configuration is made, when these leave a directory at the path of
    the gradesheet with nothing called [Dockerfile] in it, and when
    adding to the index and committing succeed and do not touch that
    file, [GradeSheet.new] returns normally and the file holds exactly
    that line. *)
Theorem X14_default_dockerfile
        (path name : string) (fs fs1 fs2 : Fs.t) (repo : Repo)
        (c : AssignmentConfig) (es : list (string * Fs.node)) :
  Repo_init path fs = (Ok repo, fs1) ->
  AssignmentConfig_new path name fs1 = (Ok c, fs2) ->
  Fs.stat fs2 path = Some (Fs.Dir es) ->
  Fs.assoc "Dockerfile" es = None ->
  (forall fs0, exists fs0',
      index_add repo [file_path c; Py.join path "Dockerfile"] fs0 = (Ok tt, fs0') /\
      Fs.stat fs0' (Py.join path "Dockerfile")
      = Fs.stat fs0 (Py.join path "Dockerfile")) ->
  (forall fs0, exists fs0',
      index_commit repo "Add default assignment.yml and Dockerfile" fs0
      = (Ok tt, fs0') /\
      Fs.stat fs0' (Py.join path "Dockerfile")
      = Fs.stat fs0 (Py.join path "Dockerfile")) ->
  exists fs',
    GradeSheet.new path name fs = (Ok tt, fs') /\
    Fs.stat fs' (GradeSheet.dockerfile_path path)
    = Some (Fs.File (Fs.Plain ("# Dockerfile for " +++ name))).
Proof.
  intros Hinit Hcfg Hdir Hfree Hadd Hcommit.
  destruct (write_join fs2 path "Dockerfile" ("# Dockerfile for " +++ name) es
              Hdir eq_refl Hfree) as (fs3 & Hwrite & Hfile & _ & _).
  destruct (Hadd fs3) as (fs4 & Ha & Hs4).
  destruct (Hcommit fs4) as (fs5 & Hc & Hs5).
  exists fs5. split.
  - unfold GradeSheet.new, andthen. rewrite Hinit, Hcfg.
    unfold open_w_write. rewrite Hwrite, Ha, Hc. reflexivity.
  - unfold GradeSheet.dockerfile_path. rewrite Hs5, Hs4. exact Hfile.
Qed.

End NewGradeSheets.

(* ================================================================= *)
(** * The properties of the models on the sample course *)

(** The assignments [hw1] of two graders of the same course have the
    same tag. *)
Lemma X9_witness :
  Assignment.image_tag Course.hw1 = Ok "cs101-intro-hw1" /\
  Assignment.image_tag Course.second_hw1 = Ok "cs101-intro-hw1" /\
  Assignment.grader Course.hw1 <> Assignment.grader Course.second_hw1 /\
  Assignment.name Course.hw1 = Assignment.name Course.second_hw1 /\
  getitem (config (Assignment.grader Course.hw1)) "course-id"
  = getitem (config (Assignment.grader Course.second_hw1)) "course-id" /\
  getitem (config (Assignment.grader Course.hw1)) "course-name"
  = getitem (config (Assignment.grader Course.second_hw1)) "course-name".
Proof.
  split; [reflexivity|]. split; [reflexivity|]. split; [discriminate|].
  apply (proj2 (X9_image_tag_tells_assignments_apart
                  Course.hw1 Course.second_hw1 "cs101-intro-hw1" eq_refl eq_refl)).
  intros g key v [<-|[<-|[]]] [<-|[<-|[]]] E; cbn in E; inversion E; reflexivity.
Defined.

(** A name with a blank is turned away, and nothing is made. *)
Lemma X10_witness :
  Assignment.NAME_RE_match "hw 1" = false /\
  exists msg,
    Assignment.new (git := Course.offline_git) (cfg := Course.yaml_config)
                   Course.grader "hw 1" None Course.disk
    = (Raise (Assignment.AssignmentException msg), Course.disk).
Proof.
  split; [reflexivity|].
  exact (X10_unaccepted_name_makes_nothing
           (git := Course.offline_git) (cfg := Course.yaml_config)
           Course.grader "hw 1" None Course.disk eq_refl).
Defined.

(** The name [..] in the sample course. *)
Lemma X11_witness :
  Assignment.new (git := Course.offline_git) (cfg := Course.yaml_config)
                 Course.grader ".." None Course.disk
  = (Raise (Assignment.AssignmentException "assignments/.. exists"), Course.disk) /\
  Assignment.NAME_RE_match ".." = true.
Proof.
  assert (H : In ".." [EmptyString; "."; ".."]) by (right; right; left; reflexivity).
  destruct (X11_dot_names_are_taken
              (git := Course.offline_git) (cfg := Course.yaml_config)
              Course.grader ".." None Course.disk _ eq_refl H) as [H1 H2].
  split; [exact H1|]. apply H2. discriminate.
Defined.

(** The directory of the assignments given as [grader.yml]. *)
Lemma X12_witness :
  Fs.stat Course.disk (assignment_dir Course.misdirected)
  = Some (Fs.File (Fs.Plain "course-id: cs101")) /\
  Assignment.new (git := Course.offline_git) (cfg := Course.yaml_config)
                 Course.misdirected "hw1" None Course.disk
  = (Raise (Exception "NotADirectoryError" "Not a directory"), Course.disk).
Proof.
  split; [reflexivity|].
  exact (X12_assignment_dir_a_file
           (git := Course.offline_git) (cfg := Course.yaml_config)
           Course.misdirected "hw1" None Course.disk _ eq_refl eq_refl).
Defined.

(** A new assignment [hw1] with a gradesheet to clone, without network:
    the first call leaves [assignments/hw1] behind, the second is turned
    away. *)
Lemma X13_witness :
  Os.path_exists Course.disk "assignments/hw1" = false /\
  exists fs1,
    Assignment.new (git := Course.offline_git) (cfg := Course.yaml_config)
                   Course.grader "hw1" (Some "https://example.org/hw1.git") Course.disk
    = (Raise (GradeSheet.GradeSheetException
                "Could not clone https://example.org/hw1.git"), fs1) /\
    Fs.stat fs1 "assignments/hw1"
    = Some (Fs.Dir [("submissions", Fs.Dir []); ("results", Fs.Dir [])]) /\
    Assignment.__init__ (git := Course.offline_git) (cfg := Course.yaml_config)
                        Course.grader "hw1" fs1
    = (Raise (Assignment.AssignmentException "GradeSheet path doesn't exist"), fs1) /\
    forall repo,
      Assignment.new (git := Course.offline_git) (cfg := Course.yaml_config)
                     Course.grader "hw1" repo fs1
      = (Raise (Assignment.AssignmentException "assignments/hw1 exists"), fs1).
Proof.
  split; [reflexivity|].
  assert (Hurl : "https://example.org/hw1.git" <> EmptyString) by discriminate.
  exact (X13_failed_clone_leaves_the_directories
           (git := Course.offline_git) (cfg := Course.yaml_config)
           Course.grader "hw1" "https://example.org/hw1.git"
           "unable to access https://example.org/hw1.git" Course.disk _
           eq_refl eq_refl eq_refl Hurl (fun fs0 => eq_refl)).
Defined.

(** A default gradesheet for [hw0] in the sample course. *)
Lemma X14_witness :
  exists fs',
    GradeSheet.new (git := Course.offline_git) (cfg := Course.yaml_config)
                   "assignments/hw0/gradesheet" "hw0" Course.disk
    = (Ok tt, fs') /\
    Fs.stat fs' "assignments/hw0/gradesheet/Dockerfile"
    = Some (Fs.File (Fs.Plain "# Dockerfile for hw0")).
Proof.
  exact (X14_default_dockerfile
           (git := Course.offline_git) (cfg := Course.yaml_config)
           "assignments/hw0/gradesheet" "hw0" Course.disk
           (snd (Repo_init (GitPython := Course.offline_git)
                           "assignments/hw0/gradesheet" Course.disk))
           (snd (AssignmentConfig_new
                   (ConfigModule := Course.yaml_config)
                   "assignments/hw0/gradesheet" "hw0"
                   (snd (Repo_init (GitPython := Course.offline_git)
                                   "assignments/hw0/gradesheet" Course.disk))))
           "assignments/hw0/gradesheet"
           "assignments/hw0/gradesheet/assignment.yml"
           [("assignment.yml", Fs.File (Fs.Plain "assignment-name: hw0"))]
           eq_refl eq_refl eq_refl eq_refl
           (fun fs0 => ex_intro _ fs0 (conj eq_refl eq_refl))
           (fun fs0 => ex_intro _ fs0 (conj eq_refl eq_refl))).
Defined.
